(** * foam2py.helpers: loaders for OpenFOAM post-processing files

    A shallow embedding of [foam2py/helpers.py] ([count_columns],
    [load_dat], [load_xy]) and the properties of its header scan, tuple
    expansion, decimation, directory merge and file-name based column
    naming.

    Python integers are [Z]; text is [string]; a raised exception is the
    [Raise] branch of [result].  Reading files goes through an explicit
    file tree. *)

From Stdlib Require Import String Ascii List ZArith QArith Lia Bool Arith.
From Stdlib Require Import DecimalString DecimalNat Permutation Sorted.
Import ListNotations.

Local Open Scope string_scope.
Local Open Scope Z_scope.

(** ** Python values, exceptions and strings *)

Module Py.

(** The built-in exceptions the loaders can end in. *)
Inductive exn : Type :=
| ZeroDivisionError
| TypeError
| ValueError
| IndexError
| AttributeError
| KeyError
| FileNotFoundError
| IsADirectoryError.

Inductive result (A : Type) : Type :=
| Ok (a : A)
| Raise (e : exn).

Arguments Ok {A} a.
Arguments Raise {A} e.

Definition bind {A B : Type} (c : result A) (k : A -> result B) : result B :=
  match c with
  | Ok a => k a
  | Raise e => Raise e
  end.

(** What a [lambda] handed to a library may return: [None], a [bool] or
    an [int]; the library only looks at its truth value. *)
Inductive value : Type :=
| PyNone
| PyBool (b : bool)
| PyInt (n : Z).

Definition truthy (v : value) : bool :=
  match v with
  | PyNone => false
  | PyBool b => b
  | PyInt n => negb (n =? 0)
  end.

(** A number as [field_components] receives it: the integer [pos], or the
    float that true division [/] yields.  The float is kept as the exact
    quotient; its comparisons with 1, 3 and 6 agree with those of the
    rounded double for every divisor below [2^51]. *)
Inductive number : Type :=
| Int (n : Z)
| Float (q : Q).

Definition NL : ascii := "010"%char.
Definition TAB : ascii := "009"%char.

(** [s.startswith(p)] *)
Definition startswith (s p : string) : bool := String.prefix p s.

(** [s.endswith(p)] for a one-character [p]. *)
Fixpoint endswith_char (s : string) (c : ascii) : bool :=
  match s with
  | EmptyString => false
  | String a EmptyString => Ascii.eqb a c
  | String _ s' => endswith_char s' c
  end.

(** [s.count(sub)]: occurrences that do not overlap, left to right;
    the empty [sub] occurs between all characters. *)
Fixpoint count_from (sub : string) (skip : nat) (s : string) : nat :=
  match s with
  | EmptyString => O
  | String _ s' =>
      match skip with
      | S k => count_from sub k s'
      | O => if String.prefix sub s
             then S (count_from sub (String.length sub - 1) s')
             else count_from sub O s'
      end
  end.

Definition count (s sub : string) : Z :=
  match sub with
  | EmptyString => Z.of_nat (String.length s) + 1
  | _ => Z.of_nat (count_from sub O s)
  end.

(** [s.split(sep)] for a one-character [sep]: never empty. *)
Fixpoint split (s : string) (sep : ascii) : list string :=
  match s with
  | EmptyString => [EmptyString]
  | String c s' =>
      if Ascii.eqb c sep then EmptyString :: split s' sep
      else match split s' sep with
           | [] => [String c EmptyString]
           | w :: ws => String c w :: ws
           end
  end.

(** [s.replace(c, '')] for a one-character [c]. *)
Fixpoint remove_char (s : string) (c : ascii) : string :=
  match s with
  | EmptyString => EmptyString
  | String a s' =>
      if Ascii.eqb a c then remove_char s' c else String a (remove_char s' c)
  end.

(** White space as [str.split()] and [str.strip()] see it, within ASCII. *)
Definition isspace (c : ascii) : bool :=
  let n := nat_of_ascii c in
  ((9 <=? n) && (n <=? 13) || (28 <=? n) && (n <=? 32))%nat.

(** [s.split()]: the maximal runs of characters that are not white space. *)
Fixpoint split_ws (s : string) : list string :=
  match s with
  | EmptyString => []
  | String c s' =>
      if isspace c then split_ws s'
      else match s' with
           | EmptyString => [String c EmptyString]
           | String c' _ =>
               if isspace c' then String c EmptyString :: split_ws s'
               else match split_ws s' with
                    | [] => [String c EmptyString]
                    | w :: ws => String c w :: ws
                    end
           end
  end.

Fixpoint lstrip (s : string) : string :=
  match s with
  | EmptyString => EmptyString
  | String c s' => if isspace c then lstrip s' else s
  end.

Fixpoint rstrip (s : string) : string :=
  match s with
  | EmptyString => EmptyString
  | String c s' =>
      match rstrip s' with
      | EmptyString => if isspace c then EmptyString else String c EmptyString
      | r => String c r
      end
  end.

(** [s.strip()] *)
Definition strip (s : string) : string := rstrip (lstrip s).

(** [str(n)] for a natural number. *)
Definition str_of_nat (n : nat) : string :=
  NilEmpty.string_of_uint (Nat.to_uint n).

(** The lines of a text file as iterating over it (or [readlines()])
    yields them: every line keeps its line feed; only the last one may lack
    it. *)
Fixpoint readlines (s : string) : list string :=
  match s with
  | EmptyString => []
  | String c s' =>
      if Ascii.eqb c NL then String c EmptyString :: readlines s'
      else match readlines s' with
           | [] => [String c EmptyString]
           | l :: ls => String c l :: ls
           end
  end.

(** The elements of a set built from [ls]: each once, here in order of
    first appearance. *)
Fixpoint distinct (seen ls : list string) : list string :=
  match ls with
  | [] => []
  | l :: ls' =>
      if existsb (String.eqb l) seen then distinct seen ls'
      else l :: distinct (l :: seen) ls'
  end.

(** [enumerate(xs)] *)
Fixpoint enumerate_from {A : Type} (i : Z) (xs : list A) : list (Z * A) :=
  match xs with
  | [] => []
  | x :: xs' => (i, x) :: enumerate_from (i + 1) xs'
  end.

Definition enumerate {A : Type} (xs : list A) : list (Z * A) :=
  enumerate_from 0 xs.

(** [xs[i:]] for [0 <= i]. *)
Definition slice_from {A : Type} (i : nat) (xs : list A) : list A := skipn i xs.

(** [a % b]: the sign follows the divisor, as [Z.modulo] does. *)
Definition mod_ (a b : Z) : result Z :=
  if b =? 0 then Raise ZeroDivisionError else Ok (a mod b).

(** [a / b] on integers: always a float. *)
Definition truediv (a b : Z) : result number :=
  match b with
  | Zpos d => Ok (Float (a # d))
  | Zneg d => Ok (Float ((- a) # d))
  | Z0 => Raise ZeroDivisionError
  end.

(** [range(n)]: an integer is needed. *)
Definition range (n : number) : result (list nat) :=
  match n with
  | Int k => Ok (seq 0 (Z.to_nat k))
  | Float _ => Raise TypeError
  end.

Definition le (n : number) (k : Z) : bool :=
  match n with
  | Int m => m <=? k
  | Float q => Qle_bool q (inject_Z k)
  end.

Definition eq (n : number) (k : Z) : bool :=
  match n with
  | Int m => m =? k
  | Float q => Qeq_bool q (inject_Z k)
  end.

End Py.

Export Py (exn (..), result (..), value (..), number (..)).

Declare Scope py_scope.
Delimit Scope py_scope with py.
Notation "x <- c ;; k" := (Py.bind c (fun x => k))
  (at level 61, c at next level, right associativity) : py_scope.
Notation "' p <- c ;; k" := (Py.bind c (fun x => let p := x in k))
  (at level 61, p pattern, c at next level, right associativity) : py_scope.
Local Open Scope py_scope.

(** Running a fallible step over a list, left to right, as a list
    comprehension or a [for] loop does. *)
Fixpoint mapM {A B : Type} (f : A -> result B) (xs : list A) : result (list B) :=
  match xs with
  | [] => Ok []
  | x :: xs' => y <- f x ;; ys <- mapM f xs' ;; Ok (y :: ys)
  end.

Fixpoint foldM {A S : Type} (f : S -> A -> result S) (xs : list A) (s : S)
  : result S :=
  match xs with
  | [] => Ok s
  | x :: xs' => s' <- f s x ;; foldM f xs' s'
  end.

(** ** Files *)

(** A path is the list of its components, as [pathlib] keeps them. *)
Definition Path : Type := list string.

#[warnings="-register-all"]
Inductive node : Type :=
| File (content : string)
| Dir (entries : list (string * node)).

Module pathlib.

Fixpoint find_entry (name : string) (es : list (string * node)) : option node :=
  match es with
  | [] => None
  | (n, x) :: es' => if String.eqb n name then Some x else find_entry name es'
  end.

Fixpoint lookup (fs : node) (p : Path) : option node :=
  match p with
  | [] => Some fs
  | name :: p' =>
      match fs with
      | File _ => None
      | Dir es =>
          match find_entry name es with
          | Some x => lookup x p'
          | None => None
          end
      end
  end.

(** [Path.is_dir()] *)
Definition is_dir (fs : node) (p : Path) : bool :=
  match lookup fs p with
  | Some (Dir _) => true
  | _ => false
  end.

(** [Path.name]: the last component. *)
Definition name (p : Path) : string := last p EmptyString.

(** The position of the last ["."] of [s], counted from [i]. *)
Fixpoint rfind_dot (s : string) (i : nat) : option nat :=
  match s with
  | EmptyString => None
  | String c s' =>
      match rfind_dot s' (S i) with
      | Some j => Some j
      | None => if Ascii.eqb c "."%char then Some i else None
      end
  end.

(** [Path.stem]: the name without its last suffix; a leading or a
    trailing dot starts no suffix. *)
Definition stem (p : Path) : string :=
  let n := name p in
  match rfind_dot n O with
  | Some i =>
      if ((0 <? i) && (i <? String.length n - 1))%nat
      then String.substring 0 i n else n
  | None => n
  end.

(** Does [name] match the pattern ["*" ++ suffix]? *)
Definition endswith (name suffix : string) : bool :=
  let n := String.length name in
  let k := String.length suffix in
  ((k <=? n)%nat && String.eqb (String.substring (n - k) k name) suffix).

(** [Path.rglob("*" ++ suffix)]: every entry below [p], at any depth,
    whose name ends in [suffix], directories included. *)
Fixpoint rglob_node (suffix : string) (here : Path) (x : node) : list Path :=
  match x with
  | File _ => []
  | Dir es =>
      (fix entries (es : list (string * node)) : list Path :=
         match es with
         | [] => []
         | (n, child) :: es' =>
             ((if endswith n suffix then [here ++ [n]] else [])
                ++ rglob_node suffix (here ++ [n]) child
                ++ entries es')%list
         end) es
  end.

Definition rglob (fs : node) (p : Path) (suffix : string) : list Path :=
  match lookup fs p with
  | Some x => rglob_node suffix p x
  | None => []
  end.

(** Strings compare by code point, paths component by component. *)
Fixpoint path_ltb (p q : Path) : bool :=
  match p, q with
  | [], [] => false
  | [], _ :: _ => true
  | _ :: _, [] => false
  | a :: p', b :: q' =>
      match String.compare a b with
      | Lt => true
      | Gt => false
      | Eq => path_ltb p' q'
      end
  end.

End pathlib.

(** [open(path)] followed by reading the whole text. *)
Definition open_read (fs : node) (p : Path) : result string :=
  match pathlib.lookup fs p with
  | Some (File content) => Ok content
  | Some (Dir _) => Raise IsADirectoryError
  | None => Raise FileNotFoundError
  end.

(** [sorted(paths)]: ascending, equal paths in their first order. *)
Fixpoint insert_sorted (p : Path) (ps : list Path) : list Path :=
  match ps with
  | [] => [p]
  | q :: ps' =>
      if pathlib.path_ltb q p then q :: insert_sorted p ps' else p :: ps
  end.

Definition sorted (ps : list Path) : list Path :=
  fold_right insert_sorted [] ps.

Module linecache.

(** [linecache.getlines]: the lines of the file, the last one completed
    by a line feed; no lines at all when the file cannot be read. *)
Fixpoint complete_last (ls : list string) : list string :=
  match ls with
  | [] => []
  | [l] => [if Py.endswith_char l Py.NL then l else l ++ String Py.NL EmptyString]
  | l :: ls' => l :: complete_last ls'
  end.

Definition getlines (fs : node) (p : Path) : list string :=
  match open_read fs p with
  | Ok content => complete_last (Py.readlines content)
  | Raise _ => []
  end.

(** [linecache.getline(path, lineno)]: lines count from 1; the empty
    string for any other [lineno]. *)
Definition getline (fs : node) (p : Path) (lineno : Z) : string :=
  let lines := getlines fs p in
  if (1 <=? lineno) && (lineno <=? Z.of_nat (List.length lines))
  then nth (Z.to_nat (lineno - 1)) lines EmptyString
  else EmptyString.

End linecache.

(** ** [count_columns] *)

Definition count_columns (fs : node) (filepath : Path) (sep : string)
  (line_no : Z) : Z :=
  let line := linecache.getline fs filepath line_no in
  Py.count line sep + Py.count line (String Py.NL EmptyString).

(** ** Regular expressions: [re.match]

    A pattern matches at the start of the text when some prefix of the
    text belongs to its language; derivatives decide it.  Greedy and lazy
    repetition have the same language. *)

Module re.

Inductive regex : Type :=
| Void
| Eps
| Chr (p : ascii -> bool)
| Cat (r1 r2 : regex)
| Alt (r1 r2 : regex)
| Star (r : regex).

Definition Opt (r : regex) : regex := Alt r Eps.
Definition Plus (r : regex) : regex := Cat r (Star r).

Fixpoint nullable (r : regex) : bool :=
  match r with
  | Void => false
  | Eps => true
  | Chr _ => false
  | Cat r1 r2 => nullable r1 && nullable r2
  | Alt r1 r2 => nullable r1 || nullable r2
  | Star _ => true
  end.

Fixpoint deriv (c : ascii) (r : regex) : regex :=
  match r with
  | Void => Void
  | Eps => Void
  | Chr p => if p c then Eps else Void
  | Cat r1 r2 =>
      if nullable r1 then Alt (Cat (deriv c r1) r2) (deriv c r2)
      else Cat (deriv c r1) r2
  | Alt r1 r2 => Alt (deriv c r1) (deriv c r2)
  | Star r1 => Cat (deriv c r1) (Star r1)
  end.

(** [re.match(r, s)] as a truth value. *)
Fixpoint match_ (r : regex) (s : string) : bool :=
  nullable r ||
  match s with
  | EmptyString => false
  | String c s' => match_ (deriv c r) s'
  end.

Definition digit : regex :=
  Chr (fun c => (48 <=? nat_of_ascii c)%nat && (nat_of_ascii c <=? 57)%nat).
Definition one_of (cs : list ascii) : regex :=
  Chr (fun c => existsb (Ascii.eqb c) cs).
Definition dot : regex := Chr (fun c => negb (Ascii.eqb c Py.NL)).

End re.

(** [REGEX_FLOAT]: an optional sign; digits with an optional fraction, or
    a dot and digits; an optional exponent. *)
Definition REGEX_FLOAT : re.regex :=
  re.Cat (re.Opt (re.one_of ["+"; "-"]%char))
    (re.Cat
       (re.Alt
          (re.Cat (re.Plus re.digit)
             (re.Opt (re.Cat (re.one_of ["."%char]) (re.Star re.digit))))
          (re.Cat (re.one_of ["."%char]) (re.Plus re.digit)))
       (re.Opt
          (re.Cat (re.one_of ["e"; "E"]%char)
             (re.Cat (re.Opt (re.one_of ["+"; "-"]%char)) (re.Plus re.digit))))).

(** ** Tables

    A [DataFrame] is its row index and its labelled columns in order.
    [F] is the type of floats; a cell of dtype [object] may hold text, an
    array (after [apply]) or a missing value. *)

Inductive dtype : Type := object | float64.

Definition dtype_eqb (a b : dtype) : bool :=
  match a, b with
  | object, object => true
  | float64, float64 => true
  | _, _ => false
  end.

Inductive cell (F : Type) : Type :=
| Str (s : string)
| Num (x : F)
| Arr (xs : list F)
| NaN.

Arguments Str {F} s.
Arguments Num {F} x.
Arguments Arr {F} xs.
Arguments NaN {F}.

Record Series (F : Type) : Type := mkSeries {
  dtype_of : dtype;
  values : list (cell F)
}.

Arguments mkSeries {F} _ _.
Arguments dtype_of {F} _.
Arguments values {F} _.

Record DataFrame (F : Type) : Type := mkFrame {
  index_name : option string;
  index : list (cell F);
  columns : list (string * Series F)
}.

Arguments mkFrame {F} _ _ _.
Arguments index_name {F} _.
Arguments index {F} _.
Arguments columns {F} _.

(** What [load_dat] and [load_xy] pass to [pandas.read_csv], next to
    [sep='\t'] and [index_col=0]. *)
Record read_csv_kwargs : Type := mkKwargs {
  header : option Z;
  usecols : option (list Z);
  names : option (list string);
  skiprows : Z -> result value
}.

(** ** NumPy arrays of floats *)

Module np.
Section Arrays.

Context {F : Type}.

(** A two-dimensional array of floats, or a one-dimensional array whose
    items are themselves arrays. *)
Inductive ndarray : Type :=
| Array2 (width : nat) (rows : list (list F))
| Array1 (items : list (list F)).

(** [np.array(tokens, dtype=float)]: every token has to denote a float. *)
Definition array_of_tokens (float_of_string : string -> option F)
  (tokens : list string) : result (list F) :=
  mapM (fun t => match float_of_string t with
                 | Some x => Ok x
                 | None => Raise ValueError
                 end) tokens.

Definition uniform (w : nat) (rows : list (list F)) : bool :=
  forallb (fun r => Nat.eqb (List.length r) w) rows.

(** [np.array(rows)] for a list of float arrays.  Rows of unequal length
    raise since NumPy 1.24; older releases ([ragged_as_objects]) build a
    one-dimensional array of objects. *)
Definition array (ragged_as_objects : bool) (rows : list (list F))
  : result ndarray :=
  match rows with
  | [] => Ok (Array1 [])
  | r :: _ =>
      if uniform (List.length r) rows then Ok (Array2 (List.length r) rows)
      else if ragged_as_objects then Ok (Array1 rows)
      else Raise ValueError
  end.

(** [a.shape[-1]] *)
Definition shape_last (a : ndarray) : nat :=
  match a with
  | Array2 w _ => w
  | Array1 items => List.length items
  end.

(** [a[:, j]]: one index too many for a one-dimensional array. *)
Definition column (a : ndarray) (j : nat) : result (list F) :=
  match a with
  | Array2 _ rows =>
      mapM (fun r => match nth_error r j with
                     | Some x => Ok x
                     | None => Raise IndexError
                     end) rows
  | Array1 _ => Raise IndexError
  end.

End Arrays.
End np.

(** ** The pandas operations the loaders use *)

Module pd.
Section Frames.

Context {F : Type}.

Definition labels (dat : DataFrame F) : list string := map fst (columns dat).

(** [dat.dtypes] *)
Definition dtypes (dat : DataFrame F) : list dtype :=
  map (fun c => dtype_of (snd c)) (columns dat).

(** [len(dat)] *)
Definition len (dat : DataFrame F) : nat := List.length (index dat).

Fixpoint find_label (key : string) (cols : list (string * Series F))
  : option (Series F) :=
  match cols with
  | [] => None
  | (k, s) :: cols' => if String.eqb k key then Some s else find_label key cols'
  end.

(** [dat[key]] *)
Definition getitem (dat : DataFrame F) (key : string) : result (Series F) :=
  match find_label key (columns dat) with
  | Some s => Ok s
  | None => Raise KeyError
  end.

Fixpoint set_label (key : string) (s : Series F) (cols : list (string * Series F))
  : list (string * Series F) :=
  match cols with
  | [] => [(key, s)]
  | (k, v) :: cols' =>
      if String.eqb k key then (key, s) :: cols'
      else (k, v) :: set_label key s cols'
  end.

(** [dat[key] = s] *)
Definition setitem (dat : DataFrame F) (key : string) (s : Series F)
  : DataFrame F :=
  mkFrame (index_name dat) (index dat) (set_label key s (columns dat)).

(** [s.iloc[-1]] *)
Definition iloc_last (s : Series F) : result (cell F) :=
  match rev (values s) with
  | [] => Raise IndexError
  | c :: _ => Ok c
  end.

(** [ls.index(key)] *)
Fixpoint index_of (key : string) (ls : list string) : result nat :=
  match ls with
  | [] => Raise ValueError
  | k :: ls' =>
      if String.eqb k key then Ok O
      else i <- index_of key ls' ;; Ok (S i)
  end.

Definition has_label (dat : DataFrame F) (key : string) : bool :=
  existsb (String.eqb key) (labels dat).

(** [dat.insert(loc, column, value)] for an array of floats: the label
    has to be new, the array as long as the table, and [loc] at most the
    number of columns. *)
Definition insert (dat : DataFrame F) (loc : nat) (column : string)
  (value : list F) : result (DataFrame F) :=
  if has_label dat column then Raise ValueError
  else if negb (Nat.eqb (List.length value) (len dat)) then Raise ValueError
  else if (List.length (columns dat) <? loc)%nat then Raise IndexError
  else Ok (mkFrame (index_name dat) (index dat)
             (firstn loc (columns dat)
                ++ (column, mkSeries float64 (map Num value))
                :: skipn loc (columns dat))).

(** [dat.drop(keys, axis='columns')] *)
Definition drop (dat : DataFrame F) (keys : list string) : result (DataFrame F) :=
  if forallb (has_label dat) keys
  then Ok (mkFrame (index_name dat) (index dat)
             (filter (fun c => negb (existsb (String.eqb (fst c)) keys))
                (columns dat)))
  else Raise KeyError.

Definition column_or_nan (key : string) (dat : DataFrame F) : list (cell F) :=
  match find_label key (columns dat) with
  | Some s => values s
  | None => repeat NaN (len dat)
  end.

Definition float_or_absent (key : string) (dat : DataFrame F) : bool :=
  match find_label key (columns dat) with
  | Some s => dtype_eqb (dtype_of s) float64
  | None => true
  end.

Definition option_string_eqb (a b : option string) : bool :=
  match a, b with
  | Some x, Some y => String.eqb x y
  | None, None => true
  | _, _ => false
  end.

(** [pd.concat(frames)]: the rows of the tables one after the other, each
    with its own index values; a column a table lacks is filled with
    missing values. *)
Definition concat (frames : list (DataFrame F)) : result (DataFrame F) :=
  match frames with
  | [] => Raise ValueError
  | first :: _ =>
      Ok (mkFrame
            (if forallb (fun d => option_string_eqb (index_name d)
                                    (index_name first)) frames
             then index_name first else None)
            (flat_map index frames)
            (map (fun key =>
                    (key,
                     mkSeries
                       (if forallb (float_or_absent key) frames
                        then float64 else object)
                       (flat_map (column_or_nan key) frames)))
               (Py.distinct [] (flat_map labels frames))))
  end.

(** A line without its line feed. *)
Fixpoint chomp (l : string) : string :=
  match l with
  | EmptyString => EmptyString
  | String c l' =>
      match l' with
      | EmptyString => if Ascii.eqb c Py.NL then EmptyString else l
      | _ => String c (chomp l')
      end
  end.

(** A line that [skip_blank_lines] drops: nothing but spaces. *)
Fixpoint blank (l : string) : bool :=
  match l with
  | EmptyString => true
  | String c l' => Ascii.eqb c " "%char && blank l'
  end.

(** The callable [skiprows] is asked about every line number of the
    file, counted from 0; a true answer skips the line. *)
Fixpoint keep_rows (skip : Z -> result value) (rows : list (Z * string))
  : result (list (Z * string)) :=
  match rows with
  | [] => Ok []
  | (n, l) :: rows' =>
      v <- skip n ;;
      kept <- keep_rows skip rows' ;;
      Ok (if Py.truthy v then kept else (n, l) :: kept)
  end.

(** The rows [read_csv] parses: the lines that are neither skipped nor
    blank.  [header=h] makes row [h] of them the row of column names and
    what follows it the data; without a header every row is data. *)
Definition select_rows (kw : read_csv_kwargs) (lines : list string)
  : result (option string * list (Z * string)) :=
  kept <- keep_rows (skiprows kw) (Py.enumerate lines) ;;
  let parsed := filter (fun r => negb (blank (snd r))) kept in
  match header kw with
  | None => Ok (None, parsed)
  | Some h =>
      if h <? 0 then Raise ValueError
      else match nth_error parsed (Z.to_nat h) with
           | Some r => Ok (Some (snd r), skipn (S (Z.to_nat h)) parsed)
           | None => Raise ValueError
           end
  end.

(** The check [read_csv] makes on [names] before it opens the file:
    [len(names) != len(set(names))] raises [ValueError]. *)
Definition validate_names (names : option (list string)) : result unit :=
  match names with
  | Some ns =>
      if Nat.eqb (List.length ns) (List.length (Py.distinct [] ns))
      then Ok tt else Raise ValueError
  | None => Ok tt
  end.

(** [pd.read_csv(filepath, sep='\t', index_col=0, ...)]: the names are
    checked, then the file is opened.  Splitting the selected rows into
    cells and typing the columns is left to [parse_records], which
    receives the header row, [names], [usecols] and the data rows. *)
Definition read_csv
  (parse_records : option string -> option (list string) -> option (list Z)
                   -> list string -> result (DataFrame F))
  (fs : node) (filepath : Path) (kw : read_csv_kwargs) : result (DataFrame F) :=
  checked <- validate_names (names kw) ;;
  content <- open_read fs filepath ;;
  sel <- select_rows kw (map chomp (Py.readlines content)) ;;
  parse_records (fst sel) (names kw) (usecols kw) (map snd (snd sel)).

End Frames.
End pd.

(** ** A small instance for the examples

    Floats restricted to integer literals, and a tokenizer that splits
    rows at tabs, takes the first column as the index and types a column
    [float64] when all its cells are literals. *)

Module Sample.

Fixpoint digits (s : string) (acc : Z) : option Z :=
  match s with
  | EmptyString => Some acc
  | String c s' =>
      let n := nat_of_ascii c in
      if ((48 <=? n) && (n <=? 57))%nat
      then digits s' (10 * acc + Z.of_nat (n - 48))
      else None
  end.

Definition unsigned (s : string) : option Z :=
  match s with
  | EmptyString => None
  | _ => digits s 0
  end.

Definition float_of_string (s : string) : option Z :=
  match s with
  | String "-"%char s' => option_map Z.opp (unsigned s')
  | String "+"%char s' => unsigned s'
  | _ => unsigned s
  end.

Definition typed (cells : list (option string)) : Series Z :=
  let parsed :=
    map (fun c => match c with
                  | Some s => float_of_string s
                  | None => None
                  end) cells in
  if forallb (fun x => match x with Some _ => true | None => false end) parsed
  then mkSeries float64
         (map (fun x => match x with Some n => Num n | None => NaN end) parsed)
  else mkSeries object
         (map (fun c => match c with Some s => Str s | None => NaN end) cells).

Definition wanted (usecols : option (list Z)) (j : nat) : bool :=
  match usecols with
  | None => true
  | Some cols => existsb (Z.eqb (Z.of_nat j)) cols
  end.

Definition parse_records (header_row : option string)
  (names : option (list string)) (usecols : option (list Z))
  (rows : list string) : result (DataFrame Z) :=
  let heads :=
    match names, header_row with
    | Some ns, _ => ns
    | None, Some h => Py.split h Py.TAB
    | None, None => []
    end in
  let records := map (fun r => Py.split r Py.TAB) rows in
  match heads with
  | [] => Raise ValueError
  | first :: rest =>
      Ok (mkFrame (Some first)
            (values (typed (map (fun r => nth_error r O) records)))
            (flat_map
               (fun jn =>
                  if wanted usecols (S (fst jn))
                  then [(snd jn,
                         typed (map (fun r => nth_error r (S (fst jn))) records))]
                  else [])
               (combine (seq 0 (List.length rest)) rest)))
  end.

(** A line of text ended by a line feed, and cells joined by tabs. *)
Definition line (cells : list string) : string :=
  String.concat (String Py.TAB EmptyString) cells ++ String Py.NL EmptyString.

End Sample.

(** ** A case directory for the examples *)

Module Examples.

Import Sample.

(** [forces.dat] of the run that starts at time 0: three comment lines,
    the last with the column names, and a vector column. *)
Definition forces_comments : list string :=
  [line ["# Forces"]; line ["# CofR : (0 0 0)"]; line ["# Time"; "Cd"; "F"]].
Definition forces_first : string := line ["0"; "5"; "(1 2 3)"].
Definition forces_rest : list string :=
  [line ["1"; "6"; "(4 5 6)"]; line ["2"; "7"; "(7 8 9)"];
   line ["3"; "8"; "(10 11 12)"]].
Definition forces_0 : string :=
  String.concat "" (forces_comments ++ forces_first :: forces_rest).

(** [forces.dat] of the run restarted at time 100. *)
Definition forces_100 : string :=
  String.concat ""
    [line ["# Forces"]; line ["# CofR : (0 0 0)"]; line ["# Time"; "Cd"; "F"];
     line ["100"; "9"; "(13 14 15)"]; line ["101"; "10"; "(16 17 18)"]].

(** A probe file with two comment lines and four data rows. *)
Definition p_comments : list string :=
  [line ["# Probe 0 (0 0 0)"]; line ["# Time"; "p"]].
Definition p_first : string := line ["1"; "10"].
Definition p_rest : list string :=
  [line ["2"; "20"]; line ["3"; "30"]; line ["4"; "40"]].
Definition p_dat : string :=
  String.concat "" (p_comments ++ p_first :: p_rest).

Definition data_first : string :=
  String.concat "" [line ["0"; "5"]; line ["1"; "6"]].
Definition only_comments : string :=
  String.concat "" [line ["# Forces"]; line ["# Time"; "Cd"]].

Definition forces_dir : Path := ["postProcessing"; "forces"].

Definition case : node :=
  Dir [("postProcessing",
        Dir [("forces",
              Dir [("100", Dir [("forces.dat", File forces_100)]);
                   ("0", Dir [("forces.dat", File forces_0)])]);
             ("probes", Dir [("0", Dir [("p.dat", File p_dat)])]);
             ("mixed",
              Dir [("forces.dat", File forces_0); ("p.dat", File p_dat)]);
             ("empty", Dir [("log", File "done")])]);
       ("U.xy", File (line ["0"; "1"; "2"; "3"]));
       ("a_b_c.xy", File (line ["0"; "1"]));
       ("data_first.dat", File data_first);
       ("only_comments.dat", File only_comments);
       ("empty.dat", File "")].

(** A table with a numeric column and two vector columns, [F] of three
    components and [M] of two; and cells of two widths. *)
Definition numeric (xs : list Z) : Series Z := mkSeries float64 (map Num xs).

Definition even_cells : list (cell Z) := [Str "(1 2 3)"; Str "(4 5 6)"].
Definition uneven_cells : list (cell Z) := [Str "(1 2 3)"; Str "(4 5)"].
Definition moment_cells : list (cell Z) := [Str "(7 8)"; Str "(9 10)"].

Definition with_vectors (cells : list (cell Z)) : DataFrame Z :=
  mkFrame (Some "Time") [Num 0; Num 1]
    ([("Cd", numeric [5; 6])]
       ++ ("F", mkSeries object cells)
       :: [("M", mkSeries object moment_cells)]).

End Examples.

(** ** The loaders of [helpers.py] *)

Section Loaders.

Context {F : Type}.

(** [float(token)]: the float a token denotes, when it denotes one. *)
Variable float_of_string : string -> option F.

(** Which NumPy is installed: see [np.array]. *)
Variable ragged_as_objects : bool.

(** The tokenizer of [pandas.read_csv]: see [pd.read_csv]. *)
Variable parse_records :
  option string -> option (list string) -> option (list Z) -> list string
  -> result (DataFrame F).

(** *** [load_dat] *)

(** The loop of [get_header_size]: the index of the first line that does
    not start with [comment], minus one; falling off the end of the file
    returns [None]. *)
Fixpoint get_header_size_loop (comment : string) (rows : list (Z * string))
  : option Z :=
  match rows with
  | [] => None
  | (index, line) :: rows' =>
      if negb (Py.startswith line comment) then Some (index - 1)
      else get_header_size_loop comment rows'
  end.

Definition get_header_size (fs : node) (filepath : Path) (comment : string)
  : result (option Z) :=
  f <- open_read fs filepath ;;
  Ok (get_header_size_loop comment (Py.enumerate (Py.readlines f))).

(** [fn]: the floats of one cell, parentheses removed. *)
Definition fn (c : cell F) : result (list F) :=
  match c with
  | Str s =>
      np.array_of_tokens float_of_string
        (Py.split_ws (Py.remove_char (Py.remove_char s "("%char) ")"%char))
  | _ => Raise AttributeError
  end.

(** [re.match(rf'.*?{REGEX_FLOAT}', x)]: [x] has to be text. *)
Definition looks_numeric (x : cell F) : result bool :=
  match x with
  | Str s => Ok (re.match_ (re.Cat (re.Star re.dot) REGEX_FLOAT) s)
  | _ => Raise TypeError
  end.

(** The label [f'{key}.{component}'] of a component. *)
Definition component_label (key : string) (j : nat) : string :=
  (key ++ "." ++ Py.str_of_nat j)%string.

(** The inner loop of [unnest_columns]: one [insert] per component. *)
Definition insert_component (key : string) (pos : nat) (field : np.ndarray)
  (dat : DataFrame F) (component : nat) : result (DataFrame F) :=
  value <- np.column field component ;;
  pd.insert dat (pos + component) (component_label key component) value.

(** The body of the outer loop of [unnest_columns], on the table and the
    list [nested_columns]. *)
Definition unnest_column (st : DataFrame F * list string) (kd : string * dtype)
  : result (DataFrame F * list string) :=
  let '(dat, nested_columns) := st in
  let '(key, column_dtype) := kd in
  if dtype_eqb column_dtype object then
    s <- pd.getitem dat key ;;
    x <- pd.iloc_last s ;;
    m <- looks_numeric x ;;
    if (m : bool) then
      arrays <- mapM fn (values s) ;;
      let dat := pd.setitem dat key (mkSeries object (map Arr arrays)) in
      i <- pd.index_of key (pd.labels dat) ;;
      let pos := S i in
      field <- np.array ragged_as_objects arrays ;;
      dat <- foldM (insert_component key pos field)
               (seq 0 (np.shape_last field)) dat ;;
      Ok (dat, (nested_columns ++ [key])%list)
    else Ok st
  else Ok st.

(** [unnest_columns]: the loop runs over the labels and dtypes the table
    had on entry. *)
Definition unnest_columns (dat : DataFrame F) : result (DataFrame F) :=
  st <- foldM unnest_column (combine (pd.labels dat) (pd.dtypes dat)) (dat, []) ;;
  pd.drop (fst st) (snd st).

(** The [skiprows] lambda of [load]:
    [n > header_pos and n % use_nth if not use_nth is None and use_nth >= 2
    else None]. *)
Definition load_skiprows (header_pos : option Z) (use_nth : option Z) (n : Z)
  : result value :=
  match use_nth with
  | Some nth =>
      if 2 <=? nth then
        match header_pos with
        | None => Raise TypeError
        | Some h =>
            if n >? h then r <- Py.mod_ n nth ;; Ok (PyInt r)
            else Ok (PyBool false)
        end
      else Ok PyNone
  | None => Ok PyNone
  end.

(** [usecols if usecols is None else ([0] + usecols)] *)
Definition with_index_col (usecols : option (list Z)) : option (list Z) :=
  match usecols with
  | None => None
  | Some cols => Some (0 :: cols)
  end.

Definition load_kwargs (header_pos : option Z) (usecols : option (list Z))
  (use_nth : option Z) : read_csv_kwargs :=
  mkKwargs header_pos (with_index_col usecols) None
    (load_skiprows header_pos use_nth).

(** Dropping ['#'] and white space from the column names. *)
Definition clean_names (dat : DataFrame F) : result (DataFrame F) :=
  match index_name dat with
  | Some name =>
      Ok (mkFrame (Some (Py.strip (Py.remove_char name "#"%char)))
            (index dat)
            (map (fun c => (Py.strip (fst c), snd c)) (columns dat)))
  | None => Raise AttributeError
  end.

Definition load (fs : node) (usecols : option (list Z)) (use_nth : option Z)
  (filepath : Path) : result (DataFrame F) :=
  header_pos <- get_header_size fs filepath "#" ;;
  dat <- pd.read_csv parse_records fs filepath
           (load_kwargs header_pos usecols use_nth) ;;
  dat <- clean_names dat ;;
  unnest_columns dat.

(** [len({fp.name for fp in filepaths})] *)
Definition count_names (filepaths : list Path) : nat :=
  List.length (Py.distinct [] (map pathlib.name filepaths)).

Definition load_dat (fs : node) (filepath : Path) (usecols : option (list Z))
  (use_nth : option Z) : result (DataFrame F) :=
  if pathlib.is_dir fs filepath then
    let filepaths := pathlib.rglob fs filepath ".dat" in
    if negb (Nat.eqb (count_names filepaths) 1) then Raise ValueError
    else
      frames <- mapM (load fs usecols use_nth) (sorted filepaths) ;;
      pd.concat frames
  else load fs usecols use_nth filepath.

(** *** [load_xy] *)

Definition field_components (field_name : string) (components_count : number)
  : result (list string) :=
  if Py.le components_count 1 then Ok [field_name]
  else
    components <-
      (if Py.eq components_count 3 then Ok ["x"; "y"; "z"]
       else if Py.eq components_count 6
            then Ok ["xx"; "xy"; "xz"; "yy"; "yz"; "zz"]
            else r <- Py.range components_count ;; Ok (map Py.str_of_nat r)) ;;
    Ok (map (fun component => field_name ++ "." ++ component) components).

Definition len_from (i : nat) (field_names : list string) : Z :=
  Z.of_nat (List.length (Py.slice_from i field_names)).

(** The position of the first column with a field value. *)
Definition first_value_column (field_names : list string) (columns_count : Z)
  : result Z :=
  r1 <- Py.mod_ (columns_count - 1) (len_from 1 field_names) ;;
  if r1 =? 0 then Ok 1
  else if columns_count >? 3 then
    r3 <- Py.mod_ (columns_count - 3) (len_from 3 field_names) ;;
    if r3 =? 0 then Ok 3 else Ok 0
  else Ok 0.

(** The names built by appending components, for a given [pos]. *)
Definition construct_names (field_names : list string) (columns_count pos : Z)
  : result (list string) :=
  components_count <-
    Py.truediv (columns_count - pos) (len_from (Z.to_nat pos) field_names) ;;
  first <- match field_names with
           | [] => Raise IndexError
           | name :: _ => Ok name
           end ;;
  names <- field_components first (Int pos) ;;
  foldM (fun names field_name =>
           more <- field_components field_name components_count ;;
           Ok (names ++ more)%list)
    (Py.slice_from (Z.to_nat pos) field_names) names.

Definition infer_names (field_names : list string) (columns_count : Z)
  : result (list string) :=
  pos <- first_value_column field_names columns_count ;;
  construct_names field_names columns_count pos.

(** The [skiprows] lambda of [load_xy]. *)
Definition load_xy_skiprows (use_nth : option Z) (n : Z) : result value :=
  match use_nth with
  | Some nth =>
      if 2 <=? nth then r <- Py.mod_ n nth ;; Ok (PyInt r) else Ok PyNone
  | None => Ok PyNone
  end.

Definition load_xy (fs : node) (filepath : Path) (usecols : option (list Z))
  (use_nth : option Z) : result (DataFrame F) :=
  let field_names := Py.split (pathlib.stem filepath) "_"%char in
  let columns_count := count_columns fs filepath (String Py.TAB EmptyString) 1 in
  names <- infer_names field_names columns_count ;;
  pd.read_csv parse_records fs filepath
    (mkKwargs None (with_index_col usecols) (Some names)
       (load_xy_skiprows use_nth)).

(** *** Notions used to state the properties *)

Local Open Scope list_scope.

(** Component [j] of every row, and re-zipping columns by row position:
    row [i] collects entry [i] of every column. *)
Definition component (j : nat) (rows : list (list F)) : list F :=
  flat_map (fun r => match nth_error r j with
                     | Some x => [x]
                     | None => []
                     end) rows.

Definition zip_rows (n : nat) (cols : list (list F)) : list (list F) :=
  map (fun i => component i cols) (seq 0 n).

(** The columns an expansion of [key] adds for rows of width [w]. *)
Definition expansion (key : string) (w : nat) (rows : list (list F))
  : list (string * Series F) :=
  map (fun j => (component_label key j,
                 mkSeries float64 (map Num (component j rows))))
    (seq 0 w).

(** The number of line feeds in a line. *)
Definition line_feeds (l : string) : nat :=
  Py.count_from (String Py.NL EmptyString) O l.

(** What iterating over a file yields: every line but the last ends in
    its only line feed; the last may have none. *)
Fixpoint lines_ok (ls : list string) : Prop :=
  match ls with
  | [] => True
  | l :: ls' =>
      match ls' with
      | [] => (line_feeds l = 1%nat /\ Py.endswith_char l Py.NL = true)
              \/ (line_feeds l = 0%nat /\ Py.endswith_char l Py.NL = false)
      | _ => line_feeds l = 1%nat /\ lines_ok ls'
      end
  end.

(** Whether the [skiprows] lambda of [load] makes the parser skip line
    [n]. *)
Definition skips (h : Z) (use_nth : option Z) (n : Z) : bool :=
  match use_nth with
  | Some nth => (2 <=? nth) && (n >? h) && negb (n mod nth =? 0)
  | None => false
  end.

(** Whether the parser keeps a numbered line as a row: neither skipped
    nor blank. *)
Definition retained (h : Z) (use_nth : option Z) (r : Z * string) : bool :=
  negb (skips h use_nth (fst r)) && negb (pd.blank (snd r)).

(** The rule of the specification for decimation: a data row is kept
    when its offset from the header row is a multiple of [use_nth]. *)
Definition kept_by_offset (header_pos nth : Z) (r : Z * string) : bool :=
  ((fst r - header_pos) mod nth =? 0) && negb (pd.blank (snd r)).

(** The rule of [load]: a data row is kept when its line number in the
    file is a multiple of [use_nth]. *)
Definition kept_by_line_number (nth : Z) (r : Z * string) : bool :=
  (fst r mod nth =? 0) && negb (pd.blank (snd r)).

(** Ascending order: no path is followed by a smaller one. *)
Definition path_le (p q : Path) : Prop := pathlib.path_ltb q p = false.

(** The number of components a cell shows. *)
Definition tuple_width (c : cell F) : nat :=
  match c with
  | Str s =>
      List.length
        (Py.split_ws (Py.remove_char (Py.remove_char s "("%char) ")"%char))
  | Arr xs => List.length xs
  | _ => O
  end.

(** What [unnest_columns] makes of one column: [Some (w, rows)] for a
    text column whose last cell looks numeric, with its parsed cells and
    their common width [w]; [None] for a column it leaves alone. *)
Definition classify (s : Series F) : result (option (nat * list (list F))) :=
  if dtype_eqb (dtype_of s) object then
    x <- pd.iloc_last s ;;
    m <- looks_numeric x ;;
    if (m : bool) then
      rows <- mapM fn (values s) ;;
      field <- np.array ragged_as_objects rows ;;
      match field with
      | np.Array2 w _ => Ok (Some (w, rows))
      | np.Array1 _ => Raise IndexError
      end
    else Ok None
  else Ok None.

(** The columns that take the place of a column in the result. *)
Definition expanded (c : string * Series F) : list (string * Series F) :=
  match classify (snd c) with
  | Ok (Some (w, rows)) => expansion (fst c) w rows
  | _ => [c]
  end.

(** The same while the loop runs: the original column, now holding
    arrays, stays in front of its components until the final [drop]. *)
Definition with_original (c : string * Series F) : list (string * Series F) :=
  match classify (snd c) with
  | Ok (Some (w, rows)) =>
      (fst c, mkSeries object (map Arr rows)) :: expansion (fst c) w rows
  | _ => [c]
  end.

(** What the loop appends to [nested_columns] for a column. *)
Definition nested_key (c : string * Series F) : list string :=
  match classify (snd c) with
  | Ok (Some _) => [fst c]
  | _ => []
  end.

(** The error of an array built from rows of unequal length. *)
Definition ragged_error : exn :=
  if ragged_as_objects then IndexError else ValueError.

(** A field name with each of the given components appended. *)
Definition suffixed (components : list string) (field_name : string)
  : list string :=
  map (fun component => (field_name ++ "." ++ component)%string) components.

(** Whether a character occurs in a text, and whether a text starts or
    ends with white space. *)
Fixpoint has_char (c : ascii) (s : string) : bool :=
  match s with
  | EmptyString => false
  | String a s' => Ascii.eqb a c || has_char c s'
  end.

Definition starts_with_space (s : string) : bool :=
  match s with
  | EmptyString => false
  | String c _ => Py.isspace c
  end.

Fixpoint ends_with_space (s : string) : bool :=
  match s with
  | EmptyString => false
  | String c EmptyString => Py.isspace c
  | String _ s' => ends_with_space s'
  end.

(** The texts a pattern denotes, to reason on [re.match_]. *)
Inductive lang : re.regex -> string -> Prop :=
| lang_eps : lang re.Eps EmptyString
| lang_chr (p : ascii -> bool) (c : ascii) :
    p c = true -> lang (re.Chr p) (String c EmptyString)
| lang_cat (r1 r2 : re.regex) (s1 s2 : string) :
    lang r1 s1 -> lang r2 s2 -> lang (re.Cat r1 r2) (s1 ++ s2)%string
| lang_alt_l (r1 r2 : re.regex) (s : string) :
    lang r1 s -> lang (re.Alt r1 r2) s
| lang_alt_r (r1 r2 : re.regex) (s : string) :
    lang r2 s -> lang (re.Alt r1 r2) s
| lang_star_nil (r : re.regex) : lang (re.Star r) EmptyString
| lang_star_app (r : re.regex) (s1 s2 : string) :
    lang r s1 -> lang (re.Star r) s2 -> lang (re.Star r) (s1 ++ s2)%string.

Definition is_digit (c : ascii) : bool :=
  ((48 <=? nat_of_ascii c) && (nat_of_ascii c <=? 57))%nat.

(** Whether a decimal digit stands before the first line feed of a text. *)
Fixpoint digit_on_first_line (s : string) : bool :=
  match s with
  | EmptyString => false
  | String c s' =>
      if Ascii.eqb c Py.NL then false
      else is_digit c || digit_on_first_line s'
  end.

(** The tokens of a tuple cell: its text without the parentheses, split
    at white space. *)
Definition tuple_tokens (s : string) : list string :=
  Py.split_ws (Py.remove_char (Py.remove_char s "("%char) ")"%char).

(** A text reads as the floats [r] when it has as many tokens as [r] has
    floats and token [j] denotes float [j]. *)
Definition reads_as (s : string) (r : list F) : Prop :=
  map float_of_string (tuple_tokens s) = map Some r.

(** * Properties *)

(** ** Generic facts about the error monad *)

Lemma foldM_app {A S : Type} (f : S -> A -> result S) (xs ys : list A) (s : S) :
  foldM f (xs ++ ys) s = (s' <- foldM f xs s ;; foldM f ys s').
Proof.
  revert s. induction xs as [|x xs IH]; intros s; simpl; [reflexivity|].
  destruct (f s x); simpl; auto.
Qed.

Lemma foldM_id {A S : Type} (f : S -> A -> result S) (xs : list A) (s : S) :
  (forall x s0, In x xs -> f s0 x = Ok s0) -> foldM f xs s = Ok s.
Proof.
  induction xs as [|x xs IH]; intros H; simpl; [reflexivity|].
  rewrite H by (left; reflexivity). simpl. apply IH.
  intros y s0 Hy. apply H. right; exact Hy.
Qed.

Lemma mapM_length {A B : Type} (f : A -> result B) (xs : list A) (ys : list B) :
  mapM f xs = Ok ys -> List.length ys = List.length xs.
Proof.
  revert ys. induction xs as [|x xs IH]; intros ys; simpl.
  - intros H; inversion H; reflexivity.
  - destruct (f x); simpl; [|discriminate].
    destruct (mapM f xs); simpl; [|discriminate].
    intros H; inversion H; subst. simpl. f_equal. apply IH. reflexivity.
Qed.

Lemma mapM_ok {A B : Type} (f : A -> result B) (g : A -> B) (xs : list A) :
  (forall x, In x xs -> f x = Ok (g x)) -> mapM f xs = Ok (map g xs).
Proof.
  induction xs as [|x xs IH]; intros H; simpl; [reflexivity|].
  rewrite H by (left; reflexivity). simpl.
  rewrite IH by (intros y Hy; apply H; right; exact Hy). reflexivity.
Qed.

(** ** Lines and [count_columns] *)

Lemma line_feeds_cons (c : ascii) (l : string) :
  line_feeds (String c l) =
  if Ascii.eqb c Py.NL then S (line_feeds l) else line_feeds l.
Proof.
  unfold line_feeds. cbn -[ascii_dec].
  destruct (Ascii.eqb_spec c Py.NL) as [->|Hne].
  - destruct (ascii_dec Py.NL Py.NL) as [_|n]; [|contradiction].
    destruct l; reflexivity.
  - destruct (ascii_dec Py.NL c) as [e|_]; [congruence|reflexivity].
Qed.

Lemma line_feeds_app (l m : string) :
  line_feeds (l ++ m)%string = (line_feeds l + line_feeds m)%nat.
Proof.
  induction l as [|c l IH]; [reflexivity|].
  change (String c l ++ m)%string with (String c (l ++ m)%string).
  rewrite !line_feeds_cons, IH. destruct (Ascii.eqb c Py.NL); reflexivity.
Qed.

Lemma endswith_char_cons (c : ascii) (l : string) :
  Ascii.eqb c Py.NL = false ->
  Py.endswith_char (String c l) Py.NL = Py.endswith_char l Py.NL.
Proof.
  intros Hc. simpl. destruct l; [exact Hc|reflexivity].
Qed.

Lemma readlines_ok (s : string) : lines_ok (Py.readlines s).
Proof.
  induction s as [|c s IH]; simpl; [exact I|].
  destruct (Ascii.eqb c Py.NL) eqn:Hc.
  - apply Ascii.eqb_eq in Hc. subst c.
    destruct (Py.readlines s) as [|l ls] eqn:E.
    + simpl. left. split; reflexivity.
    + split; [reflexivity|exact IH].
  - destruct (Py.readlines s) as [|l ls] eqn:E.
    + simpl. right. split.
      * rewrite line_feeds_cons, Hc. reflexivity.
      * exact Hc.
    + destruct ls as [|l' ls']; cbn [lines_ok] in IH |- *.
      * rewrite line_feeds_cons, Hc, (endswith_char_cons c l Hc). exact IH.
      * rewrite line_feeds_cons, Hc. exact IH.
Qed.

Lemma complete_last_one_feed (ls : list string) :
  lines_ok ls -> Forall (fun l => line_feeds l = 1%nat) (linecache.complete_last ls).
Proof.
  induction ls as [|l ls IH]; intros H; simpl; [constructor|].
  destruct ls as [|l' ls'].
  - constructor; [|constructor].
    simpl in H. destruct H as [[H He]|[H0 He]]; rewrite He.
    + exact H.
    + rewrite line_feeds_app, H0. reflexivity.
  - simpl in H. destruct H as [H1 H2]. constructor; [exact H1|].
    apply IH. exact H2.
Qed.

Lemma getlines_one_feed (fs : node) (p : Path) :
  Forall (fun l => line_feeds l = 1%nat) (linecache.getlines fs p).
Proof.
  unfold linecache.getlines. destruct (open_read fs p); [|constructor].
  apply complete_last_one_feed, readlines_ok.
Qed.

(** C8. For every file and every line that [line_no] selects (lines are
    numbered from 1), [count_columns] returns the number of occurrences
    of the separator in that line plus one. *)
Theorem count_columns_separators_plus_one
  (fs : node) (filepath : Path) (sep : string) (line_no : Z) :
  1 <= line_no <= Z.of_nat (List.length (linecache.getlines fs filepath)) ->
  count_columns fs filepath sep line_no
  = Py.count (linecache.getline fs filepath line_no) sep + 1.
Proof.
  intros [Hlo Hhi]. unfold count_columns. f_equal.
  unfold linecache.getline.
  destruct (Z.leb_spec 1 line_no); [|lia].
  destruct (Z.leb_spec line_no
              (Z.of_nat (List.length (linecache.getlines fs filepath)))); [|lia].
  cbn [andb].
  pose proof (getlines_one_feed fs filepath) as Hall.
  rewrite Forall_forall in Hall.
  unfold Py.count. fold (line_feeds
    (nth (Z.to_nat (line_no - 1)) (linecache.getlines fs filepath) "")).
  rewrite Hall; [reflexivity|]. apply nth_In. lia.
Qed.

(** ** The header scan and the rows [load] reads *)

Lemma enumerate_from_app {A : Type} (i : Z) (xs ys : list A) :
  Py.enumerate_from i (xs ++ ys)
  = Py.enumerate_from i xs ++ Py.enumerate_from (i + Z.of_nat (List.length xs)) ys.
Proof.
  revert i. induction xs as [|x xs IH]; intros i; simpl.
  - f_equal. lia.
  - f_equal. rewrite IH. do 2 f_equal. lia.
Qed.

Lemma enumerate_from_length {A : Type} (i : Z) (xs : list A) :
  List.length (Py.enumerate_from i xs) = List.length xs.
Proof.
  revert i. induction xs as [|x xs IH]; intros i; simpl; [reflexivity|].
  f_equal. apply IH.
Qed.

Lemma enumerate_from_bounds {A : Type} (i : Z) (xs : list A) (r : Z * A) :
  In r (Py.enumerate_from i xs) ->
  i <= fst r < i + Z.of_nat (List.length xs) /\ In (snd r) xs.
Proof.
  revert i. induction xs as [|x xs IH]; intros i; simpl; [tauto|].
  intros [<-|H]; simpl.
  - split; [lia|left; reflexivity].
  - apply IH in H. split; [lia|right; tauto].
Qed.

Lemma enumerate_from_map {A B : Type} (g : A -> B) (i : Z) (xs : list A) :
  Py.enumerate_from i (map g xs)
  = map (fun r => (fst r, g (snd r))) (Py.enumerate_from i xs).
Proof.
  revert i. induction xs as [|x xs IH]; intros i; simpl; [reflexivity|].
  f_equal. apply IH.
Qed.

Lemma scan_comments (i : Z) (comments : list string) (rows : list (Z * string)) :
  Forall (fun l => Py.startswith l "#" = true) comments ->
  get_header_size_loop "#" (Py.enumerate_from i comments ++ rows)
  = get_header_size_loop "#" rows.
Proof.
  intros H. revert i. induction H as [|l ls Hl _ IH]; intros i; simpl.
  - reflexivity.
  - rewrite Hl. simpl. apply IH.
Qed.

Lemma startswith_hash_not_blank (l : string) :
  Py.startswith l "#" = true -> pd.blank (pd.chomp l) = false.
Proof.
  unfold Py.startswith. destruct l as [|c l]; cbn -[ascii_dec]; [discriminate|].
  destruct (ascii_dec "#" c) as [<-|]; [|discriminate].
  intros _. destruct l; reflexivity.
Qed.

Lemma keep_rows_load (h : Z) (use_nth : option Z) (rows : list (Z * string)) :
  pd.keep_rows (load_skiprows (Some h) use_nth) rows
  = Ok (filter (fun r => negb (skips h use_nth (fst r))) rows).
Proof.
  induction rows as [|[n l] rows IH]; simpl; [reflexivity|].
  rewrite IH. unfold load_skiprows, skips.
  destruct use_nth as [nth|]; simpl; [|reflexivity].
  destruct (Z.leb_spec 2 nth); simpl; [|reflexivity].
  destruct (n >? h); simpl; [|reflexivity].
  unfold Py.mod_. destruct (Z.eqb_spec nth 0); [lia|]. simpl.
  destruct (n mod nth =? 0); reflexivity.
Qed.

Lemma filter_all {A : Type} (f : A -> bool) (xs : list A) :
  (forall x, In x xs -> f x = true) -> filter f xs = xs.
Proof.
  induction xs as [|x xs IH]; intros H; simpl; [reflexivity|].
  rewrite H by (left; reflexivity). f_equal. apply IH.
  intros y Hy. apply H. right. exact Hy.
Qed.

Lemma filter_filter {A : Type} (f g : A -> bool) (xs : list A) :
  filter f (filter g xs) = filter (fun x => g x && f x) xs.
Proof.
  induction xs as [|x xs IH]; simpl; [reflexivity|].
  destruct (g x); simpl; [destruct (f x)|]; rewrite IH; reflexivity.
Qed.

Lemma nth_error_last_of_app {A : Type} (xs ys : list A) (d : A) :
  xs <> [] ->
  nth_error (xs ++ ys) (List.length xs - 1) = Some (last xs d).
Proof.
  intros Hne. destruct (exists_last Hne) as [xs' [x ->]].
  rewrite last_last, length_app. simpl.
  replace (List.length xs' + 1 - 1)%nat with (List.length xs') by lia.
  rewrite <- app_assoc. simpl.
  rewrite nth_error_app2 by lia. rewrite Nat.sub_diag. reflexivity.
Qed.

Lemma select_rows_load (comments body : list string) (use_nth : option Z)
  (cols : option (list Z)) :
  comments <> [] ->
  Forall (fun l => Py.startswith l "#" = true) comments ->
  let h := Z.of_nat (List.length comments) - 1 in
  pd.select_rows (load_kwargs (Some h) cols use_nth)
    (map pd.chomp (comments ++ body))
  = Ok (Some (pd.chomp (last comments "")),
        filter (retained h use_nth)
          (Py.enumerate_from (Z.of_nat (List.length comments))
             (map pd.chomp body))).
Proof.
  intros Hne Hall h. unfold pd.select_rows, load_kwargs. cbn [skiprows header].
  rewrite keep_rows_load. cbn [Py.bind]. rewrite filter_filter.
  fold (retained h use_nth).
  destruct (Z.ltb_spec h 0) as [Hneg|Hpos].
  { destruct comments; [contradiction|]. subst h.
    cbn [List.length] in Hneg. lia. }
  unfold Py.enumerate. rewrite map_app, enumerate_from_app, filter_app.
  rewrite length_map. cbn [Z.add].
  rewrite (filter_all _ (Py.enumerate_from 0 (map pd.chomp comments))).
  2:{ intros r Hr. apply enumerate_from_bounds in Hr.
      rewrite length_map in Hr. destruct Hr as [Hb Hin].
      unfold retained, skips. apply andb_true_iff. split.
      - destruct use_nth as [nth|]; [|reflexivity].
        destruct (Z.gtb_spec (fst r) h); [subst h; lia|].
        rewrite andb_false_r. reflexivity.
      - apply in_map_iff in Hin. destruct Hin as [l [<- Hl]].
        rewrite Forall_forall in Hall.
        rewrite startswith_hash_not_blank by (apply Hall; exact Hl).
        reflexivity. }
  rewrite enumerate_from_map.
  assert (Hlen : List.length
            (map (fun r : Z * string => (fst r, pd.chomp (snd r)))
               (Py.enumerate_from 0 comments)) = S (Z.to_nat h)).
  { rewrite length_map, enumerate_from_length. subst h. lia. }
  replace (Z.to_nat h)
    with (List.length (map (fun r : Z * string => (fst r, pd.chomp (snd r)))
                         (Py.enumerate_from 0 comments)) - 1)%nat at 1 by lia.
  erewrite nth_error_last_of_app.
  2:{ intros E. rewrite E in Hlen. discriminate. }
  rewrite <- Hlen, skipn_app, skipn_all, Nat.sub_diag. cbn [skipn app].
  do 2 f_equal.
  instantiate (1 := (0, EmptyString)).
  destruct (exists_last Hne) as [cs [c ->]].
  rewrite enumerate_from_app, map_app. simpl.
  rewrite !last_last. reflexivity.
Qed.

Lemma get_header_size_first_data (fs : node) (filepath : Path) (content : string)
  (comments : list string) (line : string) (rest : list string) :
  open_read fs filepath = Ok content ->
  Py.readlines content = comments ++ line :: rest ->
  Forall (fun l => Py.startswith l "#" = true) comments ->
  Py.startswith line "#" = false ->
  get_header_size fs filepath "#"
  = Ok (Some (Z.of_nat (List.length comments) - 1)).
Proof.
  intros Hopen Hlines Hall Hline. unfold get_header_size.
  rewrite Hopen. cbn [Py.bind]. rewrite Hlines. unfold Py.enumerate.
  rewrite enumerate_from_app, scan_comments by exact Hall.
  simpl. rewrite Hline. reflexivity.
Qed.

(** The rows [load] hands to the tokenizer of [read_csv] for a file with
    leading comment lines. *)
Lemma load_rows (fs : node) (filepath : Path) (content : string)
  (comments : list string) (line : string) (rest : list string)
  (usecols : option (list Z)) (use_nth : option Z) :
  open_read fs filepath = Ok content ->
  Py.readlines content = comments ++ line :: rest ->
  comments <> [] ->
  Forall (fun l => Py.startswith l "#" = true) comments ->
  Py.startswith line "#" = false ->
  load fs usecols use_nth filepath
  = (dat <- parse_records (Some (pd.chomp (last comments ""))) None
              (with_index_col usecols)
              (map snd
                 (filter (retained (Z.of_nat (List.length comments) - 1) use_nth)
                    (Py.enumerate_from (Z.of_nat (List.length comments))
                       (map pd.chomp (line :: rest))))) ;;
     dat <- clean_names dat ;;
     unnest_columns dat).
Proof.
  intros Hopen Hlines Hne Hall Hline. unfold load.
  rewrite (get_header_size_first_data fs filepath content comments line rest)
    by assumption.
  cbn [Py.bind]. unfold pd.read_csv. rewrite Hopen. cbn [Py.bind].
  rewrite Hlines, select_rows_load by assumption.
  reflexivity.
Qed.

(** C7. For a [.dat] file that starts with at least one comment line
    followed by a line that is no comment, the header boundary plus one is
    the zero-based index of the first non-comment line (three comment
    lines give boundary 2), and the line at the boundary is the row of
    column names that [read_csv] is given. *)
Theorem header_boundary_is_last_comment_line
  (fs : node) (filepath : Path) (content : string)
  (comments : list string) (line : string) (rest : list string)
  (usecols : option (list Z)) (use_nth : option Z) :
  open_read fs filepath = Ok content ->
  Py.readlines content = comments ++ line :: rest ->
  comments <> [] ->
  Forall (fun l => Py.startswith l "#" = true) comments ->
  Py.startswith line "#" = false ->
  exists boundary : Z,
    get_header_size fs filepath "#" = Ok (Some boundary)
    /\ boundary + 1 = Z.of_nat (List.length comments)
    /\ nth_error (Py.readlines content) (Z.to_nat (boundary + 1)) = Some line
    /\ nth_error (Py.readlines content) (Z.to_nat boundary)
       = Some (last comments "")
    /\ exists data,
         pd.select_rows (load_kwargs (Some boundary) (with_index_col usecols) use_nth)
           (map pd.chomp (Py.readlines content))
         = Ok (Some (pd.chomp (last comments "")), data).
Proof.
  intros Hopen Hlines Hne Hall Hline.
  exists (Z.of_nat (List.length comments) - 1).
  split; [|split; [|split; [|split]]].
  - eapply get_header_size_first_data; eassumption.
  - lia.
  - rewrite Hlines.
    replace (Z.to_nat (Z.of_nat (List.length comments) - 1 + 1))
      with (List.length comments) by lia.
    rewrite nth_error_app2 by lia. rewrite Nat.sub_diag. reflexivity.
  - rewrite Hlines.
    replace (Z.to_nat (Z.of_nat (List.length comments) - 1))
      with (List.length comments - 1)%nat by lia.
    apply nth_error_last_of_app. exact Hne.
  - eexists. rewrite Hlines. unfold load_kwargs.
    pose proof (select_rows_load comments (line :: rest) use_nth
                  (with_index_col usecols) Hne Hall) as H.
    exact H.
Qed.

(** When every line is a comment, or there is no line, the loop of
    [get_header_size] ends without a [return]: the result is [None]. *)
Lemma get_header_size_all_comments
  (fs : node) (filepath : Path) (content : string) :
  open_read fs filepath = Ok content ->
  Forall (fun l => Py.startswith l "#" = true) (Py.readlines content) ->
  get_header_size fs filepath "#" = Ok None.
Proof.
  intros Hopen Hall. unfold get_header_size. rewrite Hopen. cbn [Py.bind].
  unfold Py.enumerate.
  rewrite <- (app_nil_r (Py.enumerate_from 0 (Py.readlines content))).
  rewrite scan_comments by exact Hall. reflexivity.
Qed.

(** C3, as the code has it.  When the first line of the file is no
    comment, [get_header_size] signals nothing and returns the boundary
    -1. *)
Theorem get_header_size_first_line_data
  (fs : node) (filepath : Path) (content line : string) (rest : list string) :
  open_read fs filepath = Ok content ->
  Py.readlines content = line :: rest ->
  Py.startswith line "#" = false ->
  get_header_size fs filepath "#" = Ok (Some (-1)).
Proof.
  intros Hopen Hlines Hline.
  apply (get_header_size_first_data fs filepath content [] line rest);
    auto.
Qed.

Lemma filter_ext_in_rows {A : Type} (f g : A -> bool) (xs : list A) :
  (forall x, In x xs -> f x = g x) -> filter f xs = filter g xs.
Proof.
  induction xs as [|x xs IH]; intros H; simpl; [reflexivity|].
  rewrite H by (left; reflexivity).
  rewrite IH by (intros y Hy; apply H; right; exact Hy). reflexivity.
Qed.

(** C5, as the code has it.  For [use_nth >= 2], [load] keeps exactly the
    data rows whose zero-based line number in the file is a multiple of
    [use_nth].  When the line number of the header row is itself a
    multiple of [use_nth] these are the rows of the offset rule; when it
    is not, no row is kept by both rules. *)
Theorem load_keeps_line_numbers_divisible_by_use_nth
  (fs : node) (filepath : Path) (content : string)
  (comments : list string) (line : string) (rest : list string)
  (usecols : option (list Z)) (nth : Z) :
  open_read fs filepath = Ok content ->
  Py.readlines content = comments ++ line :: rest ->
  comments <> [] ->
  Forall (fun l => Py.startswith l "#" = true) comments ->
  Py.startswith line "#" = false ->
  2 <= nth ->
  let header_pos := Z.of_nat (List.length comments) - 1 in
  let data := Py.enumerate_from (header_pos + 1) (map pd.chomp (line :: rest)) in
  load fs usecols (Some nth) filepath
  = (dat <- parse_records (Some (pd.chomp (last comments ""))) None
              (with_index_col usecols)
              (map snd (filter (kept_by_line_number nth) data)) ;;
     dat <- clean_names dat ;;
     unnest_columns dat)
  /\ (header_pos mod nth = 0 ->
      filter (kept_by_line_number nth) data
      = filter (kept_by_offset header_pos nth) data)
  /\ (header_pos mod nth <> 0 ->
      forall r, kept_by_line_number nth r = true ->
                kept_by_offset header_pos nth r = false).
Proof.
  intros Hopen Hlines Hne Hall Hline Hnth header_pos data.
  split; [|split].
  - rewrite (load_rows fs filepath content comments line rest) by assumption.
    subst data header_pos.
    replace (Z.of_nat (List.length comments) - 1 + 1)
      with (Z.of_nat (List.length comments)) by lia.
    do 3 f_equal. apply filter_ext_in_rows. intros r Hr.
    apply enumerate_from_bounds in Hr. destruct Hr as [Hb _].
    unfold retained, kept_by_line_number, skips.
    destruct (Z.leb_spec 2 nth); [|lia].
    destruct (Z.gtb_spec (fst r) (Z.of_nat (List.length comments) - 1)); [|lia].
    cbn [andb]. rewrite negb_involutive. reflexivity.
  - intros Hmod. apply filter_ext_in_rows. intros r _.
    unfold kept_by_line_number, kept_by_offset. f_equal.
    rewrite Zminus_mod, Hmod, Z.sub_0_r, Z.mod_mod by lia. reflexivity.
  - intros Hmod r Hkept. unfold kept_by_line_number in Hkept.
    apply andb_true_iff in Hkept. destruct Hkept as [Hline_no _].
    apply Z.eqb_eq in Hline_no. unfold kept_by_offset.
    destruct (Z.eqb_spec ((fst r - header_pos) mod nth) 0) as [E|_];
      [|reflexivity].
    exfalso. apply Hmod.
    apply Z.mod_divide in Hline_no; [|lia]. apply Z.mod_divide in E; [|lia].
    apply Z.mod_divide; [lia|].
    replace header_pos with (fst r - (fst r - header_pos)) by lia.
    apply Z.divide_sub_r; assumption.
Qed.

(** ** Names from the file name *)

(** A single token leaves no token after the first: the first test of
    the position takes a remainder by zero. *)
Lemma single_token_raises (field_name : string) (columns_count : Z) :
  infer_names [field_name] columns_count = Raise ZeroDivisionError.
Proof. reflexivity. Qed.

(** C1 at its input.  For a file whose stem is a single token, [load_xy]
    raises [ZeroDivisionError], whatever the number of columns: no names
    are assigned. *)
Theorem load_xy_single_token_raises
  (fs : node) (filepath : Path) (token : string)
  (usecols : option (list Z)) (use_nth : option Z) :
  Py.split (pathlib.stem filepath) "_" = [token] ->
  load_xy fs filepath usecols use_nth = Raise ZeroDivisionError.
Proof.
  intros Hstem. unfold load_xy. rewrite Hstem, single_token_raises.
  reflexivity.
Qed.

Lemma first_value_column_cases (field_names : list string) (columns_count pos : Z) :
  first_value_column field_names columns_count = Ok pos ->
  len_from 1 field_names <> 0
  /\ ((pos = 1 /\ (columns_count - 1) mod (len_from 1 field_names) = 0)
      \/ (pos = 3 /\ len_from 3 field_names <> 0
          /\ (columns_count - 3) mod (len_from 3 field_names) = 0)
      \/ (pos = 0 /\ (columns_count - 1) mod (len_from 1 field_names) <> 0)).
Proof.
  unfold first_value_column, Py.mod_.
  destruct (Z.eqb_spec (len_from 1 field_names) 0) as [|H1]; [discriminate|].
  cbn [Py.bind].
  destruct (Z.eqb_spec ((columns_count - 1) mod len_from 1 field_names) 0)
    as [E1|N1].
  - intros H; inversion H. split; [exact H1|]. left. split; [reflexivity|exact E1].
  - destruct (columns_count >? 3).
    + destruct (Z.eqb_spec (len_from 3 field_names) 0) as [|H3]; [discriminate|].
      cbn [Py.bind].
      destruct (Z.eqb_spec ((columns_count - 3) mod len_from 3 field_names) 0)
        as [E3|N3]; intros H; inversion H; (split; [exact H1|]).
      * right; left. repeat split; assumption.
      * right; right. split; [reflexivity|exact N1].
    + intros H; inversion H. split; [exact H1|].
      right; right. split; [reflexivity|exact N1].
Qed.

Lemma append_plain_names (q : Q) (field_names names : list string) :
  Qle_bool q (inject_Z 1) = true ->
  foldM (fun names field_name =>
           more <- field_components field_name (Float q) ;;
           Ok (names ++ more))
    field_names names
  = Ok (names ++ field_names).
Proof.
  intros Hq. revert names.
  induction field_names as [|f fs IH]; intros names; simpl.
  - rewrite app_nil_r. reflexivity.
  - unfold field_components at 1. cbn [Py.le]. rewrite Hq. cbn [Py.bind].
    rewrite IH, <- app_assoc. reflexivity.
Qed.

(** ** Merging a directory *)

Lemma path_ltb_asym (p q : Path) :
  pathlib.path_ltb p q = true -> pathlib.path_ltb q p = false.
Proof.
  revert q. induction p as [|a p IH]; intros [|b q]; simpl; try congruence.
  rewrite (String.compare_antisym b a).
  destruct (String.compare a b); simpl; try congruence. apply IH.
Qed.

Lemma insert_sorted_perm (p : Path) (ps : list Path) :
  Permutation (p :: ps) (insert_sorted p ps).
Proof.
  induction ps as [|q ps IH]; simpl; [reflexivity|].
  destruct (pathlib.path_ltb q p); [|reflexivity].
  rewrite perm_swap. constructor. exact IH.
Qed.

Lemma sorted_perm (ps : list Path) : Permutation ps (sorted ps).
Proof.
  induction ps as [|p ps IH]; simpl; [constructor|].
  rewrite <- insert_sorted_perm. constructor. exact IH.
Qed.

Lemma insert_sorted_hdrel (q p : Path) (ps : list Path) :
  path_le q p -> HdRel path_le q ps -> HdRel path_le q (insert_sorted p ps).
Proof.
  intros Hqp H. destruct ps as [|r ps]; simpl.
  - constructor. exact Hqp.
  - destruct (pathlib.path_ltb r p); constructor.
    + inversion H; assumption.
    + exact Hqp.
Qed.

Lemma insert_sorted_sorted (p : Path) (ps : list Path) :
  Sorted path_le ps -> Sorted path_le (insert_sorted p ps).
Proof.
  induction ps as [|q ps IH]; intros H; simpl.
  - constructor; constructor.
  - inversion H as [|? ? Hs Hh]; subst.
    destruct (pathlib.path_ltb q p) eqn:E.
    + constructor; [apply IH; exact Hs|].
      apply insert_sorted_hdrel; [|exact Hh].
      unfold path_le. apply path_ltb_asym. exact E.
    + constructor; [exact H|]. constructor. exact E.
Qed.

Lemma sorted_sorted (ps : list Path) : Sorted path_le (sorted ps).
Proof.
  induction ps as [|p ps IH]; simpl; [constructor|].
  apply insert_sorted_sorted. exact IH.
Qed.

Lemma existsb_eqb_in (x : string) (ls : list string) :
  existsb (String.eqb x) ls = true <-> In x ls.
Proof.
  rewrite existsb_exists. split.
  - intros [y [Hy E]]. apply String.eqb_eq in E. subst. exact Hy.
  - intros H. exists x. split; [exact H|apply String.eqb_refl].
Qed.

Lemma distinct_constant (name : string) (seen ls : list string) :
  (forall x, In x ls -> x = name) ->
  Py.distinct seen ls =
  if existsb (String.eqb name) seen then []
  else match ls with
       | [] => []
       | _ => [name]
       end.
Proof.
  revert seen. induction ls as [|l ls IH]; intros seen H; simpl.
  - destruct (existsb (String.eqb name) seen); reflexivity.
  - assert (l = name) as -> by (apply H; left; reflexivity).
    assert (H' : forall x, In x ls -> x = name)
      by (intros x Hx; apply H; right; exact Hx).
    destruct (existsb (String.eqb name) seen) eqn:E.
    + rewrite IH, E by exact H'. reflexivity.
    + rewrite IH by exact H'. simpl. rewrite String.eqb_refl. reflexivity.
Qed.

Lemma distinct_in (x : string) (seen ls : list string) :
  In x ls -> ~ In x seen -> In x (Py.distinct seen ls).
Proof.
  revert seen. induction ls as [|l ls IH]; intros seen Hin Hseen; simpl.
  - contradiction.
  - destruct (existsb (String.eqb l) seen) eqn:E.
    + apply IH; [|exact Hseen].
      destruct Hin as [->|Hin]; [|exact Hin].
      exfalso. apply Hseen. apply existsb_eqb_in. exact E.
    + destruct (String.eqb_spec l x) as [->|Hne]; [left; reflexivity|].
      right. apply IH.
      * destruct Hin as [Hl|Hin]; [contradiction|exact Hin].
      * intros [Hl|Hs]; [contradiction|exact (Hseen Hs)].
Qed.

Lemma count_names_same (filepaths : list Path) (name : string) :
  filepaths <> [] ->
  (forall p, In p filepaths -> pathlib.name p = name) ->
  count_names filepaths = 1%nat.
Proof.
  intros Hne Hall. unfold count_names.
  rewrite (distinct_constant name).
  - destruct filepaths; [contradiction|reflexivity].
  - intros x Hx. apply in_map_iff in Hx. destruct Hx as [p [<- Hp]].
    apply Hall. exact Hp.
Qed.

Lemma count_names_differ (filepaths : list Path) (p q : Path) :
  In p filepaths -> In q filepaths -> pathlib.name p <> pathlib.name q ->
  (2 <= count_names filepaths)%nat.
Proof.
  intros Hp Hq Hne. unfold count_names.
  assert (Ha : In (pathlib.name p) (Py.distinct [] (map pathlib.name filepaths)))
    by (apply distinct_in; [apply in_map; exact Hp|intros []]).
  assert (Hb : In (pathlib.name q) (Py.distinct [] (map pathlib.name filepaths)))
    by (apply distinct_in; [apply in_map; exact Hq|intros []]).
  destruct (Py.distinct [] (map pathlib.name filepaths)) as [|a [|b u]].
  - contradiction.
  - exfalso. apply Hne. destruct Ha as [<-|[]]. destruct Hb as [<-|[]].
    reflexivity.
  - simpl. lia.
Qed.

Lemma list_sum_perm (xs ys : list nat) :
  Permutation xs ys -> list_sum xs = list_sum ys.
Proof.
  induction 1; simpl; lia.
Qed.

Lemma flat_map_of_map {A B C : Type} (g : A -> B) (f : B -> list C) (xs : list A) :
  flat_map f (map g xs) = flat_map (fun x => f (g x)) xs.
Proof.
  induction xs as [|x xs IH]; simpl; [reflexivity|]. rewrite IH. reflexivity.
Qed.

Lemma distinct_members (x : string) (seen ls : list string) :
  In x (Py.distinct seen ls) <-> In x ls /\ ~ In x seen.
Proof.
  revert seen. induction ls as [|l ls IH]; intros seen; cbn [Py.distinct].
  - split; [intros []|intros [[] _]].
  - destruct (existsb (String.eqb l) seen) eqn:E.
    + rewrite IH. apply existsb_eqb_in in E. split.
      * intros [Hin Hseen]. split; [right; exact Hin|exact Hseen].
      * intros [[->|Hin] Hseen]; [contradiction|]. split; assumption.
    + assert (Hl : ~ In l seen).
      { intros Hin. apply existsb_eqb_in in Hin. congruence. }
      cbn [In]. rewrite IH. cbn [In]. split.
      * intros [->|[Hin Hseen]].
        -- split; [left; reflexivity|exact Hl].
        -- split; [right; exact Hin|]. intros Hx. apply Hseen. right. exact Hx.
      * intros [[->|Hin] Hseen]; [left; reflexivity|].
        destruct (String.eqb_spec l x) as [->|Hne]; [left; reflexivity|].
        right. split; [exact Hin|]. intros [Hx|Hx]; [exact (Hne Hx)|].
        exact (Hseen Hx).
Qed.

Lemma distinct_nodup (seen ls : list string) : NoDup (Py.distinct seen ls).
Proof.
  revert seen. induction ls as [|l ls IH]; intros seen; cbn [Py.distinct].
  - constructor.
  - destruct (existsb (String.eqb l) seen); [apply IH|].
    constructor; [|apply IH].
    intros Hin. apply distinct_members in Hin. destruct Hin as [_ Hin].
    apply Hin. left. reflexivity.
Qed.

Lemma distinct_absorbed (seen ls : list string) :
  (forall x, In x ls -> In x seen) -> Py.distinct seen ls = [].
Proof.
  intros Hsub. induction ls as [|l ls IH]; cbn [Py.distinct]; [reflexivity|].
  assert (Hl : existsb (String.eqb l) seen = true).
  { apply existsb_eqb_in. apply Hsub. left. reflexivity. }
  rewrite Hl. apply IH. intros x Hx. apply Hsub. right. exact Hx.
Qed.

(** A list without repetitions, followed by elements it already has, is
    the set in order of first appearance. *)
Lemma distinct_of_repeated (ls more seen : list string) :
  NoDup ls ->
  (forall x, In x ls -> ~ In x seen) ->
  (forall x, In x more -> In x ls \/ In x seen) ->
  Py.distinct seen (ls ++ more) = ls.
Proof.
  intros Hnd. revert seen.
  induction Hnd as [|l ls Hl _ IH]; intros seen Hfresh Hmore; cbn [app].
  - apply distinct_absorbed. intros x Hx.
    destruct (Hmore x Hx) as [[]|Hs]. exact Hs.
  - cbn [Py.distinct].
    assert (Hnew : existsb (String.eqb l) seen = false).
    { destruct (existsb (String.eqb l) seen) eqn:E; [|reflexivity].
      apply existsb_eqb_in in E. exfalso.
      exact (Hfresh l (or_introl eq_refl) E). }
    rewrite Hnew. f_equal. apply IH.
    + intros x Hx [<-|Hs]; [exact (Hl Hx)|].
      exact (Hfresh x (or_intror Hx) Hs).
    + intros x Hx. destruct (Hmore x Hx) as [[<-|Hin]|Hs].
      * right. left. reflexivity.
      * left. exact Hin.
      * right. right. exact Hs.
Qed.

Lemma column_of_label (key : string) (dat : DataFrame F) :
  In key (pd.labels dat) ->
  exists s, In (key, s) (columns dat) /\ pd.column_or_nan key dat = values s.
Proof.
  unfold pd.labels, pd.column_or_nan.
  induction (columns dat) as [|[k v] cols IH]; cbn [map In pd.find_label fst].
  - intros [].
  - destruct (String.eqb_spec k key) as [->|Hne].
    + intros _. exists v. split; [left; reflexivity|reflexivity].
    + intros [E|Hin]; [contradiction|].
      destruct (IH Hin) as [s [Hs Hv]]. exists s. split; [right; exact Hs|].
      exact Hv.
Qed.

(** C9. Given a directory whose [.dat] files all have the same name and
    all load, [load_dat] returns their rows one file after the other, the
    files in ascending path order: the index is the files' index values
    in that order, unchanged; every column holds the files' values in
    that order; the number of rows is the sum over the files.  The
    columns are those of the files, each label once; when the files have
    the same labels the result has these labels in their order, and each
    column is made of the files' own columns of that label.  When two of
    the names differ it raises [ValueError]. *)
Theorem directory_merge_in_path_order
  (fs : node) (filepath : Path) (usecols : option (list Z)) (use_nth : option Z) :
  pathlib.is_dir fs filepath = true ->
  let filepaths := pathlib.rglob fs filepath ".dat" in
  (forall (name : string) (loaded : Path -> DataFrame F),
      filepaths <> [] ->
      (forall p, In p filepaths -> pathlib.name p = name) ->
      (forall p, In p filepaths -> load fs usecols use_nth p = Ok (loaded p)) ->
      exists dat,
        load_dat fs filepath usecols use_nth = Ok dat
        /\ index dat = flat_map (fun p => index (loaded p)) (sorted filepaths)
        /\ (forall key s,
               In (key, s) (columns dat) ->
               values s
               = flat_map (fun p => pd.column_or_nan key (loaded p))
                   (sorted filepaths))
        /\ pd.len dat = list_sum (map (fun p => pd.len (loaded p)) filepaths)
        /\ Permutation filepaths (sorted filepaths)
        /\ Sorted path_le (sorted filepaths)
        /\ (forall key,
               In key (pd.labels dat)
               <-> exists p, In p filepaths /\ In key (pd.labels (loaded p)))
        /\ NoDup (pd.labels dat)
        /\ (forall ls,
               NoDup ls ->
               (forall p, In p filepaths -> pd.labels (loaded p) = ls) ->
               pd.labels dat = ls)
        /\ (forall key p,
               In p filepaths -> In key (pd.labels (loaded p)) ->
               exists s, In (key, s) (columns (loaded p))
                         /\ pd.column_or_nan key (loaded p) = values s))
  /\ (forall p q,
         In p filepaths -> In q filepaths ->
         pathlib.name p <> pathlib.name q ->
         load_dat fs filepath usecols use_nth = Raise ValueError).
Proof.
  intros Hdir filepaths. split.
  - intros name loaded Hne Hname Hload.
    unfold load_dat. rewrite Hdir. fold filepaths.
    rewrite (count_names_same filepaths name Hne Hname). cbn [Nat.eqb negb].
    rewrite (mapM_ok _ loaded).
    2:{ intros p Hp. apply Hload.
        apply (Permutation_in p (Permutation_sym (sorted_perm filepaths))).
        exact Hp. }
    cbn [Py.bind]. unfold pd.concat.
    destruct (map loaded (sorted filepaths)) as [|first frames] eqn:E.
    { exfalso. apply map_eq_nil in E.
      pose proof (sorted_perm filepaths) as P. rewrite E in P.
      apply Permutation_sym, Permutation_nil in P. exact (Hne P). }
    rewrite <- E. eexists. split; [reflexivity|]. cbn [index columns].
    assert (Hlabels : forall key,
               In key (flat_map pd.labels (map loaded (sorted filepaths)))
               <-> exists p, In p filepaths /\ In key (pd.labels (loaded p))).
    { intros key. rewrite flat_map_of_map, in_flat_map. split.
      - intros [p [Hp Hkey]]. exists p. split; [|exact Hkey].
        apply (Permutation_in p (Permutation_sym (sorted_perm filepaths))).
        exact Hp.
      - intros [p [Hp Hkey]]. exists p. split; [|exact Hkey].
        apply (Permutation_in p (sorted_perm filepaths)). exact Hp. }
    split; [apply flat_map_of_map|].
    split; [|split; [|split; [|split; [|split; [|split; [|split]]]]]].
    + intros key s Hin. apply in_map_iff in Hin.
      destruct Hin as [k [Hk _]]. inversion Hk; subst. cbn [values].
      apply flat_map_of_map.
    + unfold pd.len at 1. cbn [index].
      rewrite flat_map_of_map, length_flat_map.
      apply list_sum_perm, Permutation_map, Permutation_sym, sorted_perm.
    + apply sorted_perm.
    + apply sorted_sorted.
    + intros key. unfold pd.labels at 1. cbn [columns].
      rewrite map_map. cbn [fst]. rewrite map_id.
      rewrite distinct_members, Hlabels. split.
      * intros [H _]. exact H.
      * intros H. split; [exact H|intros []].
    + unfold pd.labels at 1. cbn [columns].
      rewrite map_map. cbn [fst]. rewrite map_id. apply distinct_nodup.
    + intros ls Hnd Hsame. unfold pd.labels at 1. cbn [columns].
      rewrite map_map. cbn [fst]. rewrite map_id.
      rewrite flat_map_of_map.
      destruct (sorted filepaths) as [|p0 ps] eqn:Es; [discriminate E|].
      assert (Hin : forall p, In p (p0 :: ps) -> In p filepaths).
      { intros p Hp. rewrite <- Es in Hp.
        apply (Permutation_in p (Permutation_sym (sorted_perm filepaths))).
        exact Hp. }
      cbn [flat_map]. rewrite (Hsame p0 (Hin p0 (or_introl eq_refl))).
      apply distinct_of_repeated; [exact Hnd|intros x _ []|].
      intros x Hx. left. apply in_flat_map in Hx.
      destruct Hx as [p [Hp Hkey]].
      rewrite (Hsame p (Hin p (or_intror Hp))) in Hkey. exact Hkey.
    + intros key p _ Hkey. apply column_of_label. exact Hkey.
  - intros p q Hp Hq Hne. unfold load_dat. rewrite Hdir. fold filepaths.
    pose proof (count_names_differ filepaths p q Hp Hq Hne) as H2.
    destruct (Nat.eqb_spec (count_names filepaths) 1); [lia|reflexivity].
Qed.

(** C10. A directory without any [.dat] file makes [load_dat] raise the
    [ValueError] it raises for files with differing names: no name is not
    one name. *)
Theorem directory_without_dat_files_raises
  (fs : node) (filepath : Path) (usecols : option (list Z)) (use_nth : option Z) :
  pathlib.is_dir fs filepath = true ->
  pathlib.rglob fs filepath ".dat" = [] ->
  load_dat fs filepath usecols use_nth = Raise ValueError
  /\ forall fs' filepath' p q,
       pathlib.is_dir fs' filepath' = true ->
       In p (pathlib.rglob fs' filepath' ".dat") ->
       In q (pathlib.rglob fs' filepath' ".dat") ->
       pathlib.name p <> pathlib.name q ->
       load_dat fs' filepath' usecols use_nth
       = load_dat fs filepath usecols use_nth.
Proof.
  intros Hdir Hnone.
  assert (H : load_dat fs filepath usecols use_nth = Raise ValueError).
  { unfold load_dat. rewrite Hdir, Hnone. reflexivity. }
  split; [exact H|].
  intros fs' filepath' p q Hdir' Hp Hq Hne. rewrite H.
  unfold load_dat. rewrite Hdir'.
  pose proof (count_names_differ _ p q Hp Hq Hne) as H2.
  destruct (Nat.eqb_spec
              (count_names (pathlib.rglob fs' filepath' ".dat")) 1);
    [lia|reflexivity].
Qed.

(** ** Labels of components *)

Lemma append_length (a b : string) :
  String.length (a ++ b)%string = (String.length a + String.length b)%nat.
Proof.
  induction a as [|c a IH]; simpl; [reflexivity|]. rewrite IH. reflexivity.
Qed.

Lemma append_inj (a b c : string) : (a ++ b)%string = (a ++ c)%string -> b = c.
Proof.
  induction a as [|x a IH]; simpl; intros H; [exact H|].
  inversion H. apply IH. assumption.
Qed.

Lemma str_of_nat_inj (i j : nat) : Py.str_of_nat i = Py.str_of_nat j -> i = j.
Proof.
  unfold Py.str_of_nat. intros H.
  apply DecimalNat.Unsigned.to_uint_inj.
  assert (E : Some (Nat.to_uint i) = Some (Nat.to_uint j)).
  { rewrite <- !NilEmpty.usu. rewrite H. reflexivity. }
  inversion E. reflexivity.
Qed.

Lemma component_label_inj (key : string) (i j : nat) :
  component_label key i = component_label key j -> i = j.
Proof.
  unfold component_label. intros H. apply append_inj in H.
  apply (append_inj ".") in H. apply str_of_nat_inj. exact H.
Qed.

Lemma component_label_not_key (key : string) (j : nat) :
  component_label key j <> key.
Proof.
  unfold component_label. intros H.
  apply (f_equal String.length) in H. rewrite append_length in H.
  simpl in H. lia.
Qed.

(** ** Columns by label *)

Lemma find_label_app (key : string) (a b : list (string * Series F)) :
  ~ In key (map fst a) -> pd.find_label key (a ++ b) = pd.find_label key b.
Proof.
  induction a as [|[k v] a IH]; simpl; intros H; [reflexivity|].
  destruct (String.eqb_spec k key) as [->|Hne]; [exfalso; auto|].
  apply IH. intros Hin. apply H. right. exact Hin.
Qed.

Lemma find_label_skip (key label : string) (v : Series F)
  (a b : list (string * Series F)) :
  key <> label ->
  pd.find_label key (a ++ (label, v) :: b) = pd.find_label key (a ++ b).
Proof.
  intros Hne. induction a as [|[k w] a IH]; simpl.
  - destruct (String.eqb_spec label key); [congruence|reflexivity].
  - rewrite IH. reflexivity.
Qed.

Lemma find_label_in (key : string) (cols : list (string * Series F)) (s : Series F) :
  pd.find_label key cols = Some s -> In key (map fst cols).
Proof.
  induction cols as [|[k v] cols IH]; simpl; [discriminate|].
  destruct (String.eqb_spec k key) as [->|Hne]; [left; reflexivity|].
  intros H. right. apply IH. exact H.
Qed.

Lemma find_label_set_other (key k : string) (s : Series F)
  (cols : list (string * Series F)) :
  k <> key -> pd.find_label k (pd.set_label key s cols) = pd.find_label k cols.
Proof.
  intros Hne. induction cols as [|[k' v] cols IH]; simpl.
  - destruct (String.eqb_spec key k); [congruence|reflexivity].
  - destruct (String.eqb_spec k' key) as [->|Hk]; simpl.
    + destruct (String.eqb_spec key k); [congruence|reflexivity].
    + rewrite IH. reflexivity.
Qed.

Lemma set_label_app (key : string) (s v : Series F)
  (a b : list (string * Series F)) :
  ~ In key (map fst a) ->
  pd.set_label key s (a ++ (key, v) :: b) = a ++ (key, s) :: b.
Proof.
  induction a as [|[k w] a IH]; simpl; intros H.
  - rewrite String.eqb_refl. reflexivity.
  - destruct (String.eqb_spec k key) as [->|Hne]; [exfalso; auto|].
    rewrite IH; [reflexivity|]. intros Hin. apply H. right. exact Hin.
Qed.

Lemma set_label_has (key : string) (s : Series F) (cols : list (string * Series F)) :
  In key (map fst (pd.set_label key s cols)).
Proof.
  induction cols as [|[k v] cols IH]; simpl; [left; reflexivity|].
  destruct (String.eqb k key); simpl; [left; reflexivity|right; exact IH].
Qed.

Lemma index_of_app (key : string) (a b : list string) :
  ~ In key a -> pd.index_of key (a ++ key :: b) = Ok (List.length a).
Proof.
  induction a as [|k a IH]; simpl; intros H.
  - rewrite String.eqb_refl. reflexivity.
  - destruct (String.eqb_spec k key) as [->|Hne]; [exfalso; auto|].
    rewrite IH; [reflexivity|]. intros Hin. apply H. right. exact Hin.
Qed.

Lemma index_of_in (key : string) (ls : list string) :
  In key ls -> exists i, pd.index_of key ls = Ok i.
Proof.
  induction ls as [|k ls IH]; simpl; intros H; [contradiction|].
  destruct (String.eqb_spec k key) as [->|Hne]; [exists O; reflexivity|].
  destruct H as [E|H]; [contradiction|].
  destruct (IH H) as [i ->]. exists (S i). reflexivity.
Qed.

Lemma has_label_false (dat : DataFrame F) (key : string) :
  ~ In key (pd.labels dat) -> pd.has_label dat key = false.
Proof.
  intros H. unfold pd.has_label.
  destruct (existsb (String.eqb key) (pd.labels dat)) eqn:E; [|reflexivity].
  exfalso. apply H. apply existsb_eqb_in. exact E.
Qed.

Lemma has_label_true (dat : DataFrame F) (key : string) :
  In key (pd.labels dat) -> pd.has_label dat key = true.
Proof.
  intros H. apply existsb_eqb_in. exact H.
Qed.

(** ** Arrays *)

Lemma column_of_matrix (w j : nat) (rows : list (list F)) :
  Forall (fun r => List.length r = w) rows -> (j < w)%nat ->
  np.column (np.Array2 w rows) j = Ok (component j rows).
Proof.
  intros Hall Hj. unfold np.column.
  induction Hall as [|r rows Hr _ IH]; simpl; [reflexivity|].
  destruct (nth_error r j) as [x|] eqn:E.
  - cbn [Py.bind]. rewrite IH. reflexivity.
  - apply nth_error_None in E. lia.
Qed.

Lemma component_length (w j : nat) (rows : list (list F)) :
  Forall (fun r => List.length r = w) rows -> (j < w)%nat ->
  List.length (component j rows) = List.length rows.
Proof.
  intros Hall Hj. unfold component.
  induction Hall as [|r rows Hr _ IH]; simpl; [reflexivity|].
  destruct (nth_error r j) as [x|] eqn:E.
  - simpl. rewrite IH. reflexivity.
  - apply nth_error_None in E. lia.
Qed.

Lemma uniform_spec (w : nat) (rows : list (list F)) :
  np.uniform w rows = true <-> Forall (fun r => List.length r = w) rows.
Proof.
  unfold np.uniform. rewrite forallb_forall, Forall_forall.
  split; intros H r Hr.
  - apply Nat.eqb_eq, H, Hr.
  - apply Nat.eqb_eq, H, Hr.
Qed.

Lemma array_of_uniform (w : nat) (rows : list (list F)) :
  rows <> [] -> Forall (fun r => List.length r = w) rows ->
  np.array ragged_as_objects rows = Ok (np.Array2 w rows).
Proof.
  intros Hne Hall. unfold np.array.
  destruct rows as [|r rows]; [contradiction|].
  assert (List.length r = w) as -> by (inversion Hall; assumption).
  apply uniform_spec in Hall. rewrite Hall. reflexivity.
Qed.

(** ** Expanding one tuple column *)

Lemma expansion_S (key : string) (k : nat) (rows : list (list F)) :
  expansion key (S k) rows
  = expansion key k rows
      ++ [(component_label key k, mkSeries float64 (map Num (component k rows)))].
Proof.
  unfold expansion. rewrite seq_S, map_app. reflexivity.
Qed.

Lemma expansion_labels (key : string) (k : nat) (rows : list (list F)) (l : string) :
  In l (map fst (expansion key k rows)) ->
  exists j, (j < k)%nat /\ l = component_label key j.
Proof.
  unfold expansion. rewrite map_map. cbn [fst]. intros H.
  apply in_map_iff in H. destruct H as [j [<- Hj]].
  apply in_seq in Hj. exists j. split; [lia|reflexivity].
Qed.

Lemma expansion_length (key : string) (k : nat) (rows : list (list F)) :
  List.length (expansion key k rows) = k.
Proof.
  unfold expansion. rewrite length_map, length_seq. reflexivity.
Qed.

(** The inner loop: after components [0 .. k-1] the new columns stand
    between the original column and what followed it. *)
Lemma insert_components (iname : option string) (idx : list (cell F))
  (pre post : list (string * Series F)) (key : string) (arr : Series F)
  (w : nat) (rows : list (list F)) (m : nat) :
  Forall (fun r => List.length r = w) rows ->
  List.length rows = List.length idx ->
  ~ In key (map fst (pre ++ post)) ->
  (forall j, (j < w)%nat -> ~ In (component_label key j) (map fst (pre ++ post))) ->
  forall k, (k + m <= w)%nat ->
  foldM (insert_component key (S (List.length pre)) (np.Array2 w rows))
    (seq k m)
    (mkFrame iname idx (pre ++ (key, arr) :: expansion key k rows ++ post))
  = Ok (mkFrame iname idx
          (pre ++ (key, arr) :: expansion key (k + m) rows ++ post)).
Proof.
  intros Hall Hlen Hkey Hfresh.
  induction m as [|m IH]; intros k Hk; simpl.
  - rewrite Nat.add_0_r. reflexivity.
  - unfold insert_component at 1.
    rewrite (column_of_matrix w k rows Hall) by lia. cbn [Py.bind].
    fold (component_label key k).
    unfold pd.insert.
    rewrite has_label_false.
    2:{ unfold pd.labels. cbn [columns].
        rewrite map_app. cbn [map fst]. rewrite map_app.
        intros Hin. apply in_app_or in Hin. destruct Hin as [Hin|[Hin|Hin]].
        - apply (Hfresh k); [lia|]. rewrite map_app. apply in_or_app.
          left. exact Hin.
        - apply (component_label_not_key key k). symmetry. exact Hin.
        - apply in_app_or in Hin. destruct Hin as [Hin|Hin].
          + apply expansion_labels in Hin. destruct Hin as [j [Hj E]].
            apply component_label_inj in E. lia.
          + apply (Hfresh k); [lia|]. rewrite map_app. apply in_or_app.
            right. exact Hin. }
    unfold pd.len. cbn [index columns].
    rewrite (component_length w k rows Hall) by lia.
    rewrite Hlen, Nat.eqb_refl. cbn [negb].
    destruct (Nat.ltb_spec
                (List.length (pre ++ (key, arr) :: expansion key k rows ++ post))
                (S (List.length pre) + k)) as [Hlt|_].
    { rewrite length_app in Hlt. cbn [List.length] in Hlt.
      rewrite length_app, expansion_length in Hlt. lia. }
    replace (pre ++ (key, arr) :: expansion key k rows ++ post)
      with ((pre ++ (key, arr) :: expansion key k rows) ++ post)
      by (rewrite <- app_assoc; reflexivity).
    assert (Hn : List.length (pre ++ (key, arr) :: expansion key k rows)
                 = (S (List.length pre) + k)%nat).
    { rewrite length_app. cbn [List.length]. rewrite expansion_length. lia. }
    rewrite <- Hn, firstn_app, skipn_app, firstn_all, skipn_all, Nat.sub_diag.
    cbn [firstn skipn]. rewrite !app_nil_r. cbn [app].
    replace ((pre ++ (key, arr) :: expansion key k rows)
               ++ (component_label key k,
                   mkSeries float64 (map Num (component k rows))) :: post)
      with (pre ++ (key, arr) :: expansion key (S k) rows ++ post).
    2:{ rewrite expansion_S, <- !app_assoc. reflexivity. }
    cbn [Py.bind index_name]. rewrite IH by lia.
    replace (S k + m)%nat with (k + S m)%nat by lia. reflexivity.
Qed.

Lemma unnest_column_other (st : DataFrame F * list string) (key : string) :
  unnest_column st (key, float64) = Ok st.
Proof. destruct st. reflexivity. Qed.

Lemma keys_of_columns (dat : DataFrame F) :
  combine (pd.labels dat) (pd.dtypes dat)
  = map (fun c => (fst c, dtype_of (snd c))) (columns dat).
Proof.
  unfold pd.labels, pd.dtypes. induction (columns dat) as [|c cols IH]; simpl.
  - reflexivity.
  - rewrite IH. reflexivity.
Qed.

Lemma unnest_untouched (cols : list (string * Series F))
  (st : DataFrame F * list string) :
  Forall (fun c => dtype_of (snd c) = float64) cols ->
  foldM unnest_column (map (fun c => (fst c, dtype_of (snd c))) cols) st = Ok st.
Proof.
  intros H. apply foldM_id. intros kd s0 Hin.
  apply in_map_iff in Hin. destruct Hin as [c [<- Hc]].
  rewrite Forall_forall in H. rewrite (H c Hc). apply unnest_column_other.
Qed.

Lemma zip_component_row (r : list F) (done : list F) :
  flat_map (fun j => match nth_error (done ++ r) j with
                     | Some x => [x]
                     | None => []
                     end)
    (seq (List.length done) (List.length r))
  = r.
Proof.
  revert done. induction r as [|x r IH]; intros done; simpl; [reflexivity|].
  rewrite nth_error_app2 by lia. rewrite Nat.sub_diag. simpl. f_equal.
  specialize (IH (done ++ [x])).
  rewrite <- app_assoc, length_app in IH. simpl in IH.
  rewrite Nat.add_1_r in IH. exact IH.
Qed.

Lemma nth_error_component (j i : nat) (rows : list (list F)) :
  Forall (fun r => (j < List.length r)%nat) rows ->
  nth_error (component j rows) i
  = match nth_error rows i with
    | Some r => nth_error r j
    | None => None
    end.
Proof.
  intros Hall. revert i. unfold component.
  induction Hall as [|r rows Hr _ IH]; intros i; simpl.
  - destruct i; reflexivity.
  - destruct (nth_error r j) as [x|] eqn:E.
    + destruct i; simpl; [symmetry; exact E|apply IH].
    + apply nth_error_None in E. lia.
Qed.

Lemma flat_map_ext_in_list {A B : Type} (f g : A -> list B) (xs : list A) :
  (forall x, In x xs -> f x = g x) -> flat_map f xs = flat_map g xs.
Proof.
  induction xs as [|x xs IH]; intros H; simpl; [reflexivity|].
  rewrite H by (left; reflexivity).
  rewrite IH by (intros y Hy; apply H; right; exact Hy). reflexivity.
Qed.

(** Re-zipping the component columns gives back the rows. *)
Lemma zip_rows_of_components (w : nat) (rows : list (list F)) :
  Forall (fun r => List.length r = w) rows ->
  zip_rows (List.length rows) (map (fun j => component j rows) (seq 0 w)) = rows.
Proof.
  intros Hall. apply nth_error_ext. intros i. unfold zip_rows.
  rewrite nth_error_map.
  destruct (nth_error rows i) as [r|] eqn:E.
  - assert (Hi : (i < List.length rows)%nat)
      by (apply nth_error_Some; congruence).
    rewrite nth_error_seq. destruct (Nat.ltb_spec i (List.length rows)); [|lia].
    cbn [option_map Nat.add]. f_equal.
    unfold component at 1. rewrite flat_map_of_map.
    assert (Hr : List.length r = w).
    { rewrite Forall_forall in Hall. apply Hall.
      eapply nth_error_In. exact E. }
    rewrite (flat_map_ext_in_list _
               (fun j => match nth_error r j with
                         | Some x => [x]
                         | None => []
                         end)).
    + rewrite <- Hr. exact (zip_component_row r []).
    + intros j Hj. apply in_seq in Hj.
      rewrite nth_error_component, E; [reflexivity|].
      eapply Forall_impl; [|exact Hall]. cbn beta. intros r0 Hr0. lia.
  - assert (Hi : (List.length rows <= i)%nat) by (apply nth_error_None; exact E).
    rewrite nth_error_seq. destruct (Nat.ltb_spec i (List.length rows)); [lia|].
    reflexivity.
Qed.

(** One turn of the outer loop on a tuple column. *)
Lemma unnest_column_expands
  (iname : option string) (idx : list (cell F))
  (pre post : list (string * Series F)) (key : string)
  (cells : list (cell F)) (x : cell F) (w : nat) (rows : list (list F))
  (nested : list string) :
  ~ In key (map fst (pre ++ post)) ->
  (forall j, (j < w)%nat -> ~ In (component_label key j) (map fst (pre ++ post))) ->
  List.length cells = List.length idx ->
  pd.iloc_last (mkSeries object cells) = Ok x ->
  looks_numeric x = Ok true ->
  mapM fn cells = Ok rows ->
  Forall (fun r => List.length r = w) rows ->
  unnest_column
    (mkFrame iname idx (pre ++ (key, mkSeries object cells) :: post), nested)
    (key, object)
  = Ok (mkFrame iname idx
          (pre ++ (key, mkSeries object (map Arr rows))
               :: expansion key w rows ++ post),
        nested ++ [key]).
Proof.
  intros Hkey Hfresh Hlen Hlast Hnum Hparse Hall.
  assert (Hkpre : ~ In key (map fst pre)).
  { intros H. apply Hkey. rewrite map_app. apply in_or_app. left. exact H. }
  assert (Hrows : List.length rows = List.length idx).
  { rewrite (mapM_length _ _ _ Hparse). exact Hlen. }
  assert (Hne : rows <> []).
  { intros ->. apply mapM_length in Hparse. simpl in Hparse.
    destruct cells; [|discriminate]. discriminate Hlast. }
  unfold unnest_column. cbn [dtype_eqb]. unfold pd.getitem. cbn [columns].
  rewrite find_label_app by exact Hkpre. cbn [pd.find_label].
  rewrite String.eqb_refl. cbn [Py.bind].
  rewrite Hlast. cbn [Py.bind]. rewrite Hnum. cbn [Py.bind values].
  rewrite Hparse. cbn [Py.bind].
  unfold pd.setitem. cbn [columns index index_name].
  rewrite set_label_app by exact Hkpre.
  unfold pd.labels at 1. cbn [columns]. rewrite map_app. cbn [map fst].
  rewrite index_of_app by exact Hkpre. cbn [Py.bind].
  rewrite (array_of_uniform w rows Hne Hall). cbn [Py.bind np.shape_last].
  pose proof (insert_components iname idx pre post key
                (mkSeries object (map Arr rows)) w rows w
                Hall Hrows Hkey Hfresh 0 (Nat.le_refl _)) as Hins.
  change (expansion key 0 rows) with (@nil (string * Series F)) in Hins.
  cbn [app Nat.add] in Hins. rewrite length_map. rewrite Hins. reflexivity.
Qed.

(** *** The whole loop *)

Lemma array2_inv (rows rows' : list (list F)) (w : nat) :
  np.array ragged_as_objects rows = Ok (np.Array2 w rows') ->
  Forall (fun r => List.length r = w) rows.
Proof.
  unfold np.array. destruct rows as [|r rows]; [discriminate|].
  destruct (np.uniform (List.length r) (r :: rows)) eqn:E.
  - intros H; inversion H; subst. apply uniform_spec. exact E.
  - destruct ragged_as_objects; discriminate.
Qed.

Lemma classify_some (s : Series F) (w : nat) (rows : list (list F)) :
  classify s = Ok (Some (w, rows)) ->
  dtype_of s = object
  /\ exists x,
       pd.iloc_last (mkSeries object (values s)) = Ok x
       /\ looks_numeric x = Ok true
       /\ mapM fn (values s) = Ok rows
       /\ Forall (fun r => List.length r = w) rows.
Proof.
  unfold classify. destruct s as [dt cells]. cbn [dtype_of values].
  destruct dt; cbn [dtype_eqb]; [|discriminate].
  destruct (pd.iloc_last (mkSeries object cells)) as [x|];
    cbn [Py.bind]; [|discriminate].
  destruct (looks_numeric x) as [[|]|] eqn:Hn; cbn [Py.bind];
    try discriminate.
  destruct (mapM fn cells) as [rows0|] eqn:Hp; cbn [Py.bind]; [|discriminate].
  destruct (np.array ragged_as_objects rows0) as [[w0 rows1|items]|] eqn:Ha;
    cbn [Py.bind]; try discriminate.
  intros H; inversion H; subst. split; [reflexivity|].
  exists x. repeat split; auto. eapply array2_inv. exact Ha.
Qed.

Lemma classify_none_step (d : DataFrame F) (n : list string) (key : string)
  (s : Series F) :
  classify s = Ok None ->
  pd.find_label key (columns d) = Some s ->
  unnest_column (d, n) (key, dtype_of s) = Ok (d, n).
Proof.
  unfold classify, unnest_column. intros Hc Hf.
  destruct (dtype_eqb (dtype_of s) object); [|reflexivity].
  unfold pd.getitem. rewrite Hf. cbn [Py.bind].
  destruct (pd.iloc_last s) as [x|]; cbn [Py.bind] in *; [|discriminate].
  destruct (looks_numeric x) as [[|]|]; cbn [Py.bind] in *;
    try discriminate; [|reflexivity].
  destruct (mapM fn (values s)); cbn [Py.bind] in *; [|discriminate].
  destruct (np.array ragged_as_objects a) as [[w rows|items]|];
    cbn [Py.bind] in *; discriminate.
Qed.

Lemma nodup_app_disjoint {A : Type} (a b : list A) (x : A) :
  NoDup (a ++ b) -> In x a -> In x b -> False.
Proof.
  induction a as [|y a IH]; simpl; intros Hnd Ha Hb; [contradiction|].
  inversion Hnd as [|? ? Hy Hnd']; subst. destruct Ha as [->|Ha].
  - apply Hy. apply in_or_app. right. exact Hb.
  - exact (IH Hnd' Ha Hb).
Qed.

Lemma label_in_with_original (cols : list (string * Series F))
  (c : string * Series F) :
  In c cols -> In (fst c) (map fst (flat_map with_original cols)).
Proof.
  intros Hc. apply in_map_iff.
  assert (H : exists x, In x (with_original c) /\ fst x = fst c).
  { unfold with_original.
    destruct (classify (snd c)) as [[[w rows]|]|];
      eexists; (split; [left; reflexivity|reflexivity]). }
  destruct H as [x [Hx E]]. exists x. split; [exact E|].
  apply in_flat_map. exists c. split; assumption.
Qed.

(** Where the labels of one column's replacement cannot occur. *)
Lemma fresh_labels (done X : list (string * Series F))
  (todo : list (string * Series F)) (l : string) :
  NoDup (map fst (done ++ X ++ flat_map with_original todo)) ->
  In l (map fst X) ->
  ~ In l (map fst (done ++ todo)).
Proof.
  intros Hnd Hl Hin. rewrite !map_app in Hnd. rewrite map_app in Hin.
  apply in_app_or in Hin. destruct Hin as [Hin|Hin].
  - apply (nodup_app_disjoint _ _ l Hnd Hin). apply in_or_app. left. exact Hl.
  - apply NoDup_app_remove_l in Hnd.
    apply (nodup_app_disjoint _ _ l Hnd Hl).
    apply in_map_iff in Hin. destruct Hin as [c [<- Hc]].
    apply label_in_with_original. exact Hc.
Qed.

(** The state of the loop after the columns [todo], started after the
    columns that gave [done]. *)
Lemma unnest_loop (iname : option string) (idx : list (cell F))
  (todo : list (string * Series F)) :
  forall (done : list (string * Series F)) (nested : list string),
    Forall (fun c => exists o, classify (snd c) = Ok o) todo ->
    Forall (fun c => List.length (values (snd c)) = List.length idx) todo ->
    NoDup (map fst (done ++ flat_map with_original todo)) ->
    foldM unnest_column (map (fun c => (fst c, dtype_of (snd c))) todo)
      (mkFrame iname idx (done ++ todo), nested)
    = Ok (mkFrame iname idx (done ++ flat_map with_original todo),
          nested ++ flat_map nested_key todo).
Proof.
  induction todo as [|[key s] todo IH]; intros done nested Hc Hl Hnd.
  - simpl. rewrite !app_nil_r. reflexivity.
  - inversion Hc as [|? ? [o Ho] Hc']; inversion Hl as [|? ? Hlen Hl']; subst.
    cbn [fst snd] in Ho, Hlen.
    cbn [map foldM fst snd flat_map] in Hnd |- *.
    assert (Hw : with_original (key, s)
                 = match o with
                   | Some (w, rows) =>
                       (key, mkSeries object (map Arr rows))
                         :: expansion key w rows
                   | None => [(key, s)]
                   end).
    { unfold with_original. cbn [fst snd]. rewrite Ho. reflexivity. }
    assert (Hk : nested_key (key, s)
                 = match o with Some _ => [key] | None => [] end).
    { unfold nested_key. cbn [fst snd]. rewrite Ho. reflexivity. }
    rewrite Hw in Hnd |- *. rewrite Hk. clear Hw Hk.
    destruct o as [[w rows]|].
    + apply classify_some in Ho.
      destruct Ho as [Hd [x [Hlast [Hnum [Hparse Hall]]]]].
      destruct s as [dt cells]. cbn [dtype_of values] in *. subst dt.
      rewrite (unnest_column_expands iname idx done todo key cells x w rows
                 nested); try assumption.
      * cbn [Py.bind].
        specialize (IH (done ++ (key, mkSeries object (map Arr rows))
                              :: expansion key w rows)
                      (nested ++ [key]) Hc' Hl').
        rewrite <- !app_assoc in IH. cbn [app] in IH.
        rewrite IH by exact Hnd. reflexivity.
      * apply (fresh_labels done _ todo key Hnd). left. reflexivity.
      * intros j Hj. apply (fresh_labels done _ todo _ Hnd).
        right. unfold expansion. rewrite map_map. cbn [fst].
        apply in_map_iff. exists j. split; [reflexivity|].
        apply in_seq. lia.
    + rewrite classify_none_step; [|exact Ho|].
      * cbn [Py.bind].
        specialize (IH (done ++ [(key, s)]) nested Hc' Hl').
        rewrite <- !app_assoc in IH. cbn [app] in IH.
        rewrite IH by exact Hnd. reflexivity.
      * cbn [columns]. rewrite find_label_app.
        -- cbn [pd.find_label]. rewrite String.eqb_refl. reflexivity.
        -- intros Hin.
           apply (fresh_labels done [(key, s)] todo key Hnd);
             [left; reflexivity|].
           rewrite map_app. apply in_or_app. left. exact Hin.
Qed.

Lemma nodup_labels_inj (cols : list (string * Series F))
  (x y : string * Series F) :
  NoDup (map fst cols) -> In x cols -> In y cols -> fst x = fst y -> x = y.
Proof.
  induction cols as [|c cols IH]; simpl; intros Hnd Hx Hy E; [contradiction|].
  inversion Hnd as [|? ? Hc Hnd']; subst.
  destruct Hx as [->|Hx], Hy as [->|Hy]; auto.
  - exfalso. apply Hc. rewrite E. apply in_map. exact Hy.
  - exfalso. apply Hc. rewrite <- E. apply in_map. exact Hx.
Qed.

Lemma nested_key_in (cols : list (string * Series F)) (k : string) :
  In k (flat_map nested_key cols) ->
  exists c w rows,
    In c cols /\ fst c = k /\ classify (snd c) = Ok (Some (w, rows)).
Proof.
  intros H. apply in_flat_map in H. destruct H as [c [Hc Hk]].
  unfold nested_key in Hk.
  destruct (classify (snd c)) as [[[w rows]|]|] eqn:E; try contradiction.
  destruct Hk as [<-|[]]. exists c, w, rows. auto.
Qed.

(** A column of arrays is no text column: its last cell is no text. *)
Lemma classify_arrays (rows : list (list F)) (o : option (nat * list (list F))) :
  rows <> [] -> classify (mkSeries object (map Arr rows)) <> Ok o.
Proof.
  intros Hne. unfold classify. cbn [dtype_of dtype_eqb].
  unfold pd.iloc_last. cbn [values]. rewrite <- map_rev.
  destruct (rev rows) as [|r rs] eqn:E.
  - exfalso. apply Hne. rewrite <- (rev_involutive rows), E. reflexivity.
  - cbn [map Py.bind looks_numeric]. discriminate.
Qed.

(** The final [drop] removes the original columns that were expanded and
    nothing else. *)
Lemma drop_originals (cols : list (string * Series F)) :
  Forall (fun c => exists o, classify (snd c) = Ok o) cols ->
  NoDup (map fst (flat_map with_original cols)) ->
  forall part,
    incl part cols ->
    filter (fun c => negb (existsb (String.eqb (fst c))
                             (flat_map nested_key cols)))
      (flat_map with_original part)
    = flat_map expanded part.
Proof.
  intros Hok Hnd.
  assert (Hkeep : forall x,
             In x (flat_map with_original cols) ->
             (forall c w rows,
                 In c cols -> classify (snd c) = Ok (Some (w, rows)) ->
                 x <> (fst c, mkSeries object (map Arr rows))) ->
             negb (existsb (String.eqb (fst x)) (flat_map nested_key cols))
             = true).
  { intros x Hx Hnot.
    destruct (existsb (String.eqb (fst x)) (flat_map nested_key cols)) eqn:E;
      [|reflexivity].
    exfalso. apply existsb_eqb_in in E.
    destruct (nested_key_in cols (fst x) E) as [c [w [rows [Hc [Hk Hcl]]]]].
    apply (Hnot c w rows Hc Hcl).
    apply (nodup_labels_inj _ _ _ Hnd Hx).
    - apply in_flat_map. exists c. split; [exact Hc|].
      unfold with_original. rewrite Hcl. left. reflexivity.
    - cbn [fst]. symmetry. exact Hk. }
  assert (Harr : forall c w rows,
             In c cols -> classify (snd c) = Ok (Some (w, rows)) -> rows <> []).
  { intros c w rows Hc Hcl ->. apply classify_some in Hcl.
    destruct Hcl as [_ [x [Hlast [_ [Hparse _]]]]].
    apply mapM_length in Hparse. cbn [List.length] in Hparse.
    destruct (values (snd c)); [discriminate Hlast|discriminate Hparse]. }
  induction part as [|c part IH]; intros Hincl; [reflexivity|].
  assert (Hc : In c cols) by (apply Hincl; left; reflexivity).
  assert (Hpart : incl part cols)
    by (intros y Hy; apply Hincl; right; exact Hy).
  cbn [flat_map]. rewrite filter_app, (IH Hpart). f_equal.
  rewrite Forall_forall in Hok. destruct (Hok c Hc) as [o Ho].
  unfold with_original, expanded. rewrite Ho.
  destruct o as [[w rows]|].
  - cbn [filter fst].
    assert (Hin : existsb (String.eqb (fst c)) (flat_map nested_key cols)
                  = true).
    { apply existsb_eqb_in. apply in_flat_map. exists c.
      split; [exact Hc|]. unfold nested_key. rewrite Ho. left. reflexivity. }
    rewrite Hin. cbn [negb]. apply filter_all. intros x Hx.
    apply Hkeep.
    + apply in_flat_map. exists c. split; [exact Hc|].
      unfold with_original. rewrite Ho. right. exact Hx.
    + intros c' w' rows' _ _ E. subst x. unfold expansion in Hx.
      apply in_map_iff in Hx. destruct Hx as [j [Hj _]]. discriminate Hj.
  - cbn [filter]. rewrite Hkeep; [reflexivity| |].
    + apply in_flat_map. exists c. split; [exact Hc|].
      unfold with_original. rewrite Ho. left. reflexivity.
    + intros c' w' rows' Hc' Hcl' E.
      apply (classify_arrays rows' None (Harr c' w' rows' Hc' Hcl')).
      rewrite E in Ho. exact Ho.
Qed.

(** What [unnest_columns] returns for a table in which every column can
    be classified, the columns are as long as the index, and the labels,
    old and new, are all different: every column replaced by its
    expansion, in place. *)
Lemma unnest_columns_expands_in_place
  (iname : option string) (idx : list (cell F))
  (cols : list (string * Series F)) :
  Forall (fun c => exists o, classify (snd c) = Ok o) cols ->
  Forall (fun c => List.length (values (snd c)) = List.length idx) cols ->
  NoDup (map fst (flat_map with_original cols)) ->
  unnest_columns (mkFrame iname idx cols)
  = Ok (mkFrame iname idx (flat_map expanded cols)).
Proof.
  intros Hok Hlen Hnd. unfold unnest_columns.
  rewrite keys_of_columns. cbn [columns].
  pose proof (unnest_loop iname idx cols [] [] Hok Hlen Hnd) as Hloop.
  cbn [app] in Hloop. rewrite Hloop.
  cbn [Py.bind fst snd]. unfold pd.drop.
  assert (Hall : forallb
                   (pd.has_label
                      (mkFrame iname idx (flat_map with_original cols)))
                   (flat_map nested_key cols) = true).
  { apply forallb_forall. intros k Hk. apply has_label_true.
    destruct (nested_key_in cols k Hk) as [c [w [rows [Hc [<- _]]]]].
    unfold pd.labels. cbn [columns]. apply label_in_with_original. exact Hc. }
  rewrite Hall. cbn [index_name index columns].
  rewrite (drop_originals cols Hok Hnd cols (incl_refl _)). reflexivity.
Qed.

Lemma classify_tuple_column (cells : list (cell F)) (x : cell F) (w : nat)
  (rows : list (list F)) :
  pd.iloc_last (mkSeries object cells) = Ok x ->
  looks_numeric x = Ok true ->
  mapM fn cells = Ok rows ->
  Forall (fun r => List.length r = w) rows ->
  classify (mkSeries object cells) = Ok (Some (w, rows)).
Proof.
  intros Hlast Hnum Hparse Hall. unfold classify. cbn [dtype_of dtype_eqb].
  rewrite Hlast. cbn [Py.bind]. rewrite Hnum. cbn [Py.bind values].
  rewrite Hparse. cbn [Py.bind].
  rewrite (array_of_uniform w rows); [reflexivity| |exact Hall].
  intros ->. apply mapM_length in Hparse. cbn [List.length] in Hparse.
  destruct cells; [discriminate Hlast|discriminate Hparse].
Qed.

Lemma tokens_read (tokens : list string) (r : list F) :
  map float_of_string tokens = map Some r ->
  np.array_of_tokens float_of_string tokens = Ok r.
Proof.
  unfold np.array_of_tokens. revert r.
  induction tokens as [|t tokens IH]; intros [|v r] H; cbn [map] in H;
    try discriminate H; cbn [mapM]; [reflexivity|].
  injection H as Ht Hrest. rewrite Ht. cbn [Py.bind].
  rewrite (IH r Hrest). reflexivity.
Qed.

(** [fn] gives the floats a text reads as, in the order of the text. *)
Lemma fn_reads (s : string) (r : list F) :
  reads_as s r -> fn (Str s) = Ok r.
Proof. intros H. unfold fn. apply tokens_read. exact H. Qed.

Lemma mapM_fn_reads (texts : list string) (rows : list (list F)) :
  Forall2 reads_as texts rows -> mapM fn (map Str texts) = Ok rows.
Proof.
  induction 1 as [|s r texts rows Hs _ IH]; cbn [map mapM]; [reflexivity|].
  rewrite (fn_reads s r Hs). cbn [Py.bind]. rewrite IH. reflexivity.
Qed.

Lemma reads_row (texts : list string) (rows : list (list F)) (i : nat)
  (s : string) :
  Forall2 reads_as texts rows -> nth_error texts i = Some s ->
  exists r, nth_error rows i = Some r /\ reads_as s r.
Proof.
  intros H. revert i. induction H as [|s0 r0 texts rows Hs _ IH]; intros i.
  - destruct i; discriminate.
  - destruct i as [|i]; cbn [nth_error].
    + intros E. injection E as <-. exists r0. split; [reflexivity|exact Hs].
    + apply IH.
Qed.

Lemma reads_token (s : string) (r : list F) (j : nat) (t : string) :
  reads_as s r -> nth_error (tuple_tokens s) j = Some t ->
  exists v, float_of_string t = Some v /\ nth_error r j = Some v.
Proof.
  unfold reads_as. intros H Ht.
  apply (map_nth_error float_of_string) in Ht. rewrite H in Ht.
  rewrite nth_error_map in Ht.
  destruct (nth_error r j) as [v|]; [|discriminate Ht].
  cbn [option_map] in Ht. injection Ht as Ht.
  exists v. split; [symmetry; exact Ht|reflexivity].
Qed.

Lemma reads_width (s : string) (r : list F) :
  reads_as s r -> List.length (tuple_tokens s) = List.length r.
Proof.
  unfold reads_as. intros H. apply (f_equal (@List.length _)) in H.
  rewrite !length_map in H. exact H.
Qed.

(** C6. In a table whose columns can all be classified, are as long as
    the index and have labels, old and new, that are all different, take
    a text column [key] whose last cell looks numeric and whose cells
    each read as [w] floats.  [unnest_columns] replaces it, in place, by
    the [w] float columns [key.0] to [key.(w-1)].  Every cell has [w]
    tokens, and row [i] of column [key.j] is the float that token [j] of
    cell [i] denotes: the components are in the order of the text.
    Zipping the new columns by row gives back the tuples. *)
Theorem tuple_column_round_trip
  (iname : option string) (idx : list (cell F))
  (pre post : list (string * Series F)) (key : string)
  (texts : list string) (x : cell F) (w : nat) (rows : list (list F)) :
  let cols := pre ++ (key, mkSeries object (map Str texts)) :: post in
  Forall (fun c => exists o, classify (snd c) = Ok o) cols ->
  Forall (fun c => List.length (values (snd c)) = List.length idx) cols ->
  NoDup (map fst (flat_map with_original cols)) ->
  pd.iloc_last (mkSeries object (map Str texts)) = Ok x ->
  looks_numeric x = Ok true ->
  Forall2 reads_as texts rows ->
  Forall (fun r => List.length r = w) rows ->
  unnest_columns (mkFrame iname idx cols)
  = Ok (mkFrame iname idx
          (flat_map expanded pre
             ++ map (fun j => (component_label key j,
                               mkSeries float64 (map Num (component j rows))))
                  (seq 0 w)
             ++ flat_map expanded post))
  /\ Forall (fun s => List.length (tuple_tokens s) = w) texts
  /\ (forall i j s t,
         nth_error texts i = Some s ->
         nth_error (tuple_tokens s) j = Some t ->
         exists v,
           float_of_string t = Some v
           /\ nth_error (component j rows) i = Some v)
  /\ zip_rows (List.length texts)
       (map (fun j => component j rows) (seq 0 w))
     = rows.
Proof.
  intros cols Hok Hlen Hnd Hlast Hnum Hreads Hall.
  pose proof (mapM_fn_reads texts rows Hreads) as Hparse.
  assert (Hwidth : forall i s,
             nth_error texts i = Some s -> List.length (tuple_tokens s) = w).
  { intros i s Hs. destruct (reads_row texts rows i s Hreads Hs) as [r [Hr Hsr]].
    rewrite (reads_width s r Hsr). rewrite Forall_forall in Hall.
    apply Hall. eapply nth_error_In. exact Hr. }
  split; [|split; [|split]].
  - rewrite (unnest_columns_expands_in_place iname idx cols Hok Hlen Hnd).
    subst cols. rewrite flat_map_app. cbn [flat_map].
    unfold expanded at 2. cbn [fst snd].
    rewrite (classify_tuple_column (map Str texts) x w rows) by assumption.
    reflexivity.
  - apply Forall_forall. intros s Hs. apply In_nth_error in Hs.
    destruct Hs as [i Hi]. exact (Hwidth i s Hi).
  - intros i j s t Hs Ht.
    destruct (reads_row texts rows i s Hreads Hs) as [r [Hr Hsr]].
    destruct (reads_token s r j t Hsr Ht) as [v [Hv Hj]].
    exists v. split; [exact Hv|].
    rewrite nth_error_component, Hr; [exact Hj|].
    assert (Hjw : (j < w)%nat).
    { rewrite <- (Hwidth i s Hs). apply nth_error_Some. congruence. }
    eapply Forall_impl; [|exact Hall]. cbn beta. intros r0 Hr0. lia.
  - rewrite (Forall2_length Hreads). apply zip_rows_of_components. exact Hall.
Qed.

(** ** Tuple columns of uneven width *)

Lemma fn_width (c : cell F) (r : list F) :
  fn c = Ok r -> List.length r = tuple_width c.
Proof.
  destruct c; simpl; try discriminate.
  unfold np.array_of_tokens. apply mapM_length.
Qed.

Lemma mapM_fn_widths (cells : list (cell F)) (rows : list (list F)) (c : cell F) :
  mapM fn cells = Ok rows -> In c cells ->
  exists r, In r rows /\ List.length r = tuple_width c.
Proof.
  revert rows. induction cells as [|c0 cells IH]; intros rows; simpl.
  - intros _ [].
  - destruct (fn c0) as [r0|] eqn:E0; cbn [Py.bind]; [|discriminate].
    destruct (mapM fn cells) as [rs|]; cbn [Py.bind]; [|discriminate].
    intros H [->|Hin]; inversion H; subst.
    + exists r0. split; [left; reflexivity|apply fn_width; exact E0].
    + destruct (IH rs eq_refl Hin) as [r [Hr Hw]].
      exists r. split; [right; exact Hr|exact Hw].
Qed.

Lemma insert_preserves (d d' : DataFrame F) (loc : nat) (label : string)
  (v : list F) (k : string) (s : Series F) :
  pd.insert d loc label v = Ok d' ->
  pd.find_label k (columns d) = Some s ->
  pd.find_label k (columns d') = Some s.
Proof.
  unfold pd.insert. intros H Hk.
  destruct (pd.has_label d label) eqn:Hl; [discriminate|].
  destruct (negb (List.length v =? pd.len d)%nat); [discriminate|].
  destruct (List.length (columns d) <? loc)%nat; [discriminate|].
  inversion H; subst. cbn [columns].
  rewrite find_label_skip, firstn_skipn; [exact Hk|].
  intros ->. apply find_label_in in Hk.
  apply (has_label_true d) in Hk. congruence.
Qed.

Lemma insert_loop_preserves (key : string) (pos : nat) (field : np.ndarray)
  (k : string) (s : Series F) (js : list nat) :
  forall d d',
    foldM (insert_component key pos field) js d = Ok d' ->
    pd.find_label k (columns d) = Some s ->
    pd.find_label k (columns d') = Some s.
Proof.
  induction js as [|j js IH]; intros d d'; simpl.
  - intros H; inversion H; subst. auto.
  - destruct (insert_component key pos field d j) as [d1|] eqn:E;
      cbn [Py.bind]; [|discriminate].
    intros H Hk. apply (IH d1 d' H).
    unfold insert_component in E.
    destruct (np.column field j); cbn [Py.bind] in E; [|discriminate].
    eapply insert_preserves; eassumption.
Qed.

Lemma unnest_column_preserves (d d' : DataFrame F) (n n' : list string)
  (kd : string * dtype) (k : string) (s : Series F) :
  unnest_column (d, n) kd = Ok (d', n') ->
  k <> fst kd ->
  pd.find_label k (columns d) = Some s ->
  pd.find_label k (columns d') = Some s.
Proof.
  destruct kd as [key dt]. cbn [fst]. unfold unnest_column.
  intros H Hne Hk.
  destruct (dtype_eqb dt object); [|inversion H; subst; exact Hk].
  destruct (pd.getitem d key) as [s0|]; cbn [Py.bind] in H; [|discriminate].
  destruct (pd.iloc_last s0) as [x|]; cbn [Py.bind] in H; [|discriminate].
  destruct (looks_numeric x) as [[|]|]; cbn [Py.bind] in H;
    [|inversion H; subst; exact Hk|discriminate].
  destruct (mapM fn (values s0)) as [arrays|]; cbn [Py.bind] in H;
    [|discriminate].
  destruct (pd.index_of key _) as [i|]; cbn [Py.bind] in H; [|discriminate].
  destruct (np.array ragged_as_objects arrays) as [field|];
    cbn [Py.bind] in H; [|discriminate].
  destruct (foldM _ _ _) as [d1|] eqn:E; cbn [Py.bind] in H; [|discriminate].
  inversion H; subst.
  eapply insert_loop_preserves; [exact E|].
  unfold pd.setitem. cbn [columns].
  rewrite find_label_set_other by exact Hne. exact Hk.
Qed.

Lemma unnest_loop_preserves (k : string) (s : Series F)
  (keys : list (string * dtype)) :
  forall st st',
    foldM unnest_column keys st = Ok st' ->
    ~ In k (map fst keys) ->
    pd.find_label k (columns (fst st)) = Some s ->
    pd.find_label k (columns (fst st')) = Some s.
Proof.
  induction keys as [|kd keys IH]; intros st st'; simpl.
  - intros H; inversion H; subst. auto.
  - destruct (unnest_column st kd) as [st1|] eqn:E; cbn [Py.bind];
      [|discriminate].
    intros H Hnot Hk. apply (IH st1 st' H).
    + intros Hin. apply Hnot. right. exact Hin.
    + destruct st as [d n], st1 as [d1 n1]. cbn [fst] in *.
      eapply unnest_column_preserves; [exact E| |exact Hk].
      intros ->. apply Hnot. left. reflexivity.
Qed.

Lemma ragged_not_uniform (w : nat) (rows : list (list F)) (r1 r2 : list F) :
  In r1 rows -> In r2 rows -> List.length r1 <> List.length r2 ->
  np.uniform w rows = false.
Proof.
  intros H1 H2 Hne. destruct (np.uniform w rows) eqn:E; [|reflexivity].
  apply uniform_spec in E. rewrite Forall_forall in E.
  exfalso. apply Hne. rewrite (E r1 H1), (E r2 H2). reflexivity.
Qed.

Lemma unnest_column_ragged (d : DataFrame F) (nested : list string)
  (key : string) (cells : list (cell F)) (x c1 c2 : cell F) :
  pd.find_label key (columns d) = Some (mkSeries object cells) ->
  pd.iloc_last (mkSeries object cells) = Ok x ->
  looks_numeric x = Ok true ->
  In c1 cells -> In c2 cells -> tuple_width c1 <> tuple_width c2 ->
  exists e,
    unnest_column (d, nested) (key, object) = Raise e
    /\ forall rows, mapM fn cells = Ok rows -> e = ragged_error.
Proof.
  intros Hfind Hlast Hnum H1 H2 Hw.
  unfold unnest_column. cbn [dtype_eqb]. unfold pd.getitem.
  rewrite Hfind. cbn [Py.bind]. rewrite Hlast. cbn [Py.bind].
  rewrite Hnum. cbn [Py.bind values].
  destruct (mapM fn cells) as [rows|e] eqn:P; cbn [Py.bind].
  2:{ exists e. split; [reflexivity|]. intros rows H. discriminate. }
  destruct (mapM_fn_widths cells rows c1 P H1) as [r1 [Hr1 E1]].
  destruct (mapM_fn_widths cells rows c2 P H2) as [r2 [Hr2 E2]].
  destruct (index_of_in key
              (pd.labels (pd.setitem d key (mkSeries object (map Arr rows)))))
    as [i Hi].
  { unfold pd.labels, pd.setitem. cbn [columns]. apply set_label_has. }
  rewrite Hi. cbn [Py.bind].
  exists ragged_error. split; [|reflexivity].
  unfold np.array, ragged_error.
  destruct rows as [|r rows]; [contradiction|].
  rewrite (ragged_not_uniform (List.length r) (r :: rows) r1 r2)
    by (assumption || lia).
  destruct ragged_as_objects; reflexivity.
Qed.

(** C4. A table with distinct labels in which a text column that looks
    numeric has two cells of different width makes [unnest_columns] raise.
    When the columns before it are numeric and its cells all parse, the
    error is the one NumPy gives for rows of unequal length. *)
Theorem differing_widths_raise
  (iname : option string) (idx : list (cell F))
  (pre post : list (string * Series F)) (key : string)
  (cells : list (cell F)) (x c1 c2 : cell F) :
  NoDup (map fst (pre ++ (key, mkSeries object cells) :: post)) ->
  pd.iloc_last (mkSeries object cells) = Ok x ->
  looks_numeric x = Ok true ->
  In c1 cells -> In c2 cells -> tuple_width c1 <> tuple_width c2 ->
  exists e,
    unnest_columns
      (mkFrame iname idx (pre ++ (key, mkSeries object cells) :: post))
    = Raise e
    /\ (Forall (fun c => dtype_of (snd c) = float64) pre ->
        forall rows, mapM fn cells = Ok rows -> e = ragged_error).
Proof.
  intros Hnd Hlast Hnum H1 H2 Hw.
  assert (Hkpre : ~ In key (map fst pre)).
  { rewrite map_app in Hnd. cbn [map fst] in Hnd.
    apply NoDup_remove_2 in Hnd. intros H. apply Hnd.
    apply in_or_app. left. exact H. }
  unfold unnest_columns. rewrite keys_of_columns. cbn [columns].
  rewrite map_app. cbn [map fst snd dtype_of]. rewrite foldM_app.
  destruct (foldM unnest_column
              (map (fun c => (fst c, dtype_of (snd c))) pre)
              (mkFrame iname idx (pre ++ (key, mkSeries object cells) :: post),
               [])) as [[d n]|e0] eqn:Epre; cbn [Py.bind foldM].
  - destruct (unnest_column_ragged d n key cells x c1 c2) as [e [He Hexact]];
      try assumption.
    { apply (unnest_loop_preserves key (mkSeries object cells) _ _ _ Epre).
      - rewrite map_map. cbn [fst]. exact Hkpre.
      - cbn [fst columns]. rewrite find_label_app by exact Hkpre.
        cbn [pd.find_label]. rewrite String.eqb_refl. reflexivity. }
    rewrite He. cbn [Py.bind]. exists e. split; [reflexivity|].
    intros _. exact Hexact.
  - exists e0. split; [reflexivity|].
    intros Hpre. rewrite unnest_untouched in Epre by exact Hpre. discriminate.
Qed.

(** * Further properties of the loaders *)

(** ** The header scan in full *)

Lemma scan_until_data (comment : string) (i : Z) (comments : list string)
  (line : string) (rest : list string) :
  Forall (fun l => Py.startswith l comment = true) comments ->
  Py.startswith line comment = false ->
  get_header_size_loop comment
    (Py.enumerate_from i (comments ++ line :: rest))
  = Some (i + Z.of_nat (List.length comments) - 1).
Proof.
  intros Hall Hline. revert i.
  induction Hall as [|l ls Hl _ IH]; intros i.
  - cbn [app Py.enumerate_from get_header_size_loop List.length].
    rewrite Hline. cbn [negb]. f_equal. lia.
  - cbn [app Py.enumerate_from get_header_size_loop].
    rewrite Hl. cbn [negb]. rewrite IH. f_equal.
    cbn [List.length]. lia.
Qed.

Lemma scan_only_comments (comment : string) (i : Z) (lines : list string) :
  Forall (fun l => Py.startswith l comment = true) lines ->
  get_header_size_loop comment (Py.enumerate_from i lines) = None.
Proof.
  intros Hall. revert i. induction Hall as [|l ls Hl _ IH]; intros i.
  - reflexivity.
  - cbn [Py.enumerate_from get_header_size_loop]. rewrite Hl. apply IH.
Qed.

(** Every list of lines is a run of comments, followed by a first line
    that is none or by nothing. *)
Lemma comments_then_data (comment : string) (lines : list string) :
  Forall (fun l => Py.startswith l comment = true) lines
  \/ exists comments line rest,
       lines = comments ++ line :: rest
       /\ Forall (fun l => Py.startswith l comment = true) comments
       /\ Py.startswith line comment = false.
Proof.
  induction lines as [|l lines IH].
  - left. constructor.
  - destruct (Py.startswith l comment) eqn:Hl.
    + destruct IH as [Hall|[comments [line [rest [-> [Hall Hline]]]]]].
      * left. constructor; assumption.
      * right. exists (l :: comments), line, rest.
        split; [reflexivity|]. split; [constructor; assumption|exact Hline].
    + right. exists [], l, lines. split; [reflexivity|].
      split; [constructor|exact Hl].
Qed.

(** X1. For a readable file and any comment marker, [get_header_size]
    returns [b] exactly when line [b + 1] is the first line that does not
    start with the marker, all lines before it starting with it; it
    returns [None] exactly when every line starts with the marker.  So a
    result [b] satisfies [-1 <= b < number of lines]. *)
Theorem header_scan_characterised
  (fs : node) (filepath : Path) (comment content : string) :
  open_read fs filepath = Ok content ->
  (forall b,
      get_header_size fs filepath comment = Ok (Some b)
      <-> exists comments line rest,
            Py.readlines content = comments ++ line :: rest
            /\ Forall (fun l => Py.startswith l comment = true) comments
            /\ Py.startswith line comment = false
            /\ b = Z.of_nat (List.length comments) - 1)
  /\ (get_header_size fs filepath comment = Ok None
      <-> Forall (fun l => Py.startswith l comment = true)
            (Py.readlines content))
  /\ (forall b,
         get_header_size fs filepath comment = Ok (Some b) ->
         -1 <= b < Z.of_nat (List.length (Py.readlines content))).
Proof.
  intros Hopen.
  assert (Hscan : get_header_size fs filepath comment
                  = Ok (get_header_size_loop comment
                          (Py.enumerate_from 0 (Py.readlines content)))).
  { unfold get_header_size. rewrite Hopen. reflexivity. }
  rewrite Hscan.
  destruct (comments_then_data comment (Py.readlines content))
    as [Hall|[comments [line [rest [Hlines [Hall Hline]]]]]].
  - rewrite (scan_only_comments comment 0 _ Hall).
    split; [|split].
    + intros b. split; [discriminate|].
      intros [cs [l [r [E [_ [Hl _]]]]]]. exfalso.
      rewrite E in Hall. apply Forall_app in Hall. destruct Hall as [_ Hall].
      inversion Hall; subst. congruence.
    + split; auto.
    + intros b H. discriminate H.
  - rewrite Hlines, (scan_until_data comment 0 comments line rest Hall Hline).
    split; [|split].
    + intros b. split.
      * intros H. inversion H; subst. exists comments, line, rest.
        repeat split; auto.
      * intros [cs [l [r [E [Hcs [Hl ->]]]]]].
        assert (Hlen : List.length cs = List.length comments).
        { destruct (Nat.lt_trichotomy (List.length cs) (List.length comments))
            as [Hlt|[Heq|Hgt]]; [exfalso|exact Heq|exfalso].
          - assert (Hn : nth_error (comments ++ line :: rest) (List.length cs)
                         = Some l).
            { rewrite E, nth_error_app2 by lia.
              rewrite Nat.sub_diag. reflexivity. }
            rewrite nth_error_app1 in Hn by lia.
            apply nth_error_In in Hn. rewrite Forall_forall in Hall.
            rewrite (Hall l Hn) in Hl. discriminate.
          - assert (Hn : nth_error (cs ++ l :: r) (List.length comments)
                         = Some line).
            { rewrite <- E, nth_error_app2 by lia.
              rewrite Nat.sub_diag. reflexivity. }
            rewrite nth_error_app1 in Hn by lia.
            apply nth_error_In in Hn. rewrite Forall_forall in Hcs.
            rewrite (Hcs line Hn) in Hline. discriminate. }
        rewrite Hlen. reflexivity.
    + split; [discriminate|]. intros Hbad. exfalso.
      apply Forall_app in Hbad.
      destruct Hbad as [_ Hbad]. inversion Hbad; subst. congruence.
    + intros b H. inversion H; subst. rewrite length_app. cbn [List.length].
      lia.
Qed.

(** ** [count_columns] outside the file and as a count of cells *)

(** The number of occurrences of one character. *)
Lemma count_from_char_nil (c : ascii) :
  Py.count_from (String c EmptyString) O EmptyString = O.
Proof. reflexivity. Qed.

Lemma count_from_char_cons (c a : ascii) (s : string) :
  Py.count_from (String c EmptyString) O (String a s)
  = if Ascii.eqb a c
    then S (Py.count_from (String c EmptyString) O s)
    else Py.count_from (String c EmptyString) O s.
Proof.
  cbn -[ascii_dec].
  destruct (Ascii.eqb_spec a c) as [->|Hne].
  - destruct (ascii_dec c c) as [_|n]; [|contradiction].
    destruct s; reflexivity.
  - destruct (ascii_dec c a) as [e|_]; [congruence|reflexivity].
Qed.

Lemma count_in_empty (sep : string) :
  sep <> EmptyString -> Py.count EmptyString sep = 0.
Proof. destruct sep; [contradiction|reflexivity]. Qed.

(** X2. When [line_no] selects no line of the file, or the file cannot
    be read, [count_columns] returns 0 for every separator that is not
    empty: no error is raised. *)
Theorem count_columns_without_line
  (fs : node) (filepath : Path) (sep : string) (line_no : Z) :
  sep <> EmptyString ->
  line_no < 1
  \/ Z.of_nat (List.length (linecache.getlines fs filepath)) < line_no ->
  count_columns fs filepath sep line_no = 0.
Proof.
  intros Hsep Hout. unfold count_columns, linecache.getline.
  destruct (Z.leb_spec 1 line_no) as [H1|H1];
    destruct (Z.leb_spec line_no
                (Z.of_nat (List.length (linecache.getlines fs filepath))))
      as [H2|H2]; cbn [andb]; try lia;
    rewrite count_in_empty by exact Hsep; reflexivity.
Qed.


Lemma split_length (s : string) (c : ascii) :
  List.length (Py.split s c)
  = S (Py.count_from (String c EmptyString) O s).
Proof.
  induction s as [|a s IH]; [reflexivity|].
  rewrite count_from_char_cons. cbn [Py.split].
  destruct (Ascii.eqb a c).
  - cbn [List.length]. rewrite IH. reflexivity.
  - destruct (Py.split s c) as [|w ws]; [discriminate IH|exact IH].
Qed.

Lemma count_chomp (c : ascii) (l : string) :
  Ascii.eqb c Py.NL = false ->
  Py.count_from (String c EmptyString) O (pd.chomp l)
  = Py.count_from (String c EmptyString) O l.
Proof.
  intros Hc. induction l as [|a l IH]; [reflexivity|].
  cbn [pd.chomp]. destruct l as [|b l].
  - destruct (Ascii.eqb_spec a Py.NL) as [->|Hne]; [|reflexivity].
    rewrite count_from_char_cons.
    rewrite Ascii.eqb_sym, Hc. reflexivity.
  - rewrite !(count_from_char_cons c a), IH. reflexivity.
Qed.

(** X3. For a line of the file and a one-character separator other than
    the line feed, [count_columns] is the number of cells that splitting
    the line (without its line feed) at the separator gives. *)
Theorem count_columns_counts_cells
  (fs : node) (filepath : Path) (sep : ascii) (line_no : Z) :
  Ascii.eqb sep Py.NL = false ->
  1 <= line_no <= Z.of_nat (List.length (linecache.getlines fs filepath)) ->
  count_columns fs filepath (String sep EmptyString) line_no
  = Z.of_nat
      (List.length
         (Py.split (pd.chomp (linecache.getline fs filepath line_no)) sep)).
Proof.
  intros Hsep Hline.
  unfold count_columns. rewrite split_length, count_chomp by exact Hsep.
  unfold Py.count at 1.
  assert (Hnl : Py.count (linecache.getline fs filepath line_no)
                  (String Py.NL EmptyString) = 1).
  { unfold linecache.getline.
    destruct (Z.leb_spec 1 line_no); [|lia].
    destruct (Z.leb_spec line_no
                (Z.of_nat (List.length (linecache.getlines fs filepath))));
      [|lia].
    cbn [andb]. pose proof (getlines_one_feed fs filepath) as Hall.
    rewrite Forall_forall in Hall. unfold Py.count.
    fold (line_feeds
            (nth (Z.to_nat (line_no - 1)) (linecache.getlines fs filepath) "")).
    rewrite Hall; [reflexivity|]. apply nth_In. lia. }
  rewrite Hnl. lia.
Qed.

(** ** What [unnest_columns] keeps and when it fails *)

Lemma foldM_fixed {A S : Type} (f : S -> A -> result S) (xs : list A) (s : S) :
  (forall x, In x xs -> f s x = Ok s) -> foldM f xs s = Ok s.
Proof.
  induction xs as [|x xs IH]; intros H; simpl; [reflexivity|].
  rewrite H by (left; reflexivity). cbn [Py.bind]. apply IH.
  intros y Hy. apply H. right. exact Hy.
Qed.

Lemma find_label_of_member (key : string) (s : Series F)
  (cols : list (string * Series F)) :
  NoDup (map fst cols) -> In (key, s) cols -> pd.find_label key cols = Some s.
Proof.
  induction cols as [|[k v] cols IH]; simpl; intros Hnd Hin; [contradiction|].
  inversion Hnd as [|? ? Hk Hnd']; subst.
  destruct Hin as [E|Hin].
  - inversion E; subst. rewrite String.eqb_refl. reflexivity.
  - destruct (String.eqb_spec k key) as [->|Hne].
    + exfalso. apply Hk. apply (in_map fst) in Hin. exact Hin.
    + apply IH; assumption.
Qed.

Lemma classify_plain (s : Series F) :
  dtype_of s = float64
  \/ (exists x, pd.iloc_last s = Ok x /\ looks_numeric x = Ok false) ->
  classify s = Ok None.
Proof.
  unfold classify. intros [Hd|[x [Hlast Hnum]]].
  - rewrite Hd. reflexivity.
  - destruct (dtype_eqb (dtype_of s) object); [|reflexivity].
    rewrite Hlast. cbn [Py.bind]. rewrite Hnum. reflexivity.
Qed.

(** X4. A table with distinct labels whose columns are numeric, or text
    whose last cell does not look numeric, is returned as it is: nothing
    is inserted, dropped or reordered. *)
Theorem unnest_columns_leaves_plain_tables (dat : DataFrame F) :
  NoDup (pd.labels dat) ->
  Forall (fun c =>
            dtype_of (snd c) = float64
            \/ (exists x, pd.iloc_last (snd c) = Ok x
                          /\ looks_numeric x = Ok false))
    (columns dat) ->
  unnest_columns dat = Ok dat.
Proof.
  intros Hnd Hplain. unfold unnest_columns. rewrite keys_of_columns.
  rewrite foldM_fixed.
  - cbn [Py.bind fst snd]. unfold pd.drop. cbn [forallb].
    rewrite filter_all by reflexivity. destruct dat; reflexivity.
  - intros kd Hin. apply in_map_iff in Hin. destruct Hin as [[key s] [<- Hc]].
    cbn [fst snd]. apply classify_none_step.
    + apply classify_plain. rewrite Forall_forall in Hplain.
      exact (Hplain (key, s) Hc).
    + apply find_label_of_member; assumption.
Qed.

Lemma insert_keeps_index (d d' : DataFrame F) (loc : nat) (label : string)
  (v : list F) :
  pd.insert d loc label v = Ok d' ->
  index d' = index d /\ index_name d' = index_name d
  /\ forall l, In l (pd.labels d) -> In l (pd.labels d').
Proof.
  unfold pd.insert. intros H.
  destruct (pd.has_label d label); [discriminate|].
  destruct (negb (List.length v =? pd.len d)%nat); [discriminate|].
  destruct (List.length (columns d) <? loc)%nat; [discriminate|].
  inversion H; subst. cbn [index index_name]. repeat split.
  intros l Hl. unfold pd.labels in *. cbn [columns].
  rewrite <- (firstn_skipn loc (columns d)) in Hl.
  rewrite map_app in *. cbn [map]. apply in_app_or in Hl.
  apply in_or_app. destruct Hl as [Hl|Hl]; [left; exact Hl|].
  right. right. exact Hl.
Qed.

Lemma insert_loop_keeps_index (key : string) (pos : nat) (field : np.ndarray)
  (js : list nat) :
  forall d d',
    foldM (insert_component key pos field) js d = Ok d' ->
    index d' = index d /\ index_name d' = index_name d
    /\ forall l, In l (pd.labels d) -> In l (pd.labels d').
Proof.
  induction js as [|j js IH]; intros d d'; simpl.
  - intros H; inversion H; subst. auto.
  - destruct (insert_component key pos field d j) as [d1|] eqn:E;
      cbn [Py.bind]; [|discriminate].
    intros H. destruct (IH d1 d' H) as [Hi [Hn Hl]].
    unfold insert_component in E.
    destruct (np.column field j); cbn [Py.bind] in E; [|discriminate].
    destruct (insert_keeps_index _ _ _ _ _ E) as [Hi1 [Hn1 Hl1]].
    repeat split; [congruence|congruence|auto].
Qed.

Lemma set_label_keeps_labels (key : string) (s : Series F)
  (cols : list (string * Series F)) (l : string) :
  In l (map fst cols) -> In l (map fst (pd.set_label key s cols)).
Proof.
  induction cols as [|[k v] cols IH]; simpl; intros H; [contradiction|].
  destruct (String.eqb_spec k key) as [->|Hne]; simpl.
  - exact H.
  - destruct H as [H|H]; [left; exact H|right; apply IH; exact H].
Qed.

Lemma unnest_column_keeps_index (d d' : DataFrame F) (n n' : list string)
  (kd : string * dtype) :
  unnest_column (d, n) kd = Ok (d', n') ->
  index d' = index d /\ index_name d' = index_name d
  /\ forall l, In l (pd.labels d) -> In l (pd.labels d').
Proof.
  destruct kd as [key dt]. unfold unnest_column. intros H.
  destruct (dtype_eqb dt object); [|inversion H; subst; auto].
  destruct (pd.getitem d key) as [s0|]; cbn [Py.bind] in H; [|discriminate].
  destruct (pd.iloc_last s0) as [x|]; cbn [Py.bind] in H; [|discriminate].
  destruct (looks_numeric x) as [[|]|]; cbn [Py.bind] in H;
    [|inversion H; subst; auto|discriminate].
  destruct (mapM fn (values s0)) as [arrays|]; cbn [Py.bind] in H;
    [|discriminate].
  destruct (pd.index_of key _) as [i|]; cbn [Py.bind] in H; [|discriminate].
  destruct (np.array ragged_as_objects arrays) as [field|];
    cbn [Py.bind] in H; [|discriminate].
  destruct (foldM _ _ _) as [d1|] eqn:E; cbn [Py.bind] in H; [|discriminate].
  inversion H; subst.
  destruct (insert_loop_keeps_index _ _ _ _ _ _ E) as [Hi [Hn Hl]].
  cbn [pd.setitem index index_name] in Hi, Hn.
  repeat split; [exact Hi|exact Hn|].
  intros l Hin. apply Hl. unfold pd.labels, pd.setitem. cbn [columns].
  apply set_label_keeps_labels. exact Hin.
Qed.

Lemma unnest_loop_keeps_index (keys : list (string * dtype)) :
  forall st st',
    foldM unnest_column keys st = Ok st' ->
    index (fst st') = index (fst st)
    /\ index_name (fst st') = index_name (fst st)
    /\ forall l, In l (pd.labels (fst st)) -> In l (pd.labels (fst st')).
Proof.
  induction keys as [|kd keys IH]; intros st st'; simpl.
  - intros H; inversion H; subst. auto.
  - destruct (unnest_column st kd) as [st1|] eqn:E; cbn [Py.bind];
      [|discriminate].
    intros H. destruct (IH st1 st' H) as [Hi [Hn Hl]].
    destruct st as [d n], st1 as [d1 n1].
    destruct (unnest_column_keeps_index _ _ _ _ _ E) as [Hi1 [Hn1 Hl1]].
    cbn [fst] in *. repeat split; [congruence|congruence|auto].
Qed.

(** X5. Whenever [unnest_columns] returns a table, its row index and the
    name of the index are those of the table it was given. *)
Theorem unnest_columns_keeps_index (dat dat' : DataFrame F) :
  unnest_columns dat = Ok dat' ->
  index dat' = index dat /\ index_name dat' = index_name dat.
Proof.
  unfold unnest_columns. intros H.
  destruct (foldM unnest_column _ _) as [[d n]|] eqn:E; cbn [Py.bind] in H;
    [|discriminate].
  destruct (unnest_loop_keeps_index _ _ _ E) as [Hi [Hn _]].
  cbn [fst snd] in *. unfold pd.drop in H.
  destruct (forallb (pd.has_label d) n); [|discriminate].
  inversion H; subst. cbn [index index_name]. split; assumption.
Qed.

Lemma insert_loop_collides (key : string) (pos : nat) (field : np.ndarray)
  (j : nat) (js : list nat) :
  forall d,
    In j js -> In (component_label key j) (pd.labels d) ->
    exists e, foldM (insert_component key pos field) js d = Raise e.
Proof.
  induction js as [|j0 js IH]; intros d Hj Hl; [contradiction|].
  cbn [foldM].
  destruct (insert_component key pos field d j0) as [d1|e] eqn:E;
    cbn [Py.bind]; [|exists e; reflexivity].
  unfold insert_component in E.
  destruct (np.column field j0) as [v|]; cbn [Py.bind] in E; [|discriminate].
  destruct Hj as [->|Hj].
  - exfalso. unfold pd.insert in E.
    rewrite (has_label_true d _ Hl) in E. discriminate.
  - apply IH; [exact Hj|].
    destruct (insert_keeps_index _ _ _ _ _ E) as [_ [_ Hkeep]]. auto.
Qed.

(** One turn of the loop on a tuple column one of whose component labels
    is taken. *)
Lemma unnest_column_collides (d : DataFrame F) (nested : list string)
  (key : string) (cells : list (cell F)) (x : cell F) (w j : nat)
  (rows : list (list F)) :
  pd.find_label key (columns d) = Some (mkSeries object cells) ->
  pd.iloc_last (mkSeries object cells) = Ok x ->
  looks_numeric x = Ok true ->
  mapM fn cells = Ok rows ->
  Forall (fun r => List.length r = w) rows ->
  (j < w)%nat ->
  In (component_label key j) (pd.labels d) ->
  exists e, unnest_column (d, nested) (key, object) = Raise e.
Proof.
  intros Hfind Hlast Hnum Hparse Hall Hj Hl.
  assert (Hne : rows <> []).
  { intros ->. apply mapM_length in Hparse. cbn [List.length] in Hparse.
    destruct cells; [discriminate Hlast|discriminate Hparse]. }
  unfold unnest_column. cbn [dtype_eqb]. unfold pd.getitem.
  rewrite Hfind. cbn [Py.bind]. rewrite Hlast. cbn [Py.bind].
  rewrite Hnum. cbn [Py.bind values]. rewrite Hparse. cbn [Py.bind].
  destruct (index_of_in key
              (pd.labels (pd.setitem d key (mkSeries object (map Arr rows)))))
    as [i Hi].
  { unfold pd.labels, pd.setitem. cbn [columns]. apply set_label_has. }
  rewrite Hi. cbn [Py.bind].
  rewrite (array_of_uniform w rows Hne Hall). cbn [Py.bind np.shape_last].
  destruct (insert_loop_collides key (S i) (np.Array2 w rows) j (seq 0 w)
              (pd.setitem d key (mkSeries object (map Arr rows))))
    as [e He].
  - apply in_seq. lia.
  - unfold pd.labels, pd.setitem. cbn [columns].
    apply set_label_keeps_labels. exact Hl.
  - rewrite He. exists e. reflexivity.
Qed.

(** X6. In a table with distinct labels, a tuple column one of whose
    component labels [key.j] is already the label of a column makes
    [unnest_columns] raise: no column is overwritten and no label is
    doubled. *)
Theorem component_label_taken_raises
  (iname : option string) (idx : list (cell F))
  (pre post : list (string * Series F)) (key : string)
  (cells : list (cell F)) (x : cell F) (w j : nat) (rows : list (list F)) :
  NoDup (map fst (pre ++ (key, mkSeries object cells) :: post)) ->
  pd.iloc_last (mkSeries object cells) = Ok x ->
  looks_numeric x = Ok true ->
  mapM fn cells = Ok rows ->
  Forall (fun r => List.length r = w) rows ->
  (j < w)%nat ->
  In (component_label key j) (map fst (pre ++ post)) ->
  exists e,
    unnest_columns
      (mkFrame iname idx (pre ++ (key, mkSeries object cells) :: post))
    = Raise e.
Proof.
  intros Hnd Hlast Hnum Hparse Hall Hj Htaken.
  assert (Hkpre : ~ In key (map fst pre)).
  { rewrite map_app in Hnd. cbn [map fst] in Hnd.
    apply NoDup_remove_2 in Hnd. intros H. apply Hnd.
    apply in_or_app. left. exact H. }
  unfold unnest_columns. rewrite keys_of_columns. cbn [columns].
  rewrite map_app. cbn [map fst snd dtype_of]. rewrite foldM_app.
  destruct (foldM unnest_column
              (map (fun c => (fst c, dtype_of (snd c))) pre)
              (mkFrame iname idx (pre ++ (key, mkSeries object cells) :: post),
               [])) as [[d n]|e0] eqn:Epre; cbn [Py.bind foldM];
    [|exists e0; reflexivity].
  destruct (unnest_column_collides d n key cells x w j rows) as [e He];
    try assumption.
  - apply (unnest_loop_preserves key (mkSeries object cells) _ _ _ Epre).
    + rewrite map_map. cbn [fst]. exact Hkpre.
    + cbn [fst columns]. rewrite find_label_app by exact Hkpre.
      cbn [pd.find_label]. rewrite String.eqb_refl. reflexivity.
  - destruct (unnest_loop_keeps_index _ _ _ Epre) as [_ [_ Hkeep]].
    apply Hkeep. cbn [fst]. unfold pd.labels. cbn [columns].
    rewrite map_app in *. cbn [map fst]. apply in_app_or in Htaken.
    apply in_or_app. destruct Htaken as [H|H]; [left; exact H|].
    right. right. exact H.
  - rewrite He. exists e. reflexivity.
Qed.

Lemma mapM_raises {A B : Type} (f : A -> result B) (xs : list A) (x : A)
  (e : exn) :
  In x xs -> f x = Raise e -> exists e', mapM f xs = Raise e'.
Proof.
  induction xs as [|y xs IH]; intros Hin Hx; [contradiction|].
  cbn [mapM]. destruct (f y) as [b|e0] eqn:Ey; cbn [Py.bind];
    [|exists e0; reflexivity].
  destruct Hin as [->|Hin]; [congruence|].
  destruct (IH Hin Hx) as [e' ->]. exists e'. reflexivity.
Qed.

Lemma mapM_error_source {A B : Type} (f : A -> result B) (xs : list A)
  (e : exn) :
  mapM f xs = Raise e -> exists x, In x xs /\ f x = Raise e.
Proof.
  induction xs as [|y xs IH]; cbn [mapM]; [discriminate|].
  destruct (f y) as [b|e0] eqn:Ey; cbn [Py.bind].
  - destruct (mapM f xs) as [bs|e1]; cbn [Py.bind]; [discriminate|].
    intros H; inversion H; subst. destruct (IH eq_refl) as [x [Hx Hf]].
    exists x. split; [right; exact Hx|exact Hf].
  - intros H; inversion H; subst. exists y. split; [left; reflexivity|exact Ey].
Qed.

Lemma fn_text_error (s : string) (e : exn) :
  fn (Str s) = Raise e -> e = ValueError.
Proof.
  cbn [fn]. unfold np.array_of_tokens. intros H.
  apply mapM_error_source in H. destruct H as [t [_ Ht]].
  destruct (float_of_string t); [discriminate|]. inversion Ht. reflexivity.
Qed.

(** X7. In a table with distinct labels, a text column whose last cell
    looks numeric but one of whose cells holds a token that is no float
    makes [unnest_columns] raise; when the cells are all text and the
    columns before it numeric, the error is [ValueError]. *)
Theorem unparsable_cell_raises
  (iname : option string) (idx : list (cell F))
  (pre post : list (string * Series F)) (key : string)
  (cells : list (cell F)) (x : cell F) (s token : string) :
  NoDup (map fst (pre ++ (key, mkSeries object cells) :: post)) ->
  pd.iloc_last (mkSeries object cells) = Ok x ->
  looks_numeric x = Ok true ->
  In (Str s) cells ->
  In token
    (Py.split_ws (Py.remove_char (Py.remove_char s "("%char) ")"%char)) ->
  float_of_string token = None ->
  exists e,
    unnest_columns
      (mkFrame iname idx (pre ++ (key, mkSeries object cells) :: post))
    = Raise e
    /\ (Forall (fun c => dtype_of (snd c) = float64) pre ->
        Forall (fun c => exists t, c = Str t) cells ->
        e = ValueError).
Proof.
  intros Hnd Hlast Hnum Hcell Htoken Hfloat.
  assert (Hkpre : ~ In key (map fst pre)).
  { rewrite map_app in Hnd. cbn [map fst] in Hnd.
    apply NoDup_remove_2 in Hnd. intros H. apply Hnd.
    apply in_or_app. left. exact H. }
  assert (Hcellfails : exists e1, fn (Str s) = Raise e1).
  { cbn [fn]. unfold np.array_of_tokens.
    apply (mapM_raises _ _ token ValueError Htoken).
    rewrite Hfloat. reflexivity. }
  destruct Hcellfails as [e1 He1].
  destruct (mapM_raises fn cells (Str s) e1 Hcell He1) as [e0 Hparse].
  assert (Hstep : forall d n,
             pd.find_label key (columns d) = Some (mkSeries object cells) ->
             unnest_column (d, n) (key, object) = Raise e0).
  { intros d n Hfind. unfold unnest_column. cbn [dtype_eqb].
    unfold pd.getitem. rewrite Hfind. cbn [Py.bind]. rewrite Hlast.
    cbn [Py.bind]. rewrite Hnum. cbn [Py.bind values]. rewrite Hparse.
    reflexivity. }
  unfold unnest_columns. rewrite keys_of_columns. cbn [columns].
  rewrite map_app. cbn [map fst snd dtype_of]. rewrite foldM_app.
  destruct (foldM unnest_column
              (map (fun c => (fst c, dtype_of (snd c))) pre)
              (mkFrame iname idx (pre ++ (key, mkSeries object cells) :: post),
               [])) as [[d n]|e2] eqn:Epre; cbn [Py.bind foldM].
  - rewrite Hstep.
    + cbn [Py.bind]. exists e0. split; [reflexivity|].
      intros _ Htext. apply mapM_error_source in Hparse.
      destruct Hparse as [c [Hc Hf]]. rewrite Forall_forall in Htext.
      destruct (Htext c Hc) as [t ->]. eapply fn_text_error. exact Hf.
    + apply (unnest_loop_preserves key (mkSeries object cells) _ _ _ Epre).
      * rewrite map_map. cbn [fst]. exact Hkpre.
      * cbn [fst columns]. rewrite find_label_app by exact Hkpre.
        cbn [pd.find_label]. rewrite String.eqb_refl. reflexivity.
  - exists e2. split; [reflexivity|].
    intros Hpre. rewrite unnest_untouched in Epre by exact Hpre. discriminate.
Qed.

(** ** The names [load_xy] builds *)

Lemma len_from_length (i : nat) (field_names : list string) :
  len_from i field_names
  = Z.max 0 (Z.of_nat (List.length field_names) - Z.of_nat i).
Proof.
  unfold len_from, Py.slice_from. rewrite length_skipn. lia.
Qed.

Lemma position_three_has_columns (field_names : list string)
  (columns_count : Z) :
  first_value_column field_names columns_count = Ok 3 -> 3 < columns_count.
Proof.
  unfold first_value_column, Py.mod_.
  destruct (len_from 1 field_names =? 0); [discriminate|]. cbn [Py.bind].
  destruct ((columns_count - 1) mod len_from 1 field_names =? 0);
    [discriminate|].
  destruct (Z.gtb_spec columns_count 3) as [H|H]; [|discriminate].
  intros _. exact H.
Qed.

Lemma first_value_column_error (field_names : list string)
  (columns_count : Z) (e : exn) :
  first_value_column field_names columns_count = Raise e ->
  e = ZeroDivisionError.
Proof.
  unfold first_value_column, Py.mod_.
  destruct (len_from 1 field_names =? 0); cbn [Py.bind];
    [intros H; inversion H; reflexivity|].
  destruct ((columns_count - 1) mod len_from 1 field_names =? 0);
    [discriminate|].
  destruct (columns_count >? 3); [|discriminate].
  destruct (len_from 3 field_names =? 0); cbn [Py.bind];
    [intros H; inversion H; reflexivity|].
  destruct ((columns_count - 3) mod len_from 3 field_names =? 0);
    discriminate.
Qed.

(** X10. The choice of the position raises exactly when no token follows
    the first one, or when at most three tokens meet more than three
    columns that do not divide evenly among the tokens after the first;
    the error is [ZeroDivisionError], and any position chosen is 0, 1
    or 3. *)
Theorem first_value_column_raises_iff (field_names : list string)
  (columns_count : Z) :
  let n := Z.of_nat (List.length field_names) in
  ((exists e, first_value_column field_names columns_count = Raise e)
   <-> n <= 1
       \/ (n <= 3 /\ 3 < columns_count /\ (columns_count - 1) mod (n - 1) <> 0))
  /\ (forall e,
         first_value_column field_names columns_count = Raise e ->
         e = ZeroDivisionError)
  /\ (forall pos,
         first_value_column field_names columns_count = Ok pos ->
         pos = 0 \/ pos = 1 \/ pos = 3).
Proof.
  intros n. split; [|split].
  - unfold first_value_column, Py.mod_. rewrite !len_from_length. fold n.
    change (Z.of_nat 1) with 1. change (Z.of_nat 3) with 3.
    destruct (Z.eqb_spec (Z.max 0 (n - 1)) 0) as [E1|N1]; cbn [Py.bind].
    { split; [intros _; left; lia|intros _; eexists; reflexivity]. }
    assert (Hn : 1 < n) by lia.
    replace (Z.max 0 (n - 1)) with (n - 1) in * by lia.
    destruct (Z.eqb_spec ((columns_count - 1) mod (n - 1)) 0) as [E|N].
    { split; [intros [e H]; discriminate|].
      intros [H|[_ [_ H]]]; [lia|contradiction]. }
    destruct (Z.gtb_spec columns_count 3) as [Hc|Hc].
    + destruct (Z.eqb_spec (Z.max 0 (n - 3)) 0) as [E3|N3]; cbn [Py.bind].
      * split; [intros _; right; repeat split; [lia|lia|exact N]|].
        intros _. eexists. reflexivity.
      * destruct ((columns_count - 3) mod Z.max 0 (n - 3) =? 0);
          (split; [intros [e H]; discriminate|]);
          intros [H|[H _]]; lia.
    + split; [intros [e H]; discriminate|].
      intros [H|[_ [H _]]]; lia.
  - apply first_value_column_error.
  - intros pos H. destruct (first_value_column_cases _ _ _ H)
      as [_ [[-> _]|[[-> _]|[-> _]]]]; auto.
Qed.

Lemma field_components_quotient (field_name : string) (a : Z) (d : positive) :
  field_components field_name (Float (a # d))
  = if a <=? Z.pos d then Ok [field_name]
    else if a =? 3 * Z.pos d then Ok (suffixed ["x"; "y"; "z"] field_name)
    else if a =? 6 * Z.pos d
         then Ok (suffixed ["xx"; "xy"; "xz"; "yy"; "yz"; "zz"] field_name)
         else Raise TypeError.
Proof.
  unfold field_components, Py.le, Py.eq, Qle_bool, Qeq_bool.
  cbn [Qnum Qden inject_Z].
  replace (a * 1) with a by lia. replace (1 * Z.pos d) with (Z.pos d) by lia.
  destruct (a <=? Z.pos d); [reflexivity|].
  destruct (a =? 3 * Z.pos d); [reflexivity|].
  destruct (a =? 6 * Z.pos d); reflexivity.
Qed.

Lemma append_names (g : string -> result (list string))
  (h : string -> list string) (field_names : list string) :
  (forall t, In t field_names -> g t = Ok (h t)) ->
  forall names,
    foldM (fun names field_name =>
             more <- g field_name ;; Ok (names ++ more))
      field_names names
    = Ok (names ++ flat_map h field_names).
Proof.
  induction field_names as [|t ts IH]; intros Hg names; cbn [foldM flat_map].
  - rewrite app_nil_r. reflexivity.
  - rewrite Hg by (left; reflexivity). cbn [Py.bind].
    rewrite IH by (intros u Hu; apply Hg; right; exact Hu).
    rewrite <- app_assoc. reflexivity.
Qed.

Lemma append_names_raises (g : string -> result (list string)) (e : exn)
  (t : string) (ts names : list string) :
  g t = Raise e ->
  foldM (fun names field_name =>
           more <- g field_name ;; Ok (names ++ more))
    (t :: ts) names
  = Raise e.
Proof. intros Hg. cbn [foldM]. rewrite Hg. reflexivity. Qed.

(** The names for a chosen position, by the quotient of the remaining
    columns and the remaining tokens. *)
Lemma construct_names_quotient (first : string) (others : list string)
  (columns_count pos : Z) (d : positive) (heads : list string) :
  len_from (Z.to_nat pos) (first :: others) = Z.pos d ->
  field_components first (Int pos) = Ok heads ->
  let a := columns_count - pos in
  let rest := Py.slice_from (Z.to_nat pos) (first :: others) in
  construct_names (first :: others) columns_count pos
  = if a <=? Z.pos d then Ok (heads ++ rest)
    else if a =? 3 * Z.pos d
         then Ok (heads ++ flat_map (suffixed ["x"; "y"; "z"]) rest)
         else if a =? 6 * Z.pos d
              then Ok (heads
                         ++ flat_map
                              (suffixed ["xx"; "xy"; "xz"; "yy"; "yz"; "zz"])
                              rest)
              else Raise TypeError.
Proof.
  intros Hlen Hheads a rest. unfold construct_names.
  rewrite Hlen. cbn [Py.truediv Py.bind]. rewrite Hheads. cbn [Py.bind].
  fold a. fold rest.
  assert (Hrest : rest <> []).
  { subst rest. unfold len_from in Hlen. intros E. rewrite E in Hlen.
    discriminate Hlen. }
  pose proof (fun t => field_components_quotient t a d) as Hq.
  destruct (a <=? Z.pos d).
  { rewrite (append_names _ (fun t => [t])) by (intros; apply Hq).
    f_equal. f_equal. clear. induction rest; simpl; congruence. }
  destruct (a =? 3 * Z.pos d).
  { rewrite (append_names _ (suffixed ["x"; "y"; "z"])) by (intros; apply Hq).
    reflexivity. }
  destruct (a =? 6 * Z.pos d).
  { rewrite (append_names _ (suffixed ["xx"; "xy"; "xz"; "yy"; "yz"; "zz"]))
      by (intros; apply Hq).
    reflexivity. }
  destruct rest as [|t ts]; [contradiction|].
  apply append_names_raises. apply Hq.
Qed.

(** C2, as the code has it.  When the position is chosen and the columns
    after it do not divide evenly among the remaining tokens, the position
    is 0 and nothing checks the quotient: with more columns than tokens
    [range] is handed a float and [TypeError] is raised; with fewer
    columns than tokens a list of names is returned. *)
Theorem uneven_columns_are_not_checked
  (field_names : list string) (columns_count pos : Z) :
  first_value_column field_names columns_count = Ok pos ->
  (columns_count - pos) mod (len_from (Z.to_nat pos) field_names) <> 0 ->
  pos = 0
  /\ columns_count <> Z.of_nat (List.length field_names)
  /\ (Z.of_nat (List.length field_names) < columns_count ->
      infer_names field_names columns_count = Raise TypeError)
  /\ (columns_count < Z.of_nat (List.length field_names) ->
      exists names, infer_names field_names columns_count = Ok names).
Proof.
  intros Hpos Hmod.
  destruct (first_value_column_cases _ _ _ Hpos)
    as [H1 [[-> E]|[[-> [_ E]]|[-> _]]]].
  - exfalso. apply Hmod. exact E.
  - exfalso. apply Hmod. exact E.
  - split; [reflexivity|].
    destruct field_names as [|first others].
    { exfalso. apply H1. reflexivity. }
    destruct (Z.of_nat (List.length (first :: others))) as [|d|d] eqn:Ed;
      [discriminate Ed| |cbn [List.length] in Ed; lia].
    assert (Hlen : len_from (Z.to_nat 0) (first :: others) = Z.pos d).
    { rewrite len_from_length. cbn [Z.to_nat]. lia. }
    rewrite Hlen, Z.sub_0_r in Hmod.
    assert (Hnames : infer_names (first :: others) columns_count
                     = construct_names (first :: others) columns_count 0).
    { unfold infer_names. rewrite Hpos. reflexivity. }
    rewrite Hnames.
    rewrite (construct_names_quotient first others columns_count 0 d [first]
               Hlen eq_refl).
    rewrite Z.sub_0_r.
    split; [|split].
    + intros ->. apply Hmod. apply Z_mod_same_full.
    + intros Hgt. destruct (Z.leb_spec columns_count (Z.pos d)); [lia|].
      destruct (Z.eqb_spec columns_count (3 * Z.pos d)) as [E|_].
      { exfalso. apply Hmod. rewrite E. apply Z_mod_mult. }
      destruct (Z.eqb_spec columns_count (6 * Z.pos d)) as [E|_].
      { exfalso. apply Hmod. rewrite E. apply Z_mod_mult. }
      reflexivity.
    + intros Hlt. destruct (Z.leb_spec columns_count (Z.pos d)); [|lia].
      eexists. reflexivity.
Qed.

(** X12. With an index token followed by field tokens and [k] columns per
    field, [load_xy] builds: the tokens themselves for [k <= 1]; each
    field with [.x .y .z] for [k = 3]; each field with the six tensor
    suffixes for [k = 6]; and raises [TypeError] for every other [k],
    because the component count is then a float handed to [range]. *)
Theorem names_with_one_index_column
  (index_token : string) (fields : list string) (k : Z) :
  fields <> [] ->
  infer_names (index_token :: fields)
    (1 + k * Z.of_nat (List.length fields))
  = if k <=? 1 then Ok (index_token :: fields)
    else if k =? 3
         then Ok (index_token :: flat_map (suffixed ["x"; "y"; "z"]) fields)
         else if k =? 6
              then Ok (index_token
                         :: flat_map
                              (suffixed ["xx"; "xy"; "xz"; "yy"; "yz"; "zz"])
                              fields)
              else Raise TypeError.
Proof.
  intros Hne.
  assert (Hpos : exists d, Z.of_nat (List.length fields) = Z.pos d).
  { destruct fields; [contradiction|]. cbn [List.length].
    destruct (Z.of_nat (S (List.length fields))) eqn:E; try lia.
    eexists. reflexivity. }
  destruct Hpos as [d Hd].
  assert (Hfirst : first_value_column (index_token :: fields)
                     (1 + k * Z.of_nat (List.length fields)) = Ok 1).
  { unfold first_value_column, Py.mod_, len_from, Py.slice_from.
    cbn [skipn]. rewrite Hd. cbn [Z.eqb Py.bind].
    replace (1 + k * Z.pos d - 1) with (k * Z.pos d) by lia.
    rewrite Z.mod_mul by lia. reflexivity. }
  unfold infer_names. rewrite Hfirst. cbn [Py.bind].
  rewrite (construct_names_quotient index_token fields _ 1 d [index_token]).
  - cbn [Z.to_nat Pos.to_nat Pos.iter_op Nat.add Py.slice_from skipn app].
    unfold Py.slice_from. cbn [skipn Pos.to_nat Pos.iter_op]. rewrite Hd.
    replace (1 + k * Z.pos d - 1) with (k * Z.pos d) by lia.
    destruct (Z.leb_spec k 1) as [H1|H1];
      destruct (Z.leb_spec (k * Z.pos d) (Z.pos d)) as [H2|H2]; try nia;
      [reflexivity|].
    destruct (Z.eqb_spec k 3) as [K3|N3];
      destruct (Z.eqb_spec (k * Z.pos d) (3 * Z.pos d)) as [E3|E3]; try nia;
      [reflexivity|].
    destruct (Z.eqb_spec k 6) as [K6|N6];
      destruct (Z.eqb_spec (k * Z.pos d) (6 * Z.pos d)) as [E6|E6]; try nia;
      reflexivity.
  - unfold len_from, Py.slice_from. cbn [Z.to_nat Pos.to_nat Pos.iter_op skipn].
    exact Hd.
  - reflexivity.
Qed.

Lemma suffixed_length (components : list string) (rest : list string) :
  List.length (flat_map (suffixed components) rest)
  = (List.length components * List.length rest)%nat.
Proof.
  induction rest as [|t ts IH]; cbn [flat_map List.length]; [lia|].
  rewrite length_app, IH. unfold suffixed. rewrite length_map. lia.
Qed.

Lemma heads_of_position (first : string) (pos : Z) :
  pos = 0 \/ pos = 1 \/ pos = 3 ->
  exists heads,
    field_components first (Int pos) = Ok heads
    /\ Z.of_nat (List.length heads) = Z.max 1 pos.
Proof.
  intros [-> | [-> | ->]]; eexists; (split; [reflexivity|reflexivity]).
Qed.

(** X11. When [load_xy] builds names at position 1 or 3 for more than
    one column, there are as many names as columns; at position 0 there
    are always more names than columns, the first token being named
    twice. *)
Theorem names_count (field_names names : list string)
  (columns_count pos : Z) :
  first_value_column field_names columns_count = Ok pos ->
  infer_names field_names columns_count = Ok names ->
  (pos <> 0 -> 1 < columns_count ->
   Z.of_nat (List.length names) = columns_count)
  /\ (pos = 0 -> columns_count < Z.of_nat (List.length names)).
Proof.
  intros Hpos Hnames.
  pose proof (first_value_column_cases _ _ _ Hpos) as [H1 Hcases].
  unfold infer_names in Hnames. rewrite Hpos in Hnames. cbn [Py.bind] in Hnames.
  destruct field_names as [|first others].
  { exfalso. apply H1. reflexivity. }
  assert (Hkind : pos = 0 \/ pos = 1 \/ pos = 3)
    by (destruct Hcases as [[-> _]|[[-> _]|[-> _]]]; auto).
  destruct (heads_of_position first pos Hkind) as [heads [Hheads Hhl]].
  assert (Hd : exists d,
             len_from (Z.to_nat pos) (first :: others) = Z.pos d).
  { destruct Hcases as [[-> _]|[[-> [H3 _]]|[-> _]]].
    - destruct (len_from (Z.to_nat 1) (first :: others)) eqn:E;
        [contradiction| eexists; reflexivity|].
      unfold len_from in E. lia.
    - destruct (len_from (Z.to_nat 3) (first :: others)) eqn:E;
        [contradiction| eexists; reflexivity|].
      unfold len_from in E. lia.
    - cbn [Z.to_nat]. unfold len_from, Py.slice_from. cbn [skipn List.length].
      destruct (Z.of_nat (S (List.length others))) eqn:E; try lia.
      eexists. reflexivity. }
  destruct Hd as [d Hd].
  rewrite (construct_names_quotient first others columns_count pos d heads
             Hd Hheads) in Hnames.
  assert (Hrest : Z.of_nat
                    (List.length (Py.slice_from (Z.to_nat pos) (first :: others)))
                  = Z.pos d) by exact Hd.
  assert (Hfull : pos = 0 -> Z.pos d = Z.of_nat (S (List.length others))).
  { intros ->. rewrite <- Hd. reflexivity. }
  assert (Hsize :
            (columns_count - pos <= Z.pos d
             /\ Z.of_nat (List.length names) = Z.max 1 pos + Z.pos d)
            \/ (columns_count - pos = 3 * Z.pos d
                /\ Z.of_nat (List.length names) = Z.max 1 pos + 3 * Z.pos d)
            \/ (columns_count - pos = 6 * Z.pos d
                /\ Z.of_nat (List.length names) = Z.max 1 pos + 6 * Z.pos d)).
  { destruct (Z.leb_spec (columns_count - pos) (Z.pos d)) as [Hle|Hgt].
    - left. inversion Hnames; subst. split; [exact Hle|].
      rewrite length_app. lia.
    - destruct (Z.eqb_spec (columns_count - pos) (3 * Z.pos d)) as [E3|N3].
      + right; left. inversion Hnames; subst. split; [exact E3|].
        rewrite length_app, suffixed_length. cbn [List.length]. lia.
      + destruct (Z.eqb_spec (columns_count - pos) (6 * Z.pos d)) as [E6|N6];
          [|discriminate].
        right; right. inversion Hnames; subst. split; [exact E6|].
        rewrite length_app, suffixed_length. cbn [List.length]. lia. }
  split.
  - intros Hnz Hcols.
    assert (Hdiv : (columns_count - pos) mod Z.pos d = 0 /\ pos < columns_count).
    { destruct Hcases as [[-> E]|[[-> [_ E]]|[-> _]]]; [| |contradiction].
      - change (len_from 1 (first :: others))
          with (len_from (Z.to_nat 1) (first :: others)) in E.
        rewrite Hd in E. split; [exact E|lia].
      - change (len_from 3 (first :: others))
          with (len_from (Z.to_nat 3) (first :: others)) in E.
        rewrite Hd in E. split; [exact E|].
        apply (position_three_has_columns _ _ Hpos). }
    destruct Hdiv as [Hdiv Hlt].
    apply Z.mod_divide in Hdiv; [|lia]. destruct Hdiv as [q Hq].
    assert (Hd0 : 0 < Z.pos d) by lia.
    assert (Hq1 : 1 <= q) by nia.
    assert (Hqd : Z.pos d <= q * Z.pos d) by nia.
    destruct Hsize as [[Hle ->]|[[E ->]|[E ->]]];
      destruct Hkind as [-> | [-> | ->]]; try contradiction; lia.
  - intros ->. specialize (Hfull eq_refl).
    destruct Hsize as [[Hle ->]|[[E ->]|[E ->]]]; lia.
Qed.

Lemma field_components_error (field_name : string) (q : Q) (e : exn) :
  field_components field_name (Float q) = Raise e -> e = TypeError.
Proof.
  destruct q as [a d]. rewrite field_components_quotient.
  destruct (a <=? Z.pos d); [discriminate|].
  destruct (a =? 3 * Z.pos d); [discriminate|].
  destruct (a =? 6 * Z.pos d); [discriminate|].
  intros H. inversion H. reflexivity.
Qed.

(** X13. Building the names fails in two ways only: [ZeroDivisionError]
    from the choice of the position and [TypeError] from a component
    count that is a float; taking the first token never fails. *)
Theorem infer_names_errors (field_names : list string) (columns_count : Z)
  (e : exn) :
  infer_names field_names columns_count = Raise e ->
  (e = ZeroDivisionError
   /\ first_value_column field_names columns_count = Raise ZeroDivisionError)
  \/ (e = TypeError
      /\ exists pos, first_value_column field_names columns_count = Ok pos).
Proof.
  unfold infer_names.
  destruct (first_value_column field_names columns_count) as [pos|e0] eqn:Hpos;
    cbn [Py.bind].
  - intros H. right. split; [|exists pos; reflexivity].
    pose proof (first_value_column_cases _ _ _ Hpos) as [H1 Hcases].
    destruct field_names as [|first others].
    { exfalso. apply H1. reflexivity. }
    assert (Hkind : pos = 0 \/ pos = 1 \/ pos = 3)
      by (destruct Hcases as [[-> _]|[[-> _]|[-> _]]]; auto).
    destruct (heads_of_position first pos Hkind) as [heads [Hheads _]].
    assert (Hd : exists d,
               len_from (Z.to_nat pos) (first :: others) = Z.pos d).
    { destruct Hcases as [[-> _]|[[-> [H3 _]]|[-> _]]].
      - destruct (len_from (Z.to_nat 1) (first :: others)) eqn:E;
          [contradiction| eexists; reflexivity|].
        unfold len_from in E. lia.
      - destruct (len_from (Z.to_nat 3) (first :: others)) eqn:E;
          [contradiction| eexists; reflexivity|].
        unfold len_from in E. lia.
      - cbn [Z.to_nat]. unfold len_from, Py.slice_from.
        cbn [skipn List.length].
        destruct (Z.of_nat (S (List.length others))) eqn:E; try lia.
        eexists. reflexivity. }
    destruct Hd as [d Hd].
    rewrite (construct_names_quotient first others columns_count pos d heads
               Hd Hheads) in H.
    destruct (columns_count - pos <=? Z.pos d); [discriminate|].
    destruct (columns_count - pos =? 3 * Z.pos d); [discriminate|].
    destruct (columns_count - pos =? 6 * Z.pos d); [discriminate|].
    inversion H. reflexivity.
  - intros H. inversion H; subst. left.
    rewrite (first_value_column_error _ _ _ Hpos). auto.
Qed.

Lemma nodup_map_injective {A B : Type} (f : A -> B) (xs : list A) :
  (forall x y, f x = f y -> x = y) -> NoDup xs -> NoDup (map f xs).
Proof.
  intros Hinj Hnd. induction Hnd as [|x xs Hx _ IH]; cbn [map]; constructor.
  - intros Hin. apply in_map_iff in Hin. destruct Hin as [y [E Hy]].
    apply Hinj in E. subst y. exact (Hx Hy).
  - exact IH.
Qed.

Ltac not_among :=
  let H := fresh "H" in
  cbn [In]; intros H;
  repeat (destruct H as [H|H]; [discriminate H|]); exact H.

(** X9. For an integer count [n], [field_components] returns the field
    name itself when [n <= 1]; otherwise the name followed by a dot and
    each of [x y z] for 3, of the six tensor suffixes for 6, and of the
    numbers [0 .. n-1] for any other [n].  These are [max 1 n] names, all
    different. *)
Theorem field_components_of_int (field_name : string) (n : Z) :
  let components :=
    if n =? 3 then ["x"; "y"; "z"]
    else if n =? 6 then ["xx"; "xy"; "xz"; "yy"; "yz"; "zz"]
         else map Py.str_of_nat (seq 0 (Z.to_nat n)) in
  let names :=
    if n <=? 1 then [field_name] else suffixed components field_name in
  field_components field_name (Int n) = Ok names
  /\ Z.of_nat (List.length names) = Z.max 1 n
  /\ NoDup names.
Proof.
  cbv zeta. unfold field_components, suffixed, Py.le, Py.eq.
  destruct (Z.leb_spec n 1) as [H1|H1].
  { split; [reflexivity|]. split; [cbn [List.length]; lia|].
    constructor; [intros []|constructor]. }
  assert (Hinj : forall a b : string,
             (field_name ++ "." ++ a)%string = (field_name ++ "." ++ b)%string ->
             a = b).
  { intros a b H. apply append_inj in H. apply (append_inj ".") in H. exact H. }
  destruct (Z.eqb_spec n 3) as [->|N3].
  { split; [reflexivity|]. split; [reflexivity|].
    apply nodup_map_injective; [exact Hinj|].
    repeat (constructor; [not_among|]). constructor. }
  destruct (Z.eqb_spec n 6) as [->|N6].
  { split; [reflexivity|]. split; [reflexivity|].
    apply nodup_map_injective; [exact Hinj|].
    repeat (constructor; [not_among|]). constructor. }
  cbn [Py.range Py.bind]. split; [reflexivity|].
  split.
  - rewrite !length_map, length_seq. lia.
  - apply nodup_map_injective; [exact Hinj|].
    apply nodup_map_injective; [apply str_of_nat_inj|apply seq_NoDup].
Qed.

(** ** Files that cannot be read *)









(** ** Rows without decimation, and the rows of [load_xy] *)

(** X15. With [use_nth] absent or below 2, [load] hands every line after
    the header row to the tokenizer, blank lines apart: nothing is
    decimated. *)
Theorem load_without_decimation
  (fs : node) (filepath : Path) (content : string)
  (comments : list string) (line : string) (rest : list string)
  (usecols : option (list Z)) (use_nth : option Z) :
  open_read fs filepath = Ok content ->
  Py.readlines content = comments ++ line :: rest ->
  comments <> [] ->
  Forall (fun l => Py.startswith l "#" = true) comments ->
  Py.startswith line "#" = false ->
  match use_nth with
  | Some nth => nth < 2
  | None => True
  end ->
  load fs usecols use_nth filepath
  = (dat <- parse_records (Some (pd.chomp (last comments ""))) None
              (with_index_col usecols)
              (filter (fun l => negb (pd.blank l))
                 (map pd.chomp (line :: rest))) ;;
     dat <- clean_names dat ;;
     unnest_columns dat).
Proof.
  intros Hopen Hlines Hne Hall Hline Hnth.
  rewrite (load_rows fs filepath content comments line rest) by assumption.
  do 2 f_equal.
  assert (Hkeep : forall r : Z * string,
             retained (Z.of_nat (List.length comments) - 1) use_nth r
             = negb (pd.blank (snd r))).
  { intros r. unfold retained, skips. destruct use_nth as [nth|]; [|reflexivity].
    destruct (Z.leb_spec 2 nth); [lia|reflexivity]. }
  generalize (Z.of_nat (List.length comments)) at 2. intros i.
  generalize (map pd.chomp (line :: rest)). intros ls. revert i.
  induction ls as [|l ls IH]; intros i; [reflexivity|].
  cbn [Py.enumerate_from filter map]. rewrite Hkeep. cbn [snd].
  destruct (negb (pd.blank l)); cbn [map snd]; rewrite IH; reflexivity.
Qed.

Lemma keep_rows_xy (use_nth : option Z) (rows : list (Z * string)) :
  pd.keep_rows (load_xy_skiprows use_nth) rows
  = Ok (filter (fun r => match use_nth with
                         | Some nth =>
                             negb ((2 <=? nth) && negb (fst r mod nth =? 0))
                         | None => true
                         end) rows).
Proof.
  induction rows as [|[n l] rows IH]; cbn [pd.keep_rows filter];
    [reflexivity|].
  rewrite IH. unfold load_xy_skiprows. cbn [fst].
  destruct use_nth as [nth|]; [|reflexivity].
  destruct (Z.leb_spec 2 nth); cbn [andb negb Py.bind]; [|reflexivity].
  unfold Py.mod_. destruct (Z.eqb_spec nth 0); [lia|]. cbn [Py.bind Py.truthy].
  destruct (n mod nth =? 0); reflexivity.
Qed.

(** X16. [load_xy] takes no line as a header: after the names are
    built and checked, every line of the file that is not blank goes to
    the tokenizer as data; with [use_nth >= 2] only the lines whose number
    is a multiple of [use_nth] do, the first line of the file among
    them. *)
Theorem load_xy_rows
  (fs : node) (filepath : Path) (content : string)
  (usecols : option (list Z)) (use_nth : option Z) :
  open_read fs filepath = Ok content ->
  let lines := Py.enumerate (map pd.chomp (Py.readlines content)) in
  load_xy fs filepath usecols use_nth
  = (names <- infer_names (Py.split (pathlib.stem filepath) "_")
                (count_columns fs filepath (String Py.TAB EmptyString) 1) ;;
     checked <- pd.validate_names (Some names) ;;
     parse_records None (Some names) (with_index_col usecols)
       (map snd
          (filter (fun r =>
                     match use_nth with
                     | Some nth =>
                         if 2 <=? nth then kept_by_line_number nth r
                         else negb (pd.blank (snd r))
                     | None => negb (pd.blank (snd r))
                     end) lines)))
  /\ (forall nth l ls,
         use_nth = Some nth -> 2 <= nth -> lines = (0, l) :: ls ->
         kept_by_line_number nth (0, l) = negb (pd.blank l)).
Proof.
  intros Hopen lines. split.
  - unfold load_xy.
    destruct (infer_names _ _) as [ns|e]; cbn [Py.bind]; [|reflexivity].
    unfold pd.read_csv. rewrite Hopen. cbn [names].
    destruct (pd.validate_names (Some ns)) as [checked|e];
      cbn [Py.bind]; [|reflexivity].
    unfold pd.select_rows. cbn [skiprows header].
    rewrite keep_rows_xy. cbn [Py.bind fst snd]. rewrite filter_filter.
    fold lines. do 2 f_equal. apply filter_ext_in_rows. intros r _.
    unfold kept_by_line_number. destruct use_nth as [nth|]; [|reflexivity].
    destruct (2 <=? nth); cbn [andb negb]; [|reflexivity].
    rewrite negb_involutive. reflexivity.
  - intros nth l ls _ Hnth _. unfold kept_by_line_number. cbn [fst snd].
    rewrite Z.mod_0_l by lia. reflexivity.
Qed.

(** ** A directory in which a file fails to load *)

Lemma mapM_first_error {A B : Type} (f : A -> result B)
  (before : list A) (x : A) (after : list A) (e : exn) :
  (forall y, In y before -> exists b, f y = Ok b) ->
  f x = Raise e ->
  mapM f (before ++ x :: after) = Raise e.
Proof.
  intros Hok Hx. induction before as [|y ys IH]; cbn [app mapM].
  - rewrite Hx. reflexivity.
  - destruct (Hok y (or_introl eq_refl)) as [b ->]. cbn [Py.bind].
    rewrite IH by (intros z Hz; apply Hok; right; exact Hz). reflexivity.
Qed.

(** X17. In a directory whose [.dat] files share one name, the first
    file in ascending path order that fails to load makes [load_dat]
    raise the error of that file: no rows of the other files are
    returned. *)
Theorem directory_merge_raises_first_error
  (fs : node) (filepath : Path) (usecols : option (list Z))
  (use_nth : option Z) (name : string)
  (before : list Path) (failing : Path) (after : list Path) (e : exn) :
  pathlib.is_dir fs filepath = true ->
  (forall p, In p (pathlib.rglob fs filepath ".dat") -> pathlib.name p = name) ->
  sorted (pathlib.rglob fs filepath ".dat") = before ++ failing :: after ->
  (forall p, In p before -> exists dat, load fs usecols use_nth p = Ok dat) ->
  load fs usecols use_nth failing = Raise e ->
  load_dat fs filepath usecols use_nth = Raise e.
Proof.
  intros Hdir Hname Hsorted Hbefore Hfail. unfold load_dat. rewrite Hdir.
  rewrite (count_names_same _ name).
  - cbn [Nat.eqb negb]. rewrite Hsorted.
    rewrite (mapM_first_error _ before failing after e Hbefore Hfail).
    reflexivity.
  - intros E. rewrite E in Hsorted. destruct before; discriminate Hsorted.
  - exact Hname.
Qed.

(** ** Cleaning the names *)

Lemma remove_char_gone (s : string) (c : ascii) :
  has_char c (Py.remove_char s c) = false.
Proof.
  induction s as [|a s IH]; [reflexivity|]. cbn [Py.remove_char].
  destruct (Ascii.eqb a c) eqn:E; [exact IH|].
  cbn [has_char]. rewrite E, IH. reflexivity.
Qed.

Lemma lstrip_chars (s : string) (c : ascii) :
  has_char c s = false -> has_char c (Py.lstrip s) = false.
Proof.
  induction s as [|a s IH]; [reflexivity|]. cbn [Py.lstrip].
  destruct (Py.isspace a); [|auto].
  cbn [has_char]. intros H. apply orb_false_iff in H. apply IH, H.
Qed.

Lemma rstrip_chars (s : string) (c : ascii) :
  has_char c s = false -> has_char c (Py.rstrip s) = false.
Proof.
  induction s as [|a s IH]; [reflexivity|]. cbn [Py.rstrip has_char].
  intros H. apply orb_false_iff in H. destruct H as [Ha Hs].
  specialize (IH Hs).
  destruct (Py.rstrip s) as [|b r].
  - destruct (Py.isspace a); [reflexivity|].
    cbn [has_char]. rewrite Ha. reflexivity.
  - cbn [has_char] in IH |- *. rewrite Ha. exact IH.
Qed.

Lemma lstrip_start (s : string) : starts_with_space (Py.lstrip s) = false.
Proof.
  induction s as [|a s IH]; [reflexivity|]. cbn [Py.lstrip].
  destruct (Py.isspace a) eqn:E; [exact IH|]. exact E.
Qed.

Lemma rstrip_start (s : string) :
  starts_with_space s = false -> starts_with_space (Py.rstrip s) = false.
Proof.
  destruct s as [|a s]; [reflexivity|]. cbn [Py.rstrip starts_with_space].
  intros Ha. destruct (Py.rstrip s); [rewrite Ha|]; exact Ha.
Qed.

Lemma rstrip_end (s : string) : ends_with_space (Py.rstrip s) = false.
Proof.
  induction s as [|a s IH]; [reflexivity|]. cbn [Py.rstrip].
  destruct (Py.rstrip s) as [|b r].
  - destruct (Py.isspace a) eqn:E; [reflexivity|]. exact E.
  - exact IH.
Qed.

Lemma strip_clean (s : string) :
  starts_with_space (Py.strip s) = false
  /\ ends_with_space (Py.strip s) = false.
Proof.
  unfold Py.strip. split; [apply rstrip_start, lstrip_start|apply rstrip_end].
Qed.

(** X18. When [load] has cleaned the names, the name of the index holds
    no ['#'] and neither it nor any column label starts or ends with
    white space; the index values and the columns' contents are
    untouched, and the only failure is an index without a name. *)
Theorem clean_names_strips (dat : DataFrame F) :
  match clean_names dat with
  | Ok dat' =>
      (exists name,
          index_name dat' = Some name
          /\ has_char "#" name = false
          /\ starts_with_space name = false
          /\ ends_with_space name = false)
      /\ Forall (fun l => starts_with_space l = false
                          /\ ends_with_space l = false) (pd.labels dat')
      /\ index dat' = index dat
      /\ map snd (columns dat') = map snd (columns dat)
  | Raise e => e = AttributeError /\ index_name dat = None
  end.
Proof.
  unfold clean_names. destruct (index_name dat) as [name|]; [|auto].
  cbn [index_name index columns]. split; [|split; [|split]].
  - eexists. split; [reflexivity|].
    destruct (strip_clean (Py.remove_char name "#")) as [Hs He].
    split; [|split; assumption].
    unfold Py.strip. apply rstrip_chars, lstrip_chars, remove_char_gone.
  - unfold pd.labels. cbn [columns]. rewrite map_map. cbn [fst].
    apply Forall_forall. intros l Hl. apply in_map_iff in Hl.
    destruct Hl as [c [<- _]]. apply strip_clean.
  - reflexivity.
  - rewrite map_map. reflexivity.
Qed.

(** ** The pattern that detects a tuple column *)

Lemma append_empty (s1 s2 : string) :
  (s1 ++ s2)%string = EmptyString -> s1 = EmptyString /\ s2 = EmptyString.
Proof.
  destruct s1; cbn [append]; [auto|discriminate].
Qed.

Lemma append_empty_r (s : string) : (s ++ "")%string = s.
Proof.
  induction s as [|c s IH]; cbn [append]; [|rewrite IH]; reflexivity.
Qed.

Lemma append_assoc (s1 s2 s3 : string) :
  ((s1 ++ s2) ++ s3)%string = (s1 ++ (s2 ++ s3))%string.
Proof.
  induction s1 as [|c s1 IH]; cbn [append]; [|rewrite IH]; reflexivity.
Qed.

Lemma lang_of_nullable (r : re.regex) :
  re.nullable r = true -> lang r EmptyString.
Proof.
  induction r as [| |p|r1 IH1 r2 IH2|r1 IH1 r2 IH2|r IH]; cbn [re.nullable];
    intros H.
  - discriminate.
  - constructor.
  - discriminate.
  - apply andb_true_iff in H. destruct H as [H1 H2].
    exact (lang_cat r1 r2 "" "" (IH1 H1) (IH2 H2)).
  - apply orb_true_iff in H. destruct H as [H|H].
    + apply lang_alt_l, IH1, H.
    + apply lang_alt_r, IH2, H.
  - constructor.
Qed.

Lemma nullable_of_lang (r : re.regex) (s : string) :
  lang r s -> s = EmptyString -> re.nullable r = true.
Proof.
  intros H. induction H as [|p c Hp|r1 r2 s1 s2 _ IH1 _ IH2|r1 r2 s _ IH
                            |r1 r2 s _ IH| |r s1 s2 _ _ _ _];
    intros E; cbn [re.nullable].
  - reflexivity.
  - discriminate E.
  - apply append_empty in E. destruct E as [E1 E2].
    rewrite (IH1 E1), (IH2 E2). reflexivity.
  - rewrite (IH E). reflexivity.
  - rewrite (IH E). apply orb_true_r.
  - reflexivity.
  - reflexivity.
Qed.

Lemma lang_of_deriv (r : re.regex) (c : ascii) (s : string) :
  lang (re.deriv c r) s -> lang r (String c s).
Proof.
  revert s.
  induction r as [| |p|r1 IH1 r2 IH2|r1 IH1 r2 IH2|r IH]; cbn [re.deriv];
    intros s H.
  - inversion H.
  - inversion H.
  - destruct (p c) eqn:Hp; inversion H; subst. constructor. exact Hp.
  - destruct (re.nullable r1) eqn:Hn.
    + inversion H as [| | |? ? ? Hl|? ? ? Hr| |]; subst.
      * inversion Hl as [| |? ? s1 s2 H1 H2| | | |]; subst.
        exact (lang_cat r1 r2 (String c s1) s2 (IH1 _ H1) H2).
      * exact (lang_cat r1 r2 "" (String c s) (lang_of_nullable r1 Hn)
                 (IH2 _ Hr)).
    + inversion H as [| |? ? s1 s2 H1 H2| | | |]; subst.
      exact (lang_cat r1 r2 (String c s1) s2 (IH1 _ H1) H2).
  - inversion H; subst.
    + apply lang_alt_l, IH1. assumption.
    + apply lang_alt_r, IH2. assumption.
  - inversion H as [| |? ? s1 s2 H1 H2| | | |]; subst.
    exact (lang_star_app r (String c s1) s2 (IH _ H1) H2).
Qed.

Lemma deriv_of_lang (r : re.regex) (t : string) :
  lang r t -> forall c s, t = String c s -> lang (re.deriv c r) s.
Proof.
  intros H.
  induction H as [|p a Hp|r1 r2 s1 s2 H1 IH1 H2 IH2|r1 r2 t _ IH
                  |r1 r2 t _ IH|r|r s1 s2 H1 IH1 H2 IH2];
    intros c s E; cbn [re.deriv].
  - discriminate E.
  - injection E as -> <-. rewrite Hp. constructor.
  - destruct s1 as [|a s1]; cbn [append] in E.
    + rewrite (nullable_of_lang r1 "" H1 eq_refl).
      apply lang_alt_r. exact (IH2 c s E).
    + injection E as -> <-.
      pose proof (lang_cat _ r2 _ _ (IH1 c s1 eq_refl) H2) as Hcat.
      destruct (re.nullable r1); [apply lang_alt_l|]; exact Hcat.
  - apply lang_alt_l. exact (IH c s E).
  - apply lang_alt_r. exact (IH c s E).
  - discriminate E.
  - destruct s1 as [|a s1]; cbn [append] in E.
    + exact (IH2 c s E).
    + injection E as -> <-.
      exact (lang_cat _ (re.Star r) _ _ (IH1 c s1 eq_refl) H2).
Qed.

(** [re.match_] holds exactly when the pattern denotes a prefix. *)
Lemma match_prefix (s : string) (r : re.regex) :
  re.match_ r s = true
  <-> exists p q, s = (p ++ q)%string /\ lang r p.
Proof.
  revert r. induction s as [|c s IH]; intros r; cbn [re.match_].
  - rewrite orb_false_r. split.
    + intros H. exists EmptyString, EmptyString.
      split; [reflexivity|apply lang_of_nullable, H].
    + intros [p [q [E H]]]. symmetry in E. apply append_empty in E.
      destruct E as [-> _]. exact (nullable_of_lang r "" H eq_refl).
  - split.
    + intros H. apply orb_true_iff in H. destruct H as [H|H].
      * exists EmptyString, (String c s).
        split; [reflexivity|apply lang_of_nullable, H].
      * apply IH in H. destruct H as [p [q [-> H]]].
        exists (String c p), q. split; [reflexivity|].
        apply lang_of_deriv, H.
    + intros [p [q [E H]]]. destruct p as [|a p]; cbn [append] in E.
      * rewrite (nullable_of_lang r "" H eq_refl). reflexivity.
      * injection E as <- ->. apply orb_true_iff. right. apply IH.
        exists p, q. split; [reflexivity|].
        exact (deriv_of_lang r _ H c p eq_refl).
Qed.

Lemma digit_not_line_feed (c : ascii) :
  is_digit c = true -> Ascii.eqb c Py.NL = false.
Proof.
  intros H. destruct (Ascii.eqb_spec c Py.NL) as [->|]; [|reflexivity].
  discriminate H.
Qed.

Lemma digit_first (c : ascii) (s : string) :
  is_digit c = true -> digit_on_first_line (String c s) = true.
Proof.
  intros H. cbn [digit_on_first_line].
  rewrite (digit_not_line_feed c H), H. reflexivity.
Qed.

Lemma digit_after (c : ascii) (s : string) :
  Ascii.eqb c Py.NL = false -> digit_on_first_line s = true ->
  digit_on_first_line (String c s) = true.
Proof.
  intros Hc Hs. cbn [digit_on_first_line]. rewrite Hc, Hs. apply orb_true_r.
Qed.

Lemma lang_chr_inv (p : ascii -> bool) (s : string) :
  lang (re.Chr p) s -> exists c, s = String c EmptyString /\ p c = true.
Proof.
  intros H. inversion H; subst. eexists. split; [reflexivity|assumption].
Qed.

Lemma lang_cat_inv (r1 r2 : re.regex) (s : string) :
  lang (re.Cat r1 r2) s ->
  exists s1 s2, s = (s1 ++ s2)%string /\ lang r1 s1 /\ lang r2 s2.
Proof.
  intros H. inversion H; subst. eexists _, _. split; [reflexivity|]. auto.
Qed.

Lemma lang_alt_inv (r1 r2 : re.regex) (s : string) :
  lang (re.Alt r1 r2) s -> lang r1 s \/ lang r2 s.
Proof.
  intros H. inversion H; subst; auto.
Qed.

(** Any run of characters matched by [.*] keeps a later digit on the
    first line. *)
Lemma dots_then_digit (r : re.regex) (u : string) :
  lang r u -> r = re.Star re.dot ->
  forall t, digit_on_first_line t = true ->
            digit_on_first_line (u ++ t) = true.
Proof.
  intros H.
  induction H as [| | | | |r|r s1 s2 H1 _ H2 IH2]; intros E t Ht;
    try discriminate E.
  - exact Ht.
  - injection E as ->. apply lang_chr_inv in H1. destruct H1 as [c [-> Hc]].
    cbn [append]. apply digit_after.
    + apply negb_true_iff in Hc. exact Hc.
    + exact (IH2 eq_refl t Ht).
Qed.

Lemma sign_not_line_feed (c : ascii) :
  existsb (Ascii.eqb c) ["+"; "-"]%char = true -> Ascii.eqb c Py.NL = false.
Proof.
  intros H. destruct (Ascii.eqb_spec c Py.NL) as [E|]; [|reflexivity].
  subst c. discriminate H.
Qed.

(** Every text of [REGEX_FLOAT] has a digit after at most a sign and a
    dot. *)
Lemma float_has_digit (v q : string) :
  lang REGEX_FLOAT v -> digit_on_first_line (v ++ q) = true.
Proof.
  unfold REGEX_FLOAT, re.Opt, re.Plus, re.one_of, re.digit. intros H.
  apply lang_cat_inv in H. destruct H as [sg [body [-> [Hsg Hbody]]]].
  apply lang_cat_inv in Hbody. destruct Hbody as [m [ex [-> [Hm _]]]].
  assert (Hdigit : forall t, digit_on_first_line (m ++ t) = true).
  { intros t. apply lang_alt_inv in Hm. destruct Hm as [Hm|Hm].
    - apply lang_cat_inv in Hm. destruct Hm as [ds [fr [-> [Hds _]]]].
      apply lang_cat_inv in Hds. destruct Hds as [d [ds' [-> [Hd _]]]].
      apply lang_chr_inv in Hd. destruct Hd as [c [-> Hc]].
      cbn [append]. apply digit_first. exact Hc.
    - apply lang_cat_inv in Hm. destruct Hm as [pt [ds [-> [Hpt Hds]]]].
      apply lang_chr_inv in Hpt. destruct Hpt as [c [-> Hc]].
      apply lang_cat_inv in Hds. destruct Hds as [d [ds' [-> [Hd _]]]].
      apply lang_chr_inv in Hd. destruct Hd as [c' [-> Hc']].
      cbn [append]. apply digit_after; [|apply digit_first; exact Hc'].
      cbn [existsb] in Hc. rewrite orb_false_r in Hc.
      apply Ascii.eqb_eq in Hc. subst c. reflexivity. }
  rewrite !append_assoc.
  apply lang_alt_inv in Hsg. destruct Hsg as [Hsg|Hsg].
  - apply lang_chr_inv in Hsg. destruct Hsg as [c [-> Hc]].
    cbn [append]. apply digit_after; [exact (sign_not_line_feed c Hc)|].
    apply Hdigit.
  - inversion Hsg; subst. apply Hdigit.
Qed.

Lemma lang_float_digit (c : ascii) :
  is_digit c = true -> lang REGEX_FLOAT (String c EmptyString).
Proof.
  intros Hc. unfold REGEX_FLOAT, re.Opt, re.Plus.
  apply (lang_cat _ _ "" (String c "")); [apply lang_alt_r, lang_eps|].
  apply (lang_cat _ _ (String c "") ""); [|apply lang_alt_r, lang_eps].
  apply lang_alt_l.
  apply (lang_cat _ _ (String c "") ""); [|apply lang_alt_r, lang_eps].
  apply (lang_cat _ _ (String c "") ""); [|apply lang_star_nil].
  apply lang_chr. exact Hc.
Qed.

Lemma match_float_anywhere (s : string) :
  re.match_ (re.Cat (re.Star re.dot) REGEX_FLOAT) s = digit_on_first_line s.
Proof.
  destruct (digit_on_first_line s) eqn:Hd.
  - apply match_prefix. induction s as [|c s IH]; [discriminate Hd|].
    cbn [digit_on_first_line] in Hd.
    destruct (Ascii.eqb c Py.NL) eqn:Hc; [discriminate Hd|].
    destruct (is_digit c) eqn:Hdig.
    + exists (String c EmptyString), s. split; [reflexivity|].
      exact (lang_cat _ _ "" _ (lang_star_nil _) (lang_float_digit c Hdig)).
    + destruct (IH Hd) as [p [q [-> H]]].
      apply lang_cat_inv in H. destruct H as [u [v [-> [Hu Hv]]]].
      exists (String c u ++ v)%string, q. split; [reflexivity|].
      apply lang_cat; [|exact Hv].
      apply (lang_star_app re.dot (String c "") u); [|exact Hu].
      apply lang_chr. rewrite Hc. reflexivity.
  - destruct (re.match_ _ s) eqn:Hm; [|reflexivity].
    apply match_prefix in Hm. destruct Hm as [p [q [-> H]]].
    apply lang_cat_inv in H. destruct H as [u [v [-> [Hu Hv]]]].
    rewrite append_assoc in Hd.
    rewrite (dots_then_digit _ u Hu eq_refl _ (float_has_digit v q Hv)) in Hd.
    discriminate Hd.
Qed.

(** X8. The test that makes [unnest_columns] treat a column as a tuple
    column succeeds on a text cell exactly when a decimal digit stands
    before the first line feed of the cell, whatever surrounds the digit;
    on a cell that is not text it raises [TypeError]. *)
Theorem looks_numeric_is_digit_on_first_line (x : cell F) :
  looks_numeric x
  = match x with
    | Str s => Ok (digit_on_first_line s)
    | _ => Raise TypeError
    end.
Proof.
  destruct x as [s| | |]; try reflexivity.
  unfold looks_numeric. rewrite match_float_anywhere. reflexivity.
Qed.

End Loaders.

(** * The properties on the example case *)

Import Examples.
Local Open Scope list_scope.

(** C8 on the first line of [U.xy]: three tabs, four columns. *)
Lemma count_columns_witness :
  count_columns case ["U.xy"] (String Py.TAB "") 1
  = Py.count (linecache.getline case ["U.xy"] 1) (String Py.TAB "") + 1.
Proof.
  apply (count_columns_separators_plus_one case ["U.xy"] (String Py.TAB "") 1).
  vm_compute. split; intros H; discriminate H.
Defined.

(** C7 on [forces.dat]: three comment lines, boundary 2. *)
Lemma header_boundary_witness :
  get_header_size case (forces_dir ++ ["0"; "forces.dat"]) "#" = Ok (Some 2).
Proof.
  destruct (header_boundary_is_last_comment_line case
              (forces_dir ++ ["0"; "forces.dat"]) forces_0
              forces_comments forces_first forces_rest None None)
    as [boundary [Hscan [Hplus _]]].
  - reflexivity.
  - reflexivity.
  - discriminate.
  - repeat constructor.
  - reflexivity.
  - rewrite Hscan. do 2 f_equal. change (boundary + 1 = 3) in Hplus. lia.
Defined.

(** C3: without a header [get_header_size] returns [-1] or [None], and
    no error. *)
Lemma get_header_size_returns_without_header :
  get_header_size case ["data_first.dat"] "#" = Ok (Some (-1))
  /\ get_header_size case ["only_comments.dat"] "#" = Ok None
  /\ get_header_size case ["empty.dat"] "#" = Ok None.
Proof. repeat split. Qed.

Lemma get_header_size_first_line_data_witness :
  get_header_size case ["data_first.dat"] "#" = Ok (Some (-1)).
Proof.
  apply (get_header_size_first_line_data case ["data_first.dat"] data_first
           (Sample.line ["0"; "5"]) [Sample.line ["1"; "6"]]);
    reflexivity.
Defined.

(** C5: with two comment lines and [use_nth = 2] the rows at offsets 1
    and 3 from the header are kept, those at offsets 2 and 4 are not. *)
Lemma decimation_is_not_by_offset :
  get_header_size case ["postProcessing"; "probes"; "0"; "p.dat"] "#"
  = Ok (Some 1)
  /\ load_dat Sample.float_of_string false Sample.parse_records case
       ["postProcessing"; "probes"; "0"; "p.dat"] None (Some 2)
     = Ok (mkFrame (Some "Time") [Num 1; Num 3] [("p", numeric [10; 30])])
  /\ map snd
       (filter (kept_by_offset 1 2)
          (Py.enumerate_from 2 (map pd.chomp (p_first :: p_rest))))
     = [pd.chomp (Sample.line ["2"; "20"]); pd.chomp (Sample.line ["4"; "40"])].
Proof. repeat split. Qed.

Lemma load_keeps_line_numbers_witness :
  load Sample.float_of_string false Sample.parse_records case None (Some 2)
    (forces_dir ++ ["0"; "forces.dat"])
  = Ok (mkFrame (Some "Time") [Num 1; Num 3]
          [("Cd", numeric [6; 8]);
           ("F.0", numeric [4; 10]);
           ("F.1", numeric [5; 11]);
           ("F.2", numeric [6; 12])]).
Proof.
  destruct (load_keeps_line_numbers_divisible_by_use_nth
              Sample.float_of_string false Sample.parse_records case
              (forces_dir ++ ["0"; "forces.dat"]) forces_0
              forces_comments forces_first forces_rest None 2)
    as [Hload _].
  - reflexivity.
  - reflexivity.
  - discriminate.
  - repeat constructor.
  - reflexivity.
  - lia.
  - rewrite Hload. reflexivity.
Defined.

(** C1 on [U.xy] with its four columns. *)
Lemma single_token_stem_witness :
  load_xy Sample.parse_records case ["U.xy"] None None = Raise ZeroDivisionError.
Proof.
  apply (load_xy_single_token_raises Sample.parse_records case ["U.xy"] "U").
  reflexivity.
Defined.

(** C2: three tokens and two columns give four names and no error. *)
Lemma uneven_columns_signal_nothing :
  first_value_column ["a"; "b"; "c"] 2 = Ok 0
  /\ (2 - 0) mod (len_from 0 ["a"; "b"; "c"]) <> 0
  /\ infer_names ["a"; "b"; "c"] 2 = Ok ["a"; "a"; "b"; "c"].
Proof.
  split; [reflexivity|]. split; [|reflexivity].
  vm_compute. intros H; discriminate H.
Qed.

(** C2 on five tokens and six columns: position 0, a quotient of 1.2. *)
Lemma uneven_columns_witness :
  infer_names ["a"; "b"; "c"; "d"; "e"] 6 = Raise TypeError.
Proof.
  destruct (uneven_columns_are_not_checked ["a"; "b"; "c"; "d"; "e"] 6 0)
    as [_ [_ [Hmore _]]].
  - reflexivity.
  - vm_compute. intros H; discriminate H.
  - apply Hmore. reflexivity.
Defined.

(** C9 on [postProcessing/forces]: the run in [0/] comes before the run
    in [100/], whatever the order of the directory entries. *)
Lemma directory_merge_witness :
  exists dat,
    load_dat Sample.float_of_string false Sample.parse_records case
      forces_dir None None = Ok dat
    /\ index dat = [Num 0; Num 1; Num 2; Num 3; Num 100; Num 101]
    /\ pd.len dat = (4 + 2)%nat
    /\ pd.labels dat = ["Cd"; "F.0"; "F.1"; "F.2"]
    /\ sorted (pathlib.rglob case forces_dir ".dat")
       = [forces_dir ++ ["0"; "forces.dat"]; forces_dir ++ ["100"; "forces.dat"]].
Proof.
  destruct (directory_merge_in_path_order
              Sample.float_of_string false Sample.parse_records case
              forces_dir None None eq_refl) as [Hsame _].
  destruct (Hsame "forces.dat"
              (fun p =>
                 match load Sample.float_of_string false Sample.parse_records
                         case None None p with
                 | Ok dat => dat
                 | Raise _ => mkFrame None [] []
                 end))
    as [dat [Hdat [Hindex [_ [Hlen [_ [_ [_ [_ [Hlabels _]]]]]]]]]].
  - discriminate.
  - intros p Hp. vm_compute in Hp. destruct Hp as [<-|[<-|[]]]; reflexivity.
  - intros p Hp. vm_compute in Hp. destruct Hp as [<-|[<-|[]]]; reflexivity.
  - exists dat. split; [exact Hdat|]. split; [|split; [|split]].
    + rewrite Hindex. reflexivity.
    + rewrite Hlen. reflexivity.
    + apply Hlabels.
      * repeat (constructor;
                [cbn [In]; intros H;
                 repeat (destruct H as [H|H]; [discriminate H|]); exact H|]).
        constructor.
      * intros p Hp. vm_compute in Hp.
        destruct Hp as [<-|[<-|[]]]; reflexivity.
    + reflexivity.
Defined.

(** C10 on a directory that holds only a log file. *)
Lemma directory_without_dat_files_witness :
  load_dat Sample.float_of_string false Sample.parse_records case
    ["postProcessing"; "empty"] None None = Raise ValueError
  /\ load_dat Sample.float_of_string false Sample.parse_records case
       ["postProcessing"; "mixed"] None None
     = load_dat Sample.float_of_string false Sample.parse_records case
         ["postProcessing"; "empty"] None None.
Proof.
  destruct (directory_without_dat_files_raises
              Sample.float_of_string false Sample.parse_records case
              ["postProcessing"; "empty"] None None eq_refl eq_refl)
    as [Hnone Hsame].
  split; [exact Hnone|].
  apply (Hsame case ["postProcessing"; "mixed"]
           ["postProcessing"; "mixed"; "forces.dat"]
           ["postProcessing"; "mixed"; "p.dat"]).
  - reflexivity.
  - left. reflexivity.
  - right. left. reflexivity.
  - vm_compute. intros H; discriminate H.
Defined.

(** C6 on the vector column [F] of a table with a second vector
    column. *)
Lemma tuple_column_round_trip_witness :
  unnest_columns Sample.float_of_string false (with_vectors even_cells)
  = Ok (mkFrame (Some "Time") [Num 0; Num 1]
          [("Cd", numeric [5; 6]);
           ("F.0", numeric [1; 4]);
           ("F.1", numeric [2; 5]);
           ("F.2", numeric [3; 6]);
           ("M.0", numeric [7; 9]);
           ("M.1", numeric [8; 10])])
  /\ zip_rows 2 [[1; 4]; [2; 5]; [3; 6]] = [[1; 2; 3]; [4; 5; 6]].
Proof.
  destruct (tuple_column_round_trip Sample.float_of_string false
              (Some "Time") [Num 0; Num 1]
              [("Cd", numeric [5; 6])]
              [("M", mkSeries object moment_cells)] "F"
              ["(1 2 3)"; "(4 5 6)"] (Str "(4 5 6)") 3
              [[1; 2; 3]; [4; 5; 6]])
    as [Hframe [_ [_ Hzip]]].
  - repeat (constructor; [eexists; reflexivity|]). constructor.
  - repeat constructor.
  - vm_compute. repeat constructor; simpl; intuition discriminate.
  - reflexivity.
  - reflexivity.
  - repeat constructor.
  - repeat constructor.
  - split; [exact Hframe|exact Hzip].
Defined.

(** C4 on a vector column with cells of three and of two components. *)
Lemma differing_widths_witness :
  unnest_columns Sample.float_of_string false (with_vectors uneven_cells)
  = Raise ValueError.
Proof.
  destruct (differing_widths_raise Sample.float_of_string false
              (Some "Time") [Num 0; Num 1] [("Cd", numeric [5; 6])]
              [("M", mkSeries object moment_cells)] "F"
              uneven_cells (Str "(4 5)") (Str "(1 2 3)") (Str "(4 5)"))
    as [e [Hraise Herror]].
  - repeat constructor; simpl; intros H; intuition discriminate.
  - reflexivity.
  - reflexivity.
  - left. reflexivity.
  - right. left. reflexivity.
  - vm_compute. intros H; discriminate H.
  - unfold with_vectors. rewrite Hraise. f_equal.
    apply (Herror (Forall_cons ("Cd", numeric [5; 6]) eq_refl (Forall_nil _))
             [[1; 2; 3]; [4; 5]]).
    reflexivity.
Defined.

(** ** The further properties on the example case *)

(** X1 on a file of comment lines only: the scan ends without a boundary. *)
Lemma header_scan_witness :
  get_header_size case ["only_comments.dat"] "#" = Ok None.
Proof.
  destruct (header_scan_characterised case ["only_comments.dat"] "#"
              only_comments eq_refl) as [_ [Hnone _]].
  apply Hnone. repeat constructor.
Defined.

(** X2 on the second line of [U.xy], which has one line. *)
Lemma count_columns_without_line_witness :
  count_columns case ["U.xy"] (String Py.TAB "") 2 = 0.
Proof.
  apply (count_columns_without_line case ["U.xy"] (String Py.TAB "") 2).
  - discriminate.
  - right. vm_compute. reflexivity.
Defined.

(** X3 on the first line of [U.xy]: four cells. *)
Lemma count_columns_counts_cells_witness :
  count_columns case ["U.xy"] (String Py.TAB "") 1 = 4.
Proof.
  rewrite (count_columns_counts_cells case ["U.xy"] Py.TAB 1).
  - reflexivity.
  - reflexivity.
  - vm_compute. split; intros H; discriminate H.
Defined.

(** X4 on a table with a numeric column and a column of names. *)
Lemma unnest_columns_leaves_plain_tables_witness :
  unnest_columns Sample.float_of_string false
    (mkFrame (Some "Time") [Num 0; Num 1]
       [("Cd", numeric [5; 6]);
        ("patch", mkSeries object [Str "inlet"; Str "outlet"])])
  = Ok (mkFrame (Some "Time") [Num 0; Num 1]
          [("Cd", numeric [5; 6]);
           ("patch", mkSeries object [Str "inlet"; Str "outlet"])]).
Proof.
  apply (unnest_columns_leaves_plain_tables Sample.float_of_string false).
  - constructor; [intros [H|[]]; discriminate H|].
    constructor; [intros []|constructor].
  - constructor; [left; reflexivity|].
    constructor; [|constructor].
    right. exists (Str "outlet"). split; reflexivity.
Defined.

(** X5 on the table with two vector columns. *)
Lemma unnest_columns_keeps_index_witness :
  exists dat',
    unnest_columns Sample.float_of_string false (with_vectors even_cells)
    = Ok dat'
    /\ index dat' = [Num 0; Num 1]
    /\ index_name dat' = Some "Time".
Proof.
  eexists. split; [vm_compute; reflexivity|].
  exact (unnest_columns_keeps_index Sample.float_of_string false
           (with_vectors even_cells) _ eq_refl).
Defined.

(** X6: a table that already has a column [F.1] beside the vector
    column [F]. *)
Lemma component_label_taken_witness :
  exists e,
    unnest_columns Sample.float_of_string false
      (mkFrame (Some "Time") [Num 0; Num 1]
         ([("F.1", numeric [5; 6])] ++ ("F", mkSeries object even_cells) :: []))
    = Raise e.
Proof.
  apply (component_label_taken_raises Sample.float_of_string false
           (Some "Time") [Num 0; Num 1] [("F.1", numeric [5; 6])] []
           "F" even_cells (Str "(4 5 6)") 3 1 [[1; 2; 3]; [4; 5; 6]]).
  - constructor; [intros [H|[]]; discriminate H|].
    constructor; [intros []|constructor].
  - reflexivity.
  - vm_compute. reflexivity.
  - reflexivity.
  - repeat constructor.
  - lia.
  - left. reflexivity.
Defined.

(** X7: a vector whose third component is not a number. *)
Lemma unparsable_cell_witness :
  unnest_columns Sample.float_of_string false
    (mkFrame (Some "Time") [Num 0; Num 1]
       ([("Cd", numeric [5; 6])]
          ++ ("F", mkSeries object [Str "(1 2 x)"; Str "(4 5 6)"]) :: []))
  = Raise ValueError.
Proof.
  destruct (unparsable_cell_raises Sample.float_of_string false
              (Some "Time") [Num 0; Num 1] [("Cd", numeric [5; 6])] []
              "F" [Str "(1 2 x)"; Str "(4 5 6)"] (Str "(4 5 6)")
              "(1 2 x)" "x") as [e [Hraise Herror]].
  - constructor; [intros [H|[]]; discriminate H|].
    constructor; [intros []|constructor].
  - reflexivity.
  - vm_compute. reflexivity.
  - left. reflexivity.
  - vm_compute. right. right. left. reflexivity.
  - reflexivity.
  - rewrite Hraise. f_equal. apply Herror.
    + repeat constructor.
    + constructor; [eexists; reflexivity|].
      constructor; [eexists; reflexivity|constructor].
Defined.

(** X12 on the stem [x_U] and a file of four columns. *)
Lemma names_with_one_index_column_witness :
  infer_names ["x"; "U"] 4 = Ok ["x"; "U.x"; "U.y"; "U.z"].
Proof.
  apply (names_with_one_index_column "x" ["U"] 3). discriminate.
Defined.

(** X11 on the same stem: as many names as columns. *)
Lemma names_count_witness :
  Z.of_nat (List.length ["x"; "U.x"; "U.y"; "U.z"]) = 4.
Proof.
  destruct (names_count ["x"; "U"] ["x"; "U.x"; "U.y"; "U.z"] 4 1)
    as [Hcount _].
  - reflexivity.
  - reflexivity.
  - apply Hcount; [discriminate|lia].
Defined.

(** X13 on the stem [x_U] and three columns: two components for each
    field, which [range] refuses. *)
Lemma infer_names_errors_witness :
  exists pos, first_value_column ["x"; "U"] 3 = Ok pos.
Proof.
  destruct (infer_names_errors ["x"; "U"] 3 TypeError eq_refl)
    as [[H _]|[_ H]]; [discriminate H|exact H].
Defined.


(** X15 on [forces.dat]: [use_nth = 1] loads what no [use_nth] loads. *)
Lemma load_without_decimation_witness :
  load Sample.float_of_string false Sample.parse_records case None (Some 1)
    (forces_dir ++ ["0"; "forces.dat"])
  = load Sample.float_of_string false Sample.parse_records case None None
      (forces_dir ++ ["0"; "forces.dat"]).
Proof.
  rewrite (load_without_decimation Sample.float_of_string false
             Sample.parse_records case (forces_dir ++ ["0"; "forces.dat"])
             forces_0 forces_comments forces_first forces_rest None (Some 1)).
  - reflexivity.
  - reflexivity.
  - reflexivity.
  - discriminate.
  - repeat constructor.
  - reflexivity.
  - lia.
Defined.

(** X16 on [a_b_c.xy]: its only line is line 0 and is kept. *)
Lemma load_xy_rows_witness :
  kept_by_line_number 2 (0, pd.chomp (Sample.line ["0"; "1"])) = true.
Proof.
  destruct (load_xy_rows Sample.parse_records case ["a_b_c.xy"]
              (Sample.line ["0"; "1"]) None (Some 2) eq_refl) as [_ Hfirst].
  exact (Hfirst 2 (pd.chomp (Sample.line ["0"; "1"])) [] eq_refl
           ltac:(lia) eq_refl).
Defined.

(** X17: three runs, the second with vectors of two widths. *)
Lemma directory_merge_raises_first_error_witness :
  load_dat Sample.float_of_string false Sample.parse_records
    (Dir [("0", Dir [("forces.dat", File forces_0)]);
          ("1", Dir [("forces.dat",
                      File (String.concat ""
                              [Sample.line ["# Time"; "F"];
                               Sample.line ["0"; "(1 2 3)"];
                               Sample.line ["1"; "(4 5)"]]))]);
          ("2", Dir [("forces.dat", File forces_100)])])
    [] None None
  = Raise ValueError.
Proof.
  apply (directory_merge_raises_first_error Sample.float_of_string false
           Sample.parse_records _ [] None None "forces.dat"
           [["0"; "forces.dat"]] ["1"; "forces.dat"] [["2"; "forces.dat"]]).
  - reflexivity.
  - intros p Hp. vm_compute in Hp.
    destruct Hp as [<-|[<-|[<-|[]]]]; reflexivity.
  - reflexivity.
  - intros p [<-|[]]. eexists. vm_compute. reflexivity.
  - vm_compute. reflexivity.
Defined.
